(** * Startup Intelligence Agent: pipeline orchestration, scheduling, extraction

    A shallow embedding of the Python backend
    (startup-intelligence-agent/backend/src): the workflow scheduler, the HTTP
    control surface, the persistence layer, the analysis and summarizer agents
    and the orchestrator, with the properties the specification states about
    them.

    Conventions of the embedding.
    - Wall-clock instants ([datetime.now()]) are integers (seconds); a
      [timedelta(seconds=n)] is the integer [n].
    - A Python [str] is a Rocq [string], one [ascii] per character.
    - A function that may raise is a computation in the monad [M]: it threads
      the mutable state and yields [Ok v] or [Raise e].  State written before
      an exception is raised stays written, as in Python.
    - [exn] lists the exception classes the code raises or catches. *)

From Stdlib Require Import String Ascii List ZArith Lia Bool DecimalString.
Import ListNotations.
Local Open Scope string_scope.
Local Open Scope Z_scope.
Set Warnings "-register-all".

(** ** Python exceptions and the state-and-exception monad *)

Module Py.

Inductive exn : Type :=
| ValueError (msg : string)
| JSONDecodeError (msg : string)        (* json.JSONDecodeError <: ValueError *)
| RuntimeError (msg : string)
| TypeError (msg : string)
| AttributeError (msg : string)
| KeyError (msg : string)
| HTTPException (status_code : Z) (detail : string) (* fastapi.HTTPException *)
| RequestError (msg : string)           (* httpx.RequestError *)
| HTTPStatusError (status_code : Z)     (* httpx.HTTPStatusError *)
| SqliteError (msg : string)            (* sqlite3.Error and subclasses *)
| CancelledError.                       (* asyncio.CancelledError <: BaseException *)

(** [isinstance(e, Exception)]: everything but [CancelledError]. *)
Definition is_Exception (e : exn) : bool :=
  match e with CancelledError => false | _ => true end.

(** [isinstance(e, ValueError)]. *)
Definition is_ValueError (e : exn) : bool :=
  match e with ValueError _ | JSONDecodeError _ => true | _ => false end.

(** [str(e)]; for an [HTTPException] Starlette prints "code: detail". *)
Definition str_exn (e : exn) : string :=
  match e with
  | ValueError m | JSONDecodeError m | RuntimeError m | TypeError m
  | AttributeError m | KeyError m | RequestError m | SqliteError m => m
  | HTTPException c d => NilZero.string_of_int (Z.to_int c) ++ ": " ++ d
  | HTTPStatusError c => "HTTP status " ++ NilZero.string_of_int (Z.to_int c)
  | CancelledError => ""
  end.

Inductive result (A : Type) : Type :=
| Ok (a : A)
| Raise (e : exn).
Arguments Ok {A} a.
Arguments Raise {A} e.

Definition M (S A : Type) : Type := S -> result A * S.

Definition ret {S A} (a : A) : M S A := fun s => (Ok a, s).

Definition bind {S A B} (m : M S A) (k : A -> M S B) : M S B :=
  fun s => match m s with
           | (Ok a, s') => k a s'
           | (Raise e, s') => (Raise e, s')
           end.

Definition raise {S A} (e : exn) : M S A := fun s => (Raise e, s).
Definition get {S} : M S S := fun s => (Ok s, s).
Definition put {S} (s : S) : M S unit := fun _ => (Ok tt, s).
Definition modify {S} (f : S -> S) : M S unit := fun s => (Ok tt, f s).

(** [try: m  except <any> as e: h e]; the handler re-raises what it does not
    catch. *)
Definition try_except {S A} (m : M S A) (h : exn -> M S A) : M S A :=
  fun s => match m s with
           | (Ok a, s') => (Ok a, s')
           | (Raise e, s') => h e s'
           end.

(** Lifting a pure [result]. *)
Definition lift {S A} (r : result A) : M S A := fun s => (r, s).

Definition is_ok {A} (r : result A) : bool :=
  match r with Ok _ => true | Raise _ => false end.

End Py.

Import Py.

Declare Scope py_scope.
Delimit Scope py_scope with py.
Notation "x <- c1 ;; c2" := (bind c1 (fun x => c2))
  (at level 61, c1 at next level, right associativity) : py_scope.
Notation "c1 ;; c2" := (bind c1 (fun _ => c2))
  (at level 61, right associativity) : py_scope.
Local Open Scope py_scope.

(** ** workflow/scheduler.py *)

Module Scheduler.

Inductive ScheduleFrequency : Type := HOURLY | DAILY | WEEKLY | CUSTOM.

(** The attributes of a [WorkflowScheduler] instance.  [scheduled_task] only
    records whether a loop task handle is held. *)
Record WorkflowScheduler : Type := mkScheduler {
  scheduled_task : bool;
  is_running : bool;
  last_run : option Z;
  next_run : option Z;
  frequency : option ScheduleFrequency;
  interval_seconds : option Z;
  enabled : bool
}.

(** [WorkflowScheduler.__init__]. *)
Definition init : WorkflowScheduler :=
  mkScheduler false false None None None None false.

(** One call of the injected [workflow_runner]: how long the awaited call
    takes and how it ends. *)
Inductive run_outcome : Type :=
| Returns
| Raises (e : exn).

Record run : Type := mkRun { duration : Z; outcome : run_outcome }.

Inductive sleep_site : Type :=
| UntilNextRun      (* asyncio.sleep(wait_seconds), line 120 *)
| IdlePoll          (* asyncio.sleep(60), line 129 *)
| Backoff.          (* asyncio.sleep(300), line 137 *)

Inductive task : Type := RunWorkflowTask | SchedulerLoopTask.

Inductive event : Type :=
| Slept (site : sleep_site) (seconds : Z)
| Spawned (t : task)
| TaskCancelled (t : task)
| RunStarted (at_time : Z)
| RunEnded (at_time : Z) (how : run_outcome).

(** The scheduler object together with the clock, the number of runner calls
    made so far and the chronological record of what happened. *)
Record state : Type := mkState {
  self : WorkflowScheduler;
  clock : Z;
  runs : nat;
  trace : list event
}.

Definition set_self (f : WorkflowScheduler -> WorkflowScheduler) : M state unit :=
  modify (fun s => mkState (f (self s)) (clock s) (runs s) (trace s)).

Definition emit (ev : event) : M state unit :=
  modify (fun s => mkState (self s) (clock s) (runs s) (trace s ++ [ev])).

Definition datetime_now : M state Z := fun s => (Ok (clock s), s).

(** [await asyncio.sleep(seconds)]. *)
Definition asyncio_sleep (site : sleep_site) (seconds : Z) : M state unit :=
  modify (fun s => mkState (self s) (clock s + seconds) (runs s)
                           (trace s ++ [Slept site seconds])).

Definition set_last_run (v : option Z) (w : WorkflowScheduler) :=
  mkScheduler (scheduled_task w) (is_running w) v (next_run w)
              (frequency w) (interval_seconds w) (enabled w).
Definition set_next_run (v : option Z) (w : WorkflowScheduler) :=
  mkScheduler (scheduled_task w) (is_running w) (last_run w) v
              (frequency w) (interval_seconds w) (enabled w).
Definition set_frequency (v : option ScheduleFrequency) (w : WorkflowScheduler) :=
  mkScheduler (scheduled_task w) (is_running w) (last_run w) (next_run w)
              v (interval_seconds w) (enabled w).
Definition set_interval_seconds (v : option Z) (w : WorkflowScheduler) :=
  mkScheduler (scheduled_task w) (is_running w) (last_run w) (next_run w)
              (frequency w) v (enabled w).
Definition set_enabled (v : bool) (w : WorkflowScheduler) :=
  mkScheduler (scheduled_task w) (is_running w) (last_run w) (next_run w)
              (frequency w) (interval_seconds w) v.
Definition set_is_running (v : bool) (w : WorkflowScheduler) :=
  mkScheduler (scheduled_task w) v (last_run w) (next_run w)
              (frequency w) (interval_seconds w) (enabled w).
Definition set_scheduled_task (v : bool) (w : WorkflowScheduler) :=
  mkScheduler v (is_running w) (last_run w) (next_run w)
              (frequency w) (interval_seconds w) (enabled w).

(** Truth value of an [Optional[int]]: [None] and [0] are false. *)
Definition truthy (o : option Z) : bool :=
  match o with
  | Some z => negb (z =? 0)
  | None => false
  end.

Section WithRunner.

(** The injected [workflow_runner]: the behaviour of its n-th call. *)
Variable workflow_runner : nat -> run.

(** [await self.workflow_runner()]. *)
Definition await_workflow_runner : M state unit :=
  fun s =>
    let r := workflow_runner (runs s) in
    let t0 := clock s in
    let t1 := t0 + duration r in
    let s' := mkState (self s) t1 (S (runs s))
                      (trace s ++ [RunStarted t0; RunEnded t1 (outcome r)]) in
    match outcome r with
    | Returns => (Ok tt, s')
    | Raises e => (Raise e, s')
    end.

(** [WorkflowScheduler._run_workflow] (lines 139-152). *)
Definition _run_workflow : M state unit :=
  try_except
    (now <- datetime_now ;;
     set_self (set_last_run (Some now)) ;;
     await_workflow_runner)
    (fun e => if is_Exception e then ret tt else raise e).

(** [WorkflowScheduler._calculate_next_run] (lines 154-161). *)
Definition _calculate_next_run : M state unit :=
  s <- get ;;
  match interval_seconds (self s) with
  | Some iv =>
      if negb (truthy (Some iv)) then set_self (set_next_run None)
      else
        base_time <- match last_run (self s) with
                     | Some t => ret t
                     | None => datetime_now
                     end ;;
        set_self (set_next_run (Some (base_time + iv)))
  | None => set_self (set_next_run None)
  end.

(** The [try] block of one turn of the [while self.enabled] loop
    (lines 113-129). *)
Definition loop_try_block : M state unit :=
  s <- get ;;
  match next_run (self s) with
  | Some nr =>
      now <- datetime_now ;;
      let wait_seconds := nr - now in
      (if 0 <? wait_seconds then asyncio_sleep UntilNextRun wait_seconds
       else ret tt) ;;
      _run_workflow ;;
      _calculate_next_run
  | None => asyncio_sleep IdlePoll 60
  end.

(** One turn of the loop with its two [except] clauses (lines 131-137);
    returns [false] on [break]. *)
Definition loop_turn : M state bool :=
  try_except
    (loop_try_block ;; ret true)
    (fun e =>
       match e with
       | CancelledError => ret false
       | _ => asyncio_sleep Backoff 300 ;; ret true
       end).

(** [WorkflowScheduler._scheduler_loop], bounded by [fuel] turns. *)
Fixpoint _scheduler_loop (fuel : nat) : M state unit :=
  match fuel with
  | O => ret tt
  | S fuel' =>
      s <- get ;;
      if enabled (self s) then
        continue <- loop_turn ;;
        if continue : bool then _scheduler_loop fuel' else ret tt
      else ret tt
  end.

(** [WorkflowScheduler.trigger_now] (lines 178-185). *)
Definition trigger_now : M state unit :=
  s <- get ;;
  if negb (is_running (self s)) then raise (RuntimeError "Scheduler is not running")
  else _run_workflow ;; _calculate_next_run.

End WithRunner.

(** [WorkflowScheduler.start] (lines 54-87).  The two [asyncio.create_task]
    calls only schedule tasks; they are recorded in the trace. *)
Definition start (freq : ScheduleFrequency) (interval : option Z)
           (run_immediately : bool) : M state unit :=
  s <- get ;;
  if is_running (self s) then ret tt
  else
    set_self (set_frequency (Some freq)) ;;
    set_self (set_enabled true) ;;
    match freq with
    | HOURLY => set_self (set_interval_seconds (Some 3600))
    | DAILY => set_self (set_interval_seconds (Some 86400))
    | WEEKLY => set_self (set_interval_seconds (Some 604800))
    | CUSTOM =>
        if negb (truthy interval)
        then raise (ValueError "interval_seconds required for CUSTOM frequency")
        else set_self (set_interval_seconds interval)
    end ;;
    (if run_immediately then emit (Spawned RunWorkflowTask) else ret tt) ;;
    set_self (set_is_running true) ;;
    emit (Spawned SchedulerLoopTask) ;;
    set_self (set_scheduled_task true) ;;
    _calculate_next_run.

(** [WorkflowScheduler.stop] (lines 91-107). *)
Definition stop : M state unit :=
  s <- get ;;
  if negb (is_running (self s)) then ret tt
  else
    set_self (set_enabled false) ;;
    set_self (set_is_running false) ;;
    (if scheduled_task (self s) then emit (TaskCancelled SchedulerLoopTask)
     else ret tt) ;;
    set_self (set_scheduled_task false).

End Scheduler.

(** ** JSON values: Python dicts, lists and scalars as [json.loads] yields them *)

Module Json.

Inductive json : Type :=
| JNull
| JBool (b : bool)
| JInt (z : Z)
| JFloat (repr : string)
| JStr (s : string)
| JList (items : list json)
| JDict (entries : list (string * json)).   (* insertion-ordered *)

Fixpoint assoc {A} (k : string) (kv : list (string * A)) : option A :=
  match kv with
  | [] => None
  | (k', v) :: rest => if String.eqb k k' then Some v else assoc k rest
  end.

(** [d[k] = v] on a dict held as an ordered association list. *)
Fixpoint assoc_set {A} (k : string) (v : A) (kv : list (string * A))
  : list (string * A) :=
  match kv with
  | [] => [(k, v)]
  | (k', v') :: rest =>
      if String.eqb k k' then (k, v) :: rest else (k', v') :: assoc_set k v rest
  end.

(** [len(x)] for the values that have a length. *)
Definition py_len (v : json) : result Z :=
  match v with
  | JList l => Ok (Z.of_nat (List.length l))
  | JStr s => Ok (Z.of_nat (String.length s))
  | JDict kv => Ok (Z.of_nat (List.length kv))
  | _ => Raise (TypeError "object has no len()")
  end.

(** [x.get(k, default)]: only a dict has [get]. *)
Definition py_get (x : json) (k : string) (default : json) : result json :=
  match x with
  | JDict kv => Ok (match assoc k kv with Some v => v | None => default end)
  | _ => Raise (AttributeError "object has no attribute 'get'")
  end.

(** The canonical empty schema of the analysis stage. *)
Definition empty_schema : json :=
  JDict [("trends", JList []);
         ("competitor_moves", JList []);
         ("opportunities_for_founders", JList []);
         ("opportunities_for_investors", JList [])].

End Json.

Import Json.

(** ** database/db.py *)

Module Database.

(** Input records, as the collectors deliver them ([d.get(k)] is [None] for a
    missing key).  JSON-valued attributes ([metadata], [investors], ...) are
    kept as their serialised text. *)
Record Article : Type := mkArticle {
  news_title : option string;
  news_url : option string;
  news_source : option string;
  news_timestamp : option string;
  news_summary : option string;
  news_author : option string;
  news_metadata : string
}.

Record FundingRound : Type := mkFunding {
  funding_name : option string;
  funding_company_name : option string;
  funding_type : option string;
  funding_amount : option string;
  funding_currency : option string;
  funding_date : option string;
  funding_description : option string;
  funding_investors : string;
  funding_category : option string;
  funding_link : option string;
  funding_source : option string
}.

Record Launch : Type := mkLaunch {
  launch_name : option string;
  launch_type : option string;
  launch_description : option string;
  launch_date : option string;
  launch_category : option string;
  launch_link : option string;
  launch_founders : string;
  launch_tagline : option string;
  launch_source : option string
}.

Record Repository : Type := mkRepository {
  repo_name : option string;
  repo_full_name : option string;
  repo_description : option string;
  repo_language : option string;
  repo_stars : Z;
  repo_url : option string;
  repo_created_at : option string;
  repo_updated_at : option string;
  repo_topics : string
}.

Record RepoSignal : Type := mkSignal {
  signal_type : option string;
  signal_repository_name : option string;
  signal_repository_url : option string;
  signal_indicator : option string;
  signal_confidence : option string;
  signal_date : option string;
  signal_metadata : string
}.

(** Stored rows: the AUTOINCREMENT id, the inserted values and the columns the
    database fills in ([is_enriched DEFAULT 0], [repository_id]). *)
Record news_row : Type := mkNewsRow {
  news_id : Z; news_rec : Article; news_is_enriched : bool }.
Record funding_row : Type := mkFundingRow {
  funding_id : Z; funding_rec : FundingRound; funding_is_enriched : bool }.
Record launch_row : Type := mkLaunchRow {
  launch_id : Z; launch_rec : Launch; launch_is_enriched : bool }.
Record repo_row : Type := mkRepoRow {
  repo_id : Z; repo_rec : Repository; repo_is_enriched : bool }.
Record signal_row : Type := mkSignalRow {
  signal_id : Z; signal_repository_id : option Z; signal_rec : RepoSignal }.
Record analysis_row : Type := mkAnalysisRow {
  analysis_type : string;
  data_date_range_start : string;
  data_date_range_end : string;
  results_json : json;
  model_used : string
}.
Record briefing_row : Type := mkBriefingRow {
  briefing_date : string;
  summary_text : string;
  briefing_json : json;
  data_start_date : string;
  data_end_date : string
}.

(** The tables of [init_db], each in insertion order. *)
Record t : Type := mkDb {
  news : list news_row;
  funding : list funding_row;
  launches : list launch_row;
  github_repositories : list repo_row;
  github_signals : list signal_row;
  analysis_results : list analysis_row;
  briefings : list briefing_row
}.

Definition empty : t := mkDb [] [] [] [] [] [] [].

Definition is_null {A} (o : option A) : bool :=
  match o with None => true | Some _ => false end.

(** SQL equality of two TEXT values: NULL equals nothing. *)
Definition sql_eq (a b : option string) : bool :=
  match a, b with
  | Some x, Some y => String.eqb x y
  | _, _ => false
  end.

(** Python [a or b] on optional strings: [None] and the empty string are
    false. *)
Definition py_or (a b : option string) : option string :=
  match a with
  | Some "" | None => b
  | Some _ => a
  end.

Definition next_id {A} (rows : list A) : Z := Z.of_nat (List.length rows) + 1.

(** [Database._validate_days] (lines 36-40). *)
Definition _validate_days (days : Z) : result Z :=
  if (days <? 1) || (365 <? days)
  then Raise (ValueError "days must be an integer between 1 and 365")
  else Ok days.

(** [Database._validate_limit] (lines 43-49). *)
Definition _validate_limit (limit : option Z) : result (option Z) :=
  match limit with
  | None => Ok None
  | Some l =>
      if (l <? 1) || (10000 <? l)
      then Raise (ValueError "limit must be an integer between 1 and 10000")
      else Ok (Some l)
  end.

(** *** Inserts *)

(** news: [title], [url], [source], [timestamp] are NOT NULL, [url] is UNIQUE.
    [INSERT OR IGNORE] skips a row that violates either kind of constraint
    and leaves [cursor.rowcount] at 0. *)
Definition news_accepts (rows : list news_row) (a : Article) : bool :=
  negb (is_null (news_title a)) && negb (is_null (news_url a))
  && negb (is_null (news_source a)) && negb (is_null (news_timestamp a))
  && negb (existsb (fun r => sql_eq (news_url (news_rec r)) (news_url a)) rows).

Definition insert_news_step (acc : t * Z) (article : Article) : t * Z :=
  let '(db, inserted) := acc in
  if news_accepts (news db) article then
    (mkDb (news db ++ [mkNewsRow (next_id (news db)) article false])
          (funding db) (launches db) (github_repositories db)
          (github_signals db) (analysis_results db) (briefings db),
     inserted + 1)
  else (db, inserted).

(** [Database.insert_news] (lines 222-250). *)
Definition insert_news (articles : list Article) : M t Z :=
  fun db => let '(db', inserted) := fold_left insert_news_step articles (db, 0)
            in (Ok inserted, db').

(** funding: [company_name], [date], [source] NOT NULL, [link] UNIQUE. *)
Definition funding_company (r : FundingRound) : option string :=
  py_or (funding_name r) (funding_company_name r).

Definition funding_accepts (rows : list funding_row) (r : FundingRound) : bool :=
  negb (is_null (funding_company r)) && negb (is_null (funding_date r))
  && negb (is_null (funding_source r))
  && negb (existsb (fun x => sql_eq (funding_link (funding_rec x)) (funding_link r)) rows).

Definition insert_funding_step (acc : t * Z) (round_data : FundingRound) : t * Z :=
  let '(db, inserted) := acc in
  if funding_accepts (funding db) round_data then
    (mkDb (news db)
          (funding db ++ [mkFundingRow (next_id (funding db)) round_data false])
          (launches db) (github_repositories db)
          (github_signals db) (analysis_results db) (briefings db),
     inserted + 1)
  else (db, inserted).

(** [Database.insert_funding] (lines 291-324). *)
Definition insert_funding (rounds : list FundingRound) : M t Z :=
  fun db => let '(db', inserted) := fold_left insert_funding_step rounds (db, 0)
            in (Ok inserted, db').

(** launches: [name], [date], [source] NOT NULL, [link] UNIQUE. *)
Definition launch_accepts (rows : list launch_row) (l : Launch) : bool :=
  negb (is_null (launch_name l)) && negb (is_null (launch_date l))
  && negb (is_null (launch_source l))
  && negb (existsb (fun x => sql_eq (launch_link (launch_rec x)) (launch_link l)) rows).

Definition insert_launches_step (acc : t * Z) (launch : Launch) : t * Z :=
  let '(db, inserted) := acc in
  if launch_accepts (launches db) launch then
    (mkDb (news db) (funding db)
          (launches db ++ [mkLaunchRow (next_id (launches db)) launch false])
          (github_repositories db)
          (github_signals db) (analysis_results db) (briefings db),
     inserted + 1)
  else (db, inserted).

(** [Database.insert_launches] (lines 360-391). *)
Definition insert_launches (ls : list Launch) : M t Z :=
  fun db => let '(db', inserted) := fold_left insert_launches_step ls (db, 0)
            in (Ok inserted, db').

(** github_repositories: [name], [full_name], [url], [created_at],
    [updated_at] NOT NULL, [full_name] UNIQUE. *)
Definition repo_accepts (rows : list repo_row) (r : Repository) : bool :=
  negb (is_null (repo_name r)) && negb (is_null (repo_full_name r))
  && negb (is_null (repo_url r)) && negb (is_null (repo_created_at r))
  && negb (is_null (repo_updated_at r))
  && negb (existsb (fun x => sql_eq (repo_full_name (repo_rec x)) (repo_full_name r)) rows).

Definition insert_github_repositories_step (acc : t * Z) (repo : Repository) : t * Z :=
  let '(db, inserted) := acc in
  if repo_accepts (github_repositories db) repo then
    (mkDb (news db) (funding db) (launches db)
          (github_repositories db
             ++ [mkRepoRow (next_id (github_repositories db)) repo false])
          (github_signals db) (analysis_results db) (briefings db),
     inserted + 1)
  else (db, inserted).

(** [Database.insert_github_repositories] (lines 427-466). *)
Definition insert_github_repositories (rs : list Repository) : M t Z :=
  fun db => let '(db', inserted) :=
              fold_left insert_github_repositories_step rs (db, 0)
            in (Ok inserted, db').

(** github_signals: [signal_type], [indicator], [date] NOT NULL and no UNIQUE
    column.  The statement is a plain [INSERT]: a NOT NULL violation raises
    [sqlite3.IntegrityError], which the loop catches and prints; every other
    row is stored and counted. *)
Definition lookup_repository_id (rows : list repo_row) (name : string) : option Z :=
  match find (fun x => sql_eq (repo_full_name (repo_rec x)) (Some name)
                       || sql_eq (repo_name (repo_rec x)) (Some name)) rows with
  | Some x => Some (repo_id x)
  | None => None
  end.

Definition signal_accepts (s : RepoSignal) : bool :=
  negb (is_null (signal_type s)) && negb (is_null (signal_indicator s))
  && negb (is_null (signal_date s)).

Definition insert_github_signals_step (acc : t * Z) (signal : RepoSignal) : t * Z :=
  let '(db, inserted) := acc in
  let repository_id :=
    match signal_repository_name signal with
    | Some "" | None => None
    | Some n => lookup_repository_id (github_repositories db) n
    end in
  if signal_accepts signal then
    (mkDb (news db) (funding db) (launches db) (github_repositories db)
          (github_signals db
             ++ [mkSignalRow (next_id (github_signals db)) repository_id signal])
          (analysis_results db) (briefings db),
     inserted + 1)
  else (db, inserted).

(** [Database.insert_github_signals] (lines 502-543). *)
Definition insert_github_signals (signals : list RepoSignal) : M t Z :=
  fun db => let '(db', inserted) :=
              fold_left insert_github_signals_step signals (db, 0)
            in (Ok inserted, db').

(** *** Queries

    The date window of each query is computed by SQLite
    ([datetime(timestamp) >= datetime('now', '-N days')]); it is the parameter
    [sql_recent days text].  [ORDER BY] is not modelled: the callers embedded
    below use the rows for their number and hand them on unchanged. *)

Section Queries.

Variable sql_recent : Z -> option string -> bool.

Definition flag_matches (enriched : option bool) (flag : bool) : bool :=
  match enriched with
  | None => true
  | Some b => Bool.eqb b flag
  end.

Definition apply_limit {A} (limit : option Z) (rows : list A) : list A :=
  match limit with
  | None => rows
  | Some l => firstn (Z.to_nat l) rows
  end.

(** [Database.get_recent_news] (lines 252-288), called without [source]. *)
Definition get_recent_news (days : Z) (enriched : option bool)
           (limit : option Z) : M t (list news_row) :=
  days' <- lift (_validate_days days) ;;
  limit' <- lift (_validate_limit limit) ;;
  db <- get ;;
  ret (apply_limit limit'
         (filter (fun r => sql_recent days' (news_timestamp (news_rec r))
                           && flag_matches enriched (news_is_enriched r))
                 (news db))).

(** [Database.get_recent_funding] (lines 326-357). *)
Definition get_recent_funding (days : Z) (enriched : option bool)
           (limit : option Z) : M t (list funding_row) :=
  days' <- lift (_validate_days days) ;;
  limit' <- lift (_validate_limit limit) ;;
  db <- get ;;
  ret (apply_limit limit'
         (filter (fun r => sql_recent days' (funding_date (funding_rec r))
                           && flag_matches enriched (funding_is_enriched r))
                 (funding db))).

(** [Database.get_recent_launches] (lines 393-424). *)
Definition get_recent_launches (days : Z) (enriched : option bool)
           (limit : option Z) : M t (list launch_row) :=
  days' <- lift (_validate_days days) ;;
  limit' <- lift (_validate_limit limit) ;;
  db <- get ;;
  ret (apply_limit limit'
         (filter (fun r => sql_recent days' (launch_date (launch_rec r))
                           && flag_matches enriched (launch_is_enriched r))
                 (launches db))).

(** [Database.get_recent_github_repos] (lines 468-499). *)
Definition get_recent_github_repos (days : Z) (enriched : option bool)
           (limit : option Z) : M t (list repo_row) :=
  days' <- lift (_validate_days days) ;;
  limit' <- lift (_validate_limit limit) ;;
  db <- get ;;
  ret (apply_limit limit'
         (filter (fun r => sql_recent days' (repo_updated_at (repo_rec r))
                           && flag_matches enriched (repo_is_enriched r))
                 (github_repositories db))).

(** [Database.get_recent_github_signals] (lines 545-571). *)
Definition get_recent_github_signals (days : Z) (limit : option Z)
  : M t (list signal_row) :=
  days' <- lift (_validate_days days) ;;
  limit' <- lift (_validate_limit limit) ;;
  db <- get ;;
  ret (apply_limit limit'
         (filter (fun r => sql_recent days' (signal_date (signal_rec r)))
                 (github_signals db))).

End Queries.

(** [Database.save_analysis_result] (lines 937-957): a plain INSERT. *)
Definition save_analysis_result (type date_start date_end : string)
           (results : json) (model : string) : M t unit :=
  modify (fun db =>
    mkDb (news db) (funding db) (launches db) (github_repositories db)
         (github_signals db)
         (analysis_results db
            ++ [mkAnalysisRow type date_start date_end results model])
         (briefings db)).

(** [Database.save_briefing] (lines 981-1000): [INSERT OR REPLACE] on the
    UNIQUE [briefing_date]. *)
Definition save_briefing (date summary : string) (content : json)
           (data_start data_end : string) : M t unit :=
  modify (fun db =>
    mkDb (news db) (funding db) (launches db) (github_repositories db)
         (github_signals db) (analysis_results db)
         (filter (fun r => negb (String.eqb (briefing_date r) date)) (briefings db)
            ++ [mkBriefingRow date summary content data_start data_end])).

(** [Database.get_briefing_by_date] (lines 1022-1039). *)
Definition get_briefing_by_date (date : string) : M t (option briefing_row) :=
  db <- get ;;
  ret (find (fun r => String.eqb (briefing_date r) date) (briefings db)).



End Database.

(** ** The [str] methods the extractor uses *)

Module PyStr.

(** [sub in s]. *)
Definition contains (sub s : string) : bool :=
  match index 0 sub s with Some _ => true | None => false end.

(** [s.find(sub, start)] for [start >= 0]: first position at or after
    [start], or -1. *)
Definition find (s sub : string) (start : Z) : Z :=
  match index (Z.to_nat start) sub s with
  | Some i => Z.of_nat i
  | None => -1
  end.

Fixpoint rfind_from (sub s : string) (pos : nat) (last : Z) : Z :=
  let last' := if prefix sub s then Z.of_nat pos else last in
  match s with
  | EmptyString => last'
  | String _ s' => rfind_from sub s' (S pos) last'
  end.

(** [s.rfind(sub)]: last position, or -1. *)
Definition rfind (s sub : string) : Z := rfind_from sub s 0 (-1).

(** [s[a:b]] for non-negative [a] and [b]. *)
Definition slice (s : string) (a b : Z) : string :=
  substring (Z.to_nat a) (Z.to_nat (b - a)) s.

(** [c.isspace()] on the code points below 256. *)
Definition isspace (c : ascii) : bool :=
  let n := nat_of_ascii c in
  ((9 <=? n) && (n <=? 13) || (28 <=? n) && (n <=? 32)
   || (n =? 133) || (n =? 160))%nat.

Fixpoint lstrip (s : string) : string :=
  match s with
  | EmptyString => EmptyString
  | String c s' => if isspace c then lstrip s' else s
  end.

Fixpoint rstrip (s : string) : string :=
  match s with
  | EmptyString => EmptyString
  | String c s' =>
      match rstrip s' with
      | EmptyString => if isspace c then EmptyString else String c EmptyString
      | r => String c r
      end
  end.

(** [s.strip()]. *)
Definition strip (s : string) : string := rstrip (lstrip s).

(** [str(n)] for an [int]. *)
Definition of_int (n : Z) : string := NilZero.string_of_int (Z.to_int n).

(** [s.upper()] on ASCII letters. *)
Definition upper_char (c : ascii) : ascii :=
  let n := nat_of_ascii c in
  if ((97 <=? n) && (n <=? 122))%nat then ascii_of_nat (n - 32) else c.

Fixpoint upper (s : string) : string :=
  match s with
  | EmptyString => EmptyString
  | String c s' => String (upper_char c) (upper s')
  end.

(** [s.lower()] on the code points below 256: the ASCII capitals and the
    Latin-1 capitals (U+00C0 to U+00DE without the multiplication sign). *)
Definition lower_char (c : ascii) : ascii :=
  let n := nat_of_ascii c in
  if ((65 <=? n) && (n <=? 90)
      || (192 <=? n) && (n <=? 222) && negb (n =? 215))%nat
  then ascii_of_nat (n + 32) else c.

Fixpoint lower (s : string) : string :=
  match s with
  | EmptyString => EmptyString
  | String c s' => String (lower_char c) (lower s')
  end.

End PyStr.

(** ** llm/client.py *)

Module LLM.

Record LLMClient : Type := mkClient {
  provider : string;
  model : string;
  api_key : option string
}.

(** [LLMClient._validate_api_key] (lines 28-34): [not self.api_key] holds for
    [None] and for the empty string. *)
Definition _validate_api_key (c : LLMClient) : result unit :=
  match api_key c with
  | Some "" | None =>
      Raise (ValueError
               ("LLM API key not configured. Please set "
                ++ PyStr.upper (provider c)
                ++ "_API_KEY environment variable. Provider: " ++ provider c
                ++ ", Model: " ++ model c))
  | Some _ => Ok tt
  end.

(** [LLMClient.complete] (lines 36-46).  [reply] is what the provider's HTTP
    endpoint does for this call ([_complete_openai] / [_complete_anthropic]
    re-raise whatever the transport raises). *)
Definition complete (c : LLMClient) (reply : result string) : result string :=
  match _validate_api_key c with
  | Raise e => Raise e
  | Ok _ =>
      if String.eqb (provider c) "openai" then reply
      else if String.eqb (provider c) "anthropic" then reply
      else Raise (ValueError ("Unsupported LLM provider: " ++ provider c))
  end.

End LLM.

(** ** analysis/agent.py *)

Module Analysis.

Import PyStr.

Inductive extraction_method : Type :=
| markdown_json_block
| markdown_code_block
| brace_boundaries.

(** Lines 271-328 of [_parse_llm_response]: the text handed to [json.loads]
    and the strategy that produced it, or the [JSONDecodeError] raised when no
    strategy applies. *)
Definition extract_json_str (response : string)
  : result (string * extraction_method) :=
  let fenced :=
    if contains "```json" response then
      let json_start := find response "```json" 0 + 7 in
      let json_end := find response "```" json_start in
      if negb (json_end =? -1)
      then Some (strip (slice response json_start json_end), markdown_json_block)
      else None
    else if contains "```" response then
      let json_start := find response "```" 0 + 3 in
      let json_end := find response "```" json_start in
      if negb (json_end =? -1)
      then Some (strip (slice response json_start json_end), markdown_code_block)
      else None
    else None in
  match fenced with
  | Some r => Ok r
  | None =>
      let json_start := find response "{" 0 in
      let json_end := rfind response "}" in
      if negb (json_start =? -1) && negb (json_end =? -1)
         && (json_start <? json_end)
      then Ok (slice response json_start (json_end + 1), brace_boundaries)
      else Raise (JSONDecodeError "No valid JSON structure found in response.")
  end.

Section WithJsonLoads.

(** [json.loads] on a [str]: the parsed value or [JSONDecodeError]. *)
Variable json_loads : string -> result json.

(** [AnalysisAgent._parse_llm_response] (lines 266-357): both [except]
    clauses return the empty structure. *)
Definition _parse_llm_response (response : string) : json :=
  match extract_json_str response with
  | Ok (json_str, _) =>
      match json_loads json_str with
      | Ok parsed_json => parsed_json
      | Raise _ => empty_schema
      end
  | Raise _ => empty_schema
  end.

End WithJsonLoads.

(** [x[:n]]. *)
Definition py_slice_to (n : nat) (x : json) : result json :=
  match x with
  | JList l => Ok (JList (firstn n l))
  | JStr s => Ok (JStr (substring 0 n s))
  | _ => Raise (TypeError "object is not subscriptable")
  end.

(** ["created_at" in item]. *)
Definition py_in (k : string) (item : json) : result bool :=
  match item with
  | JDict kv => Ok (match assoc k kv with Some _ => true | None => false end)
  | JStr s => Ok (contains k s)
  | JList l =>
      Ok (existsb (fun x => match x with JStr s => String.eqb s k | _ => false end) l)
  | _ => Raise (TypeError "argument is not iterable")
  end.

(** The body of the stamping loop (lines 370-372) for one item. *)
Definition stamp_item (now_iso : string) (item : json) : result json :=
  match py_in "created_at" item with
  | Raise e => Raise e
  | Ok true => Ok item
  | Ok false =>
      match item with
      | JDict kv => Ok (JDict (assoc_set "created_at" (JStr now_iso) kv))
      | _ => Raise (TypeError "object does not support item assignment")
      end
  end.

Fixpoint stamp_items (now_iso : string) (items : list json) : result (list json) :=
  match items with
  | [] => Ok []
  | item :: rest =>
      match stamp_item now_iso item with
      | Raise e => Raise e
      | Ok item' =>
          match stamp_items now_iso rest with
          | Raise e => Raise e
          | Ok rest' => Ok (item' :: rest')
          end
      end
  end.

(** [for item in validated[category]: ...]: a list is walked item by item; a
    [str] is walked character by character, and a character never contains
    "created_at". *)
Definition stamp_category (now_iso : string) (v : json) : result json :=
  match v with
  | JList l =>
      match stamp_items now_iso l with
      | Ok l' => Ok (JList l')
      | Raise e => Raise e
      end
  | JStr EmptyString => Ok v
  | JStr _ => Raise (TypeError "'str' object does not support item assignment")
  | _ => Raise (TypeError "object is not iterable")
  end.

Definition get_capped (results : json) (key : string) (cap : nat) : result json :=
  match py_get results key (JList []) with
  | Ok v => py_slice_to cap v
  | Raise e => Raise e
  end.

(** [AnalysisAgent._validate_analysis_results] (lines 359-374). *)
Definition _validate_analysis_results (now_iso : string) (results : json)
  : result json :=
  match get_capped results "trends" 20 with Raise e => Raise e | Ok t =>
  match get_capped results "competitor_moves" 20 with Raise e => Raise e | Ok c =>
  match get_capped results "opportunities_for_founders" 15 with Raise e => Raise e | Ok f =>
  match get_capped results "opportunities_for_investors" 15 with Raise e => Raise e | Ok i =>
  match stamp_category now_iso t with Raise e => Raise e | Ok t' =>
  match stamp_category now_iso c with Raise e => Raise e | Ok c' =>
  match stamp_category now_iso f with Raise e => Raise e | Ok f' =>
  match stamp_category now_iso i with Raise e => Raise e | Ok i' =>
    Ok (JDict [("trends", t'); ("competitor_moves", c');
               ("opportunities_for_founders", f');
               ("opportunities_for_investors", i')])
  end end end end end end end end.

(** The dict [analyze_recent_data] returns. *)
Record AnalysisResult : Type := mkAnalysisResult {
  status : string;
  error : option string;
  message : option string;
  results : json;
  data_analyzed : option (Z * Z * Z * Z * Z)
}.

(** What the agent reads from its surroundings during one call. *)
Record Env : Type := mkEnv {
  llm : LLM.LLMClient;
  llm_reply : result string;            (* the provider's answer to this call *)
  json_loads : string -> result json;
  sql_recent : Z -> option string -> bool;
  now : Z;                              (* datetime.now() *)
  isoformat : Z -> string               (* datetime.isoformat() *)
}.

Definition len {A} (l : list A) : Z := Z.of_nat (List.length l).

(** [AnalysisAgent.analyze_recent_data] (lines 115-208).  The prompt text is
    not modelled: [llm_reply] already is the provider's answer to it. *)
Definition analyze_recent_data (env : Env) (days_back : Z)
  : M Database.t AnalysisResult :=
  news_articles <- Database.get_recent_news (sql_recent env) days_back (Some true) (Some 100) ;;
  funding_rounds <- Database.get_recent_funding (sql_recent env) days_back (Some true) (Some 100) ;;
  launches <- Database.get_recent_launches (sql_recent env) days_back (Some true) (Some 100) ;;
  github_repos <- Database.get_recent_github_repos (sql_recent env) days_back (Some true) (Some 50) ;;
  github_signals <- Database.get_recent_github_signals (sql_recent env) days_back (Some 50) ;;
  try_except
    (response <- lift (LLM.complete (llm env) (llm_reply env)) ;;
     let parsed := _parse_llm_response (json_loads env) response in
     analysis_results <- lift (_validate_analysis_results (isoformat env (now env)) parsed) ;;
     let data_start_date := isoformat env (now env - days_back * 86400) in
     let data_end_date := isoformat env (now env) in
     Database.save_analysis_result "comprehensive" data_start_date data_end_date
                                   analysis_results (LLM.model (llm env)) ;;
     ret (mkAnalysisResult "success" None None analysis_results
            (Some (len news_articles, len funding_rounds, len launches,
                   len github_repos, len github_signals))))
    (fun e =>
       if is_ValueError e then
         ret (mkAnalysisResult "error" (Some (str_exn e))
                (Some "LLM API key not configured. Set OPENAI_API_KEY or ANTHROPIC_API_KEY environment variable.")
                empty_schema None)
       else if is_Exception e then
         ret (mkAnalysisResult "error" (Some (str_exn e)) None empty_schema None)
       else raise e).

End Analysis.

(** ** summarizer/agent.py *)

Module Summarizer.

Import PyStr.

(** The dict [create_briefing] returns.  [sections] holds the formatted
    lists ("trends", "funding_rounds", "product_launches", "competitor_moves",
    the two opportunity lists and "intelligence_threads"). *)
Record Briefing : Type := mkBriefing {
  briefing_date : string;
  generated_at : string;
  data_period : string * string * Z;
  summary : string;
  sections : list (string * json);
  statistics : Z * Z * Z * Z * Z
}.

(** The briefing as the JSON object that is stored and served. *)
Definition to_json (b : Briefing) : json :=
  let '(p_start, p_end, p_days) := data_period b in
  let '(n_news, n_funding, n_launches, n_trends, n_opps) := statistics b in
  JDict ([("briefing_date", JStr (briefing_date b));
          ("generated_at", JStr (generated_at b));
          ("data_period", JDict [("start", JStr p_start); ("end", JStr p_end);
                                 ("days", JInt p_days)]);
          ("summary", JStr (summary b))]
         ++ sections b
         ++ [("statistics",
              JDict [("news_articles_analyzed", JInt n_news);
                     ("funding_rounds_analyzed", JInt n_funding);
                     ("launches_analyzed", JInt n_launches);
                     ("trends_identified", JInt n_trends);
                     ("opportunities_identified", JInt n_opps)])]).

Record Env : Type := mkEnv {
  llm : LLM.LLMClient;
  llm_reply : result string;            (* the provider's answer to this call *)
  sql_recent : Z -> option string -> bool;
  now : Z;
  isoformat : Z -> string;
  strftime_ymd : Z -> string;           (* strftime("%Y-%m-%d") *)
  (** Lines 73-98: [_format_funding_rounds], [_format_launches],
      [_create_intelligence_threads], [_format_trends],
      [_format_competitor_moves] and the two opportunity formatters, applied
      to the four analysis lists and the rows read from the database.  They
      work on untyped dicts and sort by floating-point amounts; what they
      return, or the exception they raise, is a parameter. *)
  format_sections :
    json -> json -> json -> json ->
    list Database.news_row -> list Database.funding_row ->
    list Database.launch_row -> result (list (string * json))
}.

(** [SummarizerAgent._generate_fallback_summary] (lines 133-143). *)
Definition _generate_fallback_summary (analysis_results : Analysis.AnalysisResult)
  : result string :=
  let res := Analysis.results analysis_results in
  match py_get res "trends" (JList []) with Raise e => Raise e | Ok trends =>
  match py_get res "competitor_moves" (JList []) with Raise e => Raise e | Ok moves =>
  match py_len moves with Raise e => Raise e | Ok funding_count =>
  match py_get res "opportunities_for_founders" (JList []) with Raise e => Raise e | Ok opps =>
  match py_len opps with Raise e => Raise e | Ok opportunities =>
  match py_len trends with Raise e => Raise e | Ok n_trends =>
    Ok ("Today's startup intelligence reveals " ++ of_int n_trends
        ++ " key trends across the ecosystem. "
        ++ "We've identified " ++ of_int funding_count
        ++ " significant market moves and " ++ of_int opportunities
        ++ " actionable opportunities. "
        ++ "Key areas of interest include emerging technologies, strategic funding rounds, and market gaps.")
  end end end end end end.

(** [SummarizerAgent._generate_summary] (lines 113-131): both [except]
    clauses fall back to the template. *)
Definition _generate_summary (env : Env)
           (analysis_results : Analysis.AnalysisResult) : result string :=
  match LLM.complete (llm env) (llm_reply env) with
  | Ok summary => Ok (strip summary)
  | Raise e =>
      if is_Exception e then _generate_fallback_summary analysis_results
      else Raise e
  end.

Definition len {A} (l : list A) : Z := Z.of_nat (List.length l).

(** [SummarizerAgent.create_briefing] (lines 52-111). *)
Definition create_briefing (env : Env)
           (analysis_results : Analysis.AnalysisResult) (days_back : Z)
  : M Database.t Briefing :=
  news_articles <- Database.get_recent_news (sql_recent env) days_back None (Some 50) ;;
  funding_rounds <- Database.get_recent_funding (sql_recent env) days_back None (Some 50) ;;
  launches <- Database.get_recent_launches (sql_recent env) days_back None (Some 50) ;;
  github_repos <- Database.get_recent_github_repos (sql_recent env) days_back None (Some 30) ;;
  let res := Analysis.results analysis_results in
  trends <- lift (py_get res "trends" (JList [])) ;;
  competitor_moves <- lift (py_get res "competitor_moves" (JList [])) ;;
  founder_opportunities <- lift (py_get res "opportunities_for_founders" (JList [])) ;;
  investor_opportunities <- lift (py_get res "opportunities_for_investors" (JList [])) ;;
  summary <- lift (_generate_summary env analysis_results) ;;
  secs <- lift (format_sections env trends competitor_moves founder_opportunities
                                investor_opportunities news_articles
                                funding_rounds launches) ;;
  n_trends <- lift (py_len trends) ;;
  n_founder <- lift (py_len founder_opportunities) ;;
  n_investor <- lift (py_len investor_opportunities) ;;
  ret (mkBriefing (strftime_ymd env (now env))
                  (isoformat env (now env))
                  (isoformat env (now env - days_back * 86400),
                   isoformat env (now env), days_back)
                  summary secs
                  (len news_articles, len funding_rounds, len launches,
                   n_trends, n_founder + n_investor)).

(** The strings [keywords] yields when [" ".join(keywords)] and the
    [for keyword in keywords] of the same call walk it: the items of a list
    of strings, the characters of a string, the keys of a dict.  Anything
    else makes [join] raise. *)
Definition joined_keywords (keywords : json) : result (list string) :=
  match keywords with
  | JList l =>
      if forallb (fun x => match x with JStr _ => true | _ => false end) l
      then Ok (flat_map (fun x => match x with JStr s => [s] | _ => [] end) l)
      else Raise (TypeError "sequence item: expected str instance")
  | JStr s => Ok (map (fun c => String c EmptyString) (list_ascii_of_string s))
  | JDict kv => Ok (map fst kv)
  | _ => Raise (TypeError "can only join an iterable")
  end.

(** [article.get(column, "").lower()] on a row read from the news table: the
    column is always there, and is [None] when the stored value is NULL. *)
Definition lower_of (column : option string) : result string :=
  match column with
  | Some s => Ok (lower s)
  | None => Raise (AttributeError "'NoneType' object has no attribute 'lower'")
  end.

(** The loop of [_find_related_articles] (lines 318-324). *)
Fixpoint related_loop (keywords : list string) (articles : list Database.news_row)
  : result (list Database.news_row) :=
  match articles with
  | [] => Ok []
  | article :: rest =>
      match lower_of (Database.news_title (Database.news_rec article)) with
      | Raise e => Raise e
      | Ok title =>
          match lower_of (Database.news_summary (Database.news_rec article)) with
          | Raise e => Raise e
          | Ok summary =>
              let text := title ++ " " ++ summary in
              match related_loop keywords rest with
              | Raise e => Raise e
              | Ok related =>
                  Ok (if existsb (fun keyword => contains (lower keyword) text) keywords
                      then article :: related else related)
              end
          end
      end
  end.

(** [SummarizerAgent._find_related_articles] (lines 313-326), on the rows
    [get_recent_news] returns. *)
Definition _find_related_articles (articles : list Database.news_row)
           (keywords : json) : result (list Database.news_row) :=
  match joined_keywords keywords with
  | Raise e => Raise e
  | Ok ks =>
      match related_loop ks articles with
      | Raise e => Raise e
      | Ok related => Ok (firstn 10 related)
      end
  end.

End Summarizer.

(** ** orchestrator/agent.py *)

Module Orchestrator.

(** An [httpx.Response]: its status code and what [response.json()] does. *)
Record http_response (A : Type) : Type := mkResponse {
  status_code : Z;
  json_body : result A
}.
Arguments mkResponse {A} _ _.
Arguments status_code {A} _.
Arguments json_body {A} _.

(** The dict a news collector delivers. *)
Record NewsData : Type := mkNewsData {
  news_error : option string;                       (* the "error" tag *)
  sources : list (string * list Database.Article);  (* name -> "articles" *)
  total : Z
}.

(** The dicts of the other two slots; neither has an "error" key. *)
Record StartupData : Type := mkStartupData {
  startup_funding : list Database.FundingRound;
  startup_launches : list Database.Launch
}.

Record GithubData : Type := mkGithubData {
  github_trending : list Database.Repository;
  github_signals : list Database.RepoSignal
}.

(** One element of the list [asyncio.gather(..., return_exceptions=True)]
    returns: a coroutine's value, or the exception object it raised. *)
Inductive gathered (A : Type) : Type :=
| Value (a : A)
| ExcObject (e : exn).
Arguments Value {A} a.
Arguments ExcObject {A} e.

Record CollectedData : Type := mkCollected {
  news : gathered NewsData;
  startup : gathered StartupData;
  github : gathered GithubData
}.

(** The external collaborators of one run. *)
Record Env : Type := mkEnv {
  (** the five GET requests: the call raises, or returns a response *)
  http_news_all : result (http_response NewsData);
  http_funding : result (http_response (list Database.FundingRound));
  http_launches : result (http_response (list Database.Launch));
  http_trending : result (http_response (list Database.Repository));
  http_signals : result (http_response (list Database.RepoSignal));
  (** [EnrichmentAgent.enrich_recent_data]: the enrichment package is not
      part of the sources at hand; its effect on the database and the
      exception it may raise are a parameter *)
  enrich_recent_data : Z -> M Database.t unit;
  analysis_env : Analysis.Env;
  summarizer_env : Summarizer.Env
}.

Definition is_httpx_error (e : exn) : bool :=
  match e with RequestError _ | HTTPStatusError _ => true | _ => false end.

Definition is_JSONDecodeError (e : exn) : bool :=
  match e with JSONDecodeError _ => true | _ => false end.

(** [response.raise_for_status()]. *)
Definition raise_for_status {A} (r : http_response A) : result unit :=
  if (200 <=? status_code r) && (status_code r <=? 299) then Ok tt
  else Raise (HTTPStatusError (status_code r)).

Definition catch_httpx {A} (r : result A) (default : exn -> A) : result A :=
  match r with
  | Ok a => Ok a
  | Raise e => if is_httpx_error e then Ok (default e) else Raise e
  end.

(** [OrchestratorAgent.collect_from_news_agent] (lines 24-48). *)
Definition collect_from_news_agent (env : Env) : result NewsData :=
  catch_httpx
    (match http_news_all env with
     | Raise e => Raise e
     | Ok response =>
         match raise_for_status response with
         | Raise e => Raise e
         | Ok _ =>
             match json_body response with
             | Ok data => Ok data
             | Raise e =>
                 if is_JSONDecodeError e
                 then Ok (mkNewsData (Some ("Invalid JSON response: " ++ str_exn e)) [] 0)
                 else Raise e
             end
         end
     end)
    (fun e => mkNewsData (Some (str_exn e)) [] 0).

(** The [if status_code == 200: try ... except JSONDecodeError] block used
    for each of the four list endpoints. *)
Definition parse_list {A} (response : http_response (list A)) : result (list A) :=
  if status_code response =? 200 then
    match json_body response with
    | Ok data => Ok data
    | Raise e => if is_JSONDecodeError e then Ok [] else Raise e
    end
  else Ok [].

(** [OrchestratorAgent.collect_from_startup_api_agent] (lines 50-99). *)
Definition collect_from_startup_api_agent (env : Env) : result StartupData :=
  catch_httpx
    (match http_funding env with
     | Raise e => Raise e
     | Ok funding_response =>
         match parse_list funding_response with
         | Raise e => Raise e
         | Ok funding_data =>
             match http_launches env with
             | Raise e => Raise e
             | Ok launches_response =>
                 match parse_list launches_response with
                 | Raise e => Raise e
                 | Ok launches_data => Ok (mkStartupData funding_data launches_data)
                 end
             end
         end
     end)
    (fun _ => mkStartupData [] []).

(** [OrchestratorAgent.collect_from_github_agent] (lines 101-150). *)
Definition collect_from_github_agent (env : Env) : result GithubData :=
  catch_httpx
    (match http_trending env with
     | Raise e => Raise e
     | Ok trending_response =>
         match parse_list trending_response with
         | Raise e => Raise e
         | Ok trending_data =>
             match http_signals env with
             | Raise e => Raise e
             | Ok signals_response =>
                 match parse_list signals_response with
                 | Raise e => Raise e
                 | Ok signals_data => Ok (mkGithubData trending_data signals_data)
                 end
             end
         end
     end)
    (fun _ => mkGithubData [] []).

(** [asyncio.gather(t, return_exceptions=True)] for one awaitable. *)
Definition gather1 {A} (r : result A) : gathered A :=
  match r with
  | Ok a => Value a
  | Raise e => ExcObject e
  end.

(** [if isinstance(x, Exception): x = default(x)]. *)
Definition replace_exception {A} (x : gathered A) (default : exn -> A) : gathered A :=
  match x with
  | Value a => Value a
  | ExcObject e => if is_Exception e then Value (default e) else ExcObject e
  end.

(** [OrchestratorAgent.collect_all_data] (lines 152-182), given what each of
    the three collector coroutines does. *)
Definition collect_all (news_task : result NewsData)
           (startup_task : result StartupData)
           (github_task : result GithubData) : CollectedData :=
  let news_data := gather1 news_task in
  let startup_data := gather1 startup_task in
  let github_data := gather1 github_task in
  mkCollected
    (replace_exception news_data (fun e => mkNewsData (Some (str_exn e)) [] 0))
    (replace_exception startup_data (fun _ => mkStartupData [] []))
    (replace_exception github_data (fun _ => mkGithubData [] [])).

Definition collect_all_data (env : Env) : CollectedData :=
  collect_all (collect_from_news_agent env)
              (collect_from_startup_api_agent env)
              (collect_from_github_agent env).

(** [x.get(...)] on a gathered slot: an exception object has no [get]. *)
Definition as_dict {A} (x : gathered A) : M Database.t A :=
  match x with
  | Value a => ret a
  | ExcObject _ => raise (AttributeError "object has no attribute 'get'")
  end.

Definition set_source (name : string) (a : Database.Article) : Database.Article :=
  Database.mkArticle (Database.news_title a) (Database.news_url a) (Some name)
                     (Database.news_timestamp a) (Database.news_summary a)
                     (Database.news_author a) (Database.news_metadata a).

Definition nonempty {A} (l : list A) : bool :=
  match l with [] => false | _ => true end.

(** [OrchestratorAgent.store_news_articles] (lines 184-199). *)
Definition store_news_articles (news_data : gathered NewsData) : M Database.t Z :=
  d <- as_dict news_data ;;
  let articles :=
    flat_map (fun '(source_name, source_articles) =>
                map (set_source source_name) source_articles) (sources d) in
  if nonempty articles then Database.insert_news articles else ret 0.

(** [OrchestratorAgent.store_startup_signals] (lines 201-215). *)
Definition store_startup_signals (signals : gathered StartupData)
  : M Database.t (Z * Z) :=
  d <- as_dict signals ;;
  funding_inserted <-
    (if nonempty (startup_funding d) then Database.insert_funding (startup_funding d)
     else ret 0) ;;
  launches_inserted <-
    (if nonempty (startup_launches d) then Database.insert_launches (startup_launches d)
     else ret 0) ;;
  ret (funding_inserted, launches_inserted).

(** [OrchestratorAgent.store_github_signals] (lines 217-231). *)
Definition store_github_signals (github_data : gathered GithubData)
  : M Database.t (Z * Z) :=
  d <- as_dict github_data ;;
  trending_inserted <-
    (if nonempty (github_trending d)
     then Database.insert_github_repositories (github_trending d) else ret 0) ;;
  signals_inserted <-
    (if nonempty (github_signals d)
     then Database.insert_github_signals (github_signals d) else ret 0) ;;
  ret (trending_inserted, signals_inserted).

(** The dict [run_full_workflow] returns ([duration_seconds], a float, is
    left out). *)
Record WorkflowResult : Type := mkWorkflowResult {
  status : string;
  workflow : string;
  news_articles : Z;
  funding_rounds : Z;
  launches : Z;
  github_repositories : Z;
  github_signals_stored : Z;
  briefing_date : string;
  briefing : Summarizer.Briefing
}.

(** Stages 2-6 of [run_full_workflow] (lines 243-294). *)
Definition run_after_collect (env : Env) (collected_data : CollectedData)
           (days_back : Z) : M Database.t WorkflowResult :=
  news_inserted <- store_news_articles (news collected_data) ;;
  signals_inserted <- store_startup_signals (startup collected_data) ;;
  github_inserted <- store_github_signals (github collected_data) ;;
  enrich_recent_data env days_back ;;
  analysis_results <- Analysis.analyze_recent_data (analysis_env env) days_back ;;
  briefing <- Summarizer.create_briefing (summarizer_env env) analysis_results days_back ;;
  let senv := summarizer_env env in
  let briefing_date := Summarizer.strftime_ymd senv (Summarizer.now senv) in
  let data_end_date := Summarizer.isoformat senv (Summarizer.now senv) in
  let data_start_date :=
    Summarizer.isoformat senv (Summarizer.now senv - days_back * 86400) in
  Database.save_briefing briefing_date (Summarizer.summary briefing)
                         (Summarizer.to_json briefing)
                         data_start_date data_end_date ;;
  ret (mkWorkflowResult "success" "collect → enrich → analyze → summarize"
         news_inserted (fst signals_inserted) (snd signals_inserted)
         (fst github_inserted) (snd github_inserted)
         briefing_date briefing).

(** [OrchestratorAgent.run_full_workflow] (lines 233-294). *)
Definition run_full_workflow (env : Env) (days_back : Z)
  : M Database.t WorkflowResult :=
  run_after_collect env (collect_all_data env) days_back.

(** The dict [run_data_collection_only] returns. *)
Record CollectionResult : Type := mkCollectionResult {
  collection_status : string;
  collected_news_articles : Z;
  collected_funding_rounds : Z;
  collected_launches : Z;
  collected_github_repositories : Z;
  collected_github_signals : Z
}.

(** [OrchestratorAgent.run_data_collection_only] (lines 296-315). *)
Definition run_data_collection_only (env : Env) : M Database.t CollectionResult :=
  let collected_data := collect_all_data env in
  news_inserted <- store_news_articles (news collected_data) ;;
  signals_inserted <- store_startup_signals (startup collected_data) ;;
  github_inserted <- store_github_signals (github collected_data) ;;
  ret (mkCollectionResult "success"
         news_inserted (fst signals_inserted) (snd signals_inserted)
         (fst github_inserted) (snd github_inserted)).

End Orchestrator.

(** ** api/server.py *)

Module Server.

(** The module-level dict [workflow_status]. *)
Record WorkflowStatus : Type := mkStatus {
  running : bool;
  last_run : option string;
  error : option string
}.

(** Coroutines handed to [asyncio.create_task] by the handlers. *)
Inductive background : Type :=
| run_workflow_task (days_back : Z)
| run_collection_task.

(** The module-level state of the server process: [workflow_status],
    [workflow_lock], the global [scheduler], the database behind [db], and a
    record of the tasks created, the queries sent to the database and the
    number of times a handler found [workflow_lock] taken and had to wait. *)
Record state : Type := mkState {
  workflow_status : WorkflowStatus;
  workflow_lock : bool;
  scheduler : option Scheduler.WorkflowScheduler;
  db : Database.t;
  clock : Z;
  sched_runs : nat;
  sched_trace : list Scheduler.event;
  created_tasks : list background;
  db_queries : list string;
  lock_waits : nat
}.

Definition set_workflow_status (v : WorkflowStatus) (s : state) : state :=
  mkState v (workflow_lock s) (scheduler s) (db s) (clock s) (sched_runs s)
          (sched_trace s) (created_tasks s) (db_queries s) (lock_waits s).

Definition set_scheduler (v : option Scheduler.WorkflowScheduler) (s : state) : state :=
  mkState (workflow_status s) (workflow_lock s) v (db s) (clock s) (sched_runs s)
          (sched_trace s) (created_tasks s) (db_queries s) (lock_waits s).

Definition set_db (v : Database.t) (s : state) : state :=
  mkState (workflow_status s) (workflow_lock s) (scheduler s) v (clock s)
          (sched_runs s) (sched_trace s) (created_tasks s) (db_queries s)
          (lock_waits s).

(** [asyncio.create_task(coro)]: the task is scheduled, not run. *)
Definition create_task (b : background) : M state unit :=
  modify (fun s =>
    mkState (workflow_status s) (workflow_lock s) (scheduler s) (db s) (clock s)
            (sched_runs s) (sched_trace s) (created_tasks s ++ [b])
            (db_queries s) (lock_waits s)).

(** [await lock.acquire()]: a free lock is taken at once, without yielding
    to the event loop; on a taken lock the caller has to wait for the holder,
    which is counted in [lock_waits]. *)
Definition lock_acquire : M state unit :=
  modify (fun s =>
    mkState (workflow_status s) true (scheduler s) (db s) (clock s)
            (sched_runs s) (sched_trace s) (created_tasks s) (db_queries s)
            (if workflow_lock s then S (lock_waits s) else lock_waits s)).

Definition lock_release : M state unit :=
  modify (fun s =>
    mkState (workflow_status s) false (scheduler s) (db s) (clock s)
            (sched_runs s) (sched_trace s) (created_tasks s) (db_queries s)
            (lock_waits s)).

(** [async with workflow_lock: body]: the lock is released on the way out,
    also when [body] raises.  The bodies below contain no [await], so a
    handler runs from acquire to release without interleaving. *)
Definition async_with_lock {A} (body : M state A) : M state A :=
  lock_acquire ;;
  (fun s => let '(r, s') := body s in
            match lock_release s' with (_, s'') => (r, s'') end).

(** FastAPI's answer to a parameter that fails its [Query] constraints. *)
Definition validation_error {A} : M state A :=
  raise (HTTPException 422 "Unprocessable Entity").

(** Run a database call of [db], noting it in [db_queries]. *)
Definition db_call {A} (name : string) (m : M Database.t A) : M state A :=
  fun s =>
    let '(r, d) := m (db s) in
    (r, mkState (workflow_status s) (workflow_lock s) (scheduler s) d (clock s)
                (sched_runs s) (sched_trace s) (created_tasks s)
                (db_queries s ++ [name]) (lock_waits s)).

(** Run a method of the global [scheduler] object. *)
Definition on_scheduler {A} (m : M Scheduler.state A) : M state A :=
  fun s =>
    match scheduler s with
    | None => (Raise (AttributeError "'NoneType' object has no attribute"), s)
    | Some w =>
        let '(r, t) := m (Scheduler.mkState w (clock s) (sched_runs s) (sched_trace s)) in
        (r, mkState (workflow_status s) (workflow_lock s)
                    (Some (Scheduler.self t)) (db s) (Scheduler.clock t)
                    (Scheduler.runs t) (Scheduler.trace t) (created_tasks s)
                    (db_queries s) (lock_waits s))
    end.

Section Handlers.

Variable isoformat : Z -> string.

(** [datetime.strptime(date, "%Y-%m-%d")]: returns, or raises [ValueError]. *)
Variable strptime : string -> string -> result unit.

(** [POST /orchestrator/run] (lines 227-261). *)
Definition trigger_workflow (days_back : Z) : M state json :=
  if (days_back <? 1) || (30 <? days_back) then validation_error
  else
    async_with_lock
      (s <- get ;;
       if running (workflow_status s)
       then raise (HTTPException 409 "Workflow is already running")
       else
         modify (set_workflow_status
                   (mkStatus true (last_run (workflow_status s)) None))) ;;
    create_task (run_workflow_task days_back) ;;
    ret (JDict [("status", JStr "started");
                ("message", JStr "Full workflow started in background");
                ("workflow", JStr "collect → enrich → analyze → summarize");
                ("days_back", JInt days_back)]).

(** The closure [run_workflow] of [trigger_workflow] (lines 241-251), from
    the point where the awaited [run_full_workflow] has ended with [r]. *)
Definition run_workflow_finish (r : result Orchestrator.WorkflowResult)
  : M state unit :=
  s <- get ;;
  match r with
  | Ok res =>
      modify (set_workflow_status
                (mkStatus false (Some (isoformat (clock s)))
                   (if String.eqb (Orchestrator.status res) "success"
                    then error (workflow_status s)
                    else Some "Workflow completed with errors")))
  | Raise e =>
      if is_Exception e then
        modify (set_workflow_status
                  (mkStatus false (last_run (workflow_status s)) (Some (str_exn e))))
      else raise e
  end.

(** The whole background task: the workflow on the server's database, then
    the status update. *)
Definition run_workflow (env : Orchestrator.Env) (days_back : Z) : M state unit :=
  fun s =>
    let '(r, d) := Orchestrator.run_full_workflow env days_back (db s) in
    run_workflow_finish r (set_db d s).

Definition parse_frequency (frequency : string) : option Scheduler.ScheduleFrequency :=
  if String.eqb frequency "hourly" then Some Scheduler.HOURLY
  else if String.eqb frequency "daily" then Some Scheduler.DAILY
  else if String.eqb frequency "weekly" then Some Scheduler.WEEKLY
  else if String.eqb frequency "custom" then Some Scheduler.CUSTOM
  else None.

Definition opt_iso (o : option Z) : json :=
  match o with Some t => JStr (isoformat t) | None => JNull end.

Definition opt_int (o : option Z) : json :=
  match o with Some n => JInt n | None => JNull end.

(** The [try] block of [start_scheduler] (lines 381-431). *)
Definition start_scheduler_body (frequency : string) (freq : Scheduler.ScheduleFrequency)
           (interval_seconds : option Z) (run_immediately : bool) : M state json :=
  async_with_lock
    (s <- get ;;
     if match scheduler s with Some w => Scheduler.is_running w | None => false end
     then raise (HTTPException 409 "Scheduler is already running")
     else if String.eqb frequency "custom"
             && match interval_seconds with None => true | Some _ => false end
     then raise (HTTPException 400
                   "interval_seconds parameter is required when frequency=custom")
     else
       match scheduler s with
       | None => modify (set_scheduler (Some Scheduler.init))
       | Some _ => ret tt
       end) ;;
  on_scheduler (Scheduler.start freq interval_seconds run_immediately) ;;
  s <- get ;;
  let w := match scheduler s with Some w => w | None => Scheduler.init end in
  ret (JDict [("status", JStr "started");
              ("frequency", JStr frequency);
              ("interval_seconds", opt_int (Scheduler.interval_seconds w));
              ("next_run", opt_iso (Scheduler.next_run w));
              ("message", JStr ("Scheduler started with " ++ frequency ++ " frequency"))]).

(** [POST /workflow/scheduler/start] (lines 373-435): the [Query]
    constraints ([regex] on [frequency], [ge=60] on [interval_seconds]), then
    the handler, whose only [except] clause is [except Exception]. *)
Definition start_scheduler (frequency : string) (interval_seconds : option Z)
           (run_immediately : bool) : M state json :=
  match parse_frequency frequency with
  | None => validation_error
  | Some freq =>
      if match interval_seconds with Some n => n <? 60 | None => false end
      then validation_error
      else
        try_except
          (start_scheduler_body frequency freq interval_seconds run_immediately)
          (fun e => if is_Exception e
                    then raise (HTTPException 500 (str_exn e))
                    else raise e)
  end.

(** [POST /workflow/scheduler/stop] (lines 438-461): here [HTTPException] is
    re-raised before [except Exception]. *)
Definition stop_scheduler : M state json :=
  try_except
    (s <- get ;;
     if negb (match scheduler s with Some w => Scheduler.is_running w | None => false end)
     then raise (HTTPException 404 "Scheduler is not running")
     else
       on_scheduler Scheduler.stop ;;
       ret (JDict [("status", JStr "stopped");
                   ("message", JStr "Scheduler stopped successfully")]))
    (fun e =>
       match e with
       | HTTPException _ _ => raise e
       | _ => if is_Exception e then raise (HTTPException 500 (str_exn e))
              else raise e
       end).

(** [briefing_json["retrieved_at"] = ...] on the stored JSON value. *)
Definition set_retrieved_at (briefing_json : json) (now_iso : string) : result json :=
  match briefing_json with
  | JDict kv => Ok (JDict (assoc_set "retrieved_at" (JStr now_iso) kv))
  | _ => Raise (TypeError "object does not support item assignment")
  end.

(** [GET /briefing/{date}] (lines 121-141). *)
Definition get_briefing_by_date (date : string) : M state json :=
  try_except
    (lift (strptime date "%Y-%m-%d") ;;
     briefing <- db_call "get_briefing_by_date" (Database.get_briefing_by_date date) ;;
     match briefing with
     | Some row =>
         s <- get ;;
         lift (set_retrieved_at (Database.briefing_json row) (isoformat (clock s)))
     | None =>
         raise (HTTPException 404 ("Briefing not found for date: " ++ date))
     end)
    (fun e =>
       if is_ValueError e
       then raise (HTTPException 400 "Invalid date format. Use YYYY-MM-DD")
       else if is_Exception e then raise (HTTPException 500 (str_exn e))
       else raise e).

(** The handlers of the given requests, run one after the other in arrival
    order before any background task gets to finish: the requests of a burst
    that arrives while the event loop is busy with them. *)
Fixpoint serve_runs (requests : list Z) : M state (list (result json)) :=
  match requests with
  | [] => ret []
  | days_back :: rest =>
      fun s =>
        let '(r, s1) := trigger_workflow days_back s in
        match serve_runs rest s1 with
        | (Ok rs, s2) => (Ok (r :: rs), s2)
        | (Raise e, s2) => (Raise e, s2)
        end
  end.

(** [POST /orchestrator/collect] (lines 264-296): the same lock and the same
    [workflow_status] flag as [trigger_workflow]. *)
Definition trigger_collection : M state json :=
  async_with_lock
    (s <- get ;;
     if running (workflow_status s)
     then raise (HTTPException 409 "Workflow is already running")
     else
       modify (set_workflow_status
                 (mkStatus true (last_run (workflow_status s)) None))) ;;
  create_task run_collection_task ;;
  ret (JDict [("status", JStr "started");
              ("message", JStr "Data collection started in background")]).

(** The closure [run_collection] of [trigger_collection] (lines 278-288),
    from the point where the awaited [run_data_collection_only] has ended
    with [r]. *)
Definition run_collection_finish (r : result Orchestrator.CollectionResult)
  : M state unit :=
  s <- get ;;
  match r with
  | Ok res =>
      modify (set_workflow_status
                (mkStatus false (Some (isoformat (clock s)))
                   (if String.eqb (Orchestrator.collection_status res) "success"
                    then error (workflow_status s)
                    else Some "Collection completed with errors")))
  | Raise e =>
      if is_Exception e then
        modify (set_workflow_status
                  (mkStatus false (last_run (workflow_status s)) (Some (str_exn e))))
      else raise e
  end.

(** The whole background task of [trigger_collection]. *)
Definition run_collection (env : Orchestrator.Env) : M state unit :=
  fun s =>
    let '(r, d) := Orchestrator.run_data_collection_only env (db s) in
    run_collection_finish r (set_db d s).

(** [GET /orchestrator/status] (lines 299-302). *)
Definition get_workflow_status : M state WorkflowStatus :=
  s <- get ;;
  ret (workflow_status s).


End Handlers.

(** *** [trigger_workflow] statement by statement

    The same handler cut at each of its statements, to let two activations
    be interleaved at will: an event loop switches tasks at awaits only, so
    every behaviour of the real handlers is among the interleavings. *)

(** Where a [trigger_workflow] coroutine stands: before one of its
    statements, or finished with its answer. *)
Inductive pc : Type :=
| AtValidate | AtAcquire | AtCheck | AtSet | AtReleaseWon | AtReleaseLost
| AtCreateTask | Accepted | Conflict | Invalid.

(** One statement of [trigger_workflow] (lines 228-261).  A coroutine that
    finds the lock taken stays where it is. *)
Definition step_handler (days_back : Z) (at_ : pc) (s : state) : pc * state :=
  match at_ with
  | AtValidate =>
      if (days_back <? 1) || (30 <? days_back) then (Invalid, s) else (AtAcquire, s)
  | AtAcquire =>
      if workflow_lock s then (AtAcquire, snd (lock_acquire s))
      else (AtCheck, snd (lock_acquire s))
  | AtCheck =>
      if running (workflow_status s) then (AtReleaseLost, s) else (AtSet, s)
  | AtSet =>
      (AtReleaseWon,
       set_workflow_status (mkStatus true (last_run (workflow_status s)) None) s)
  | AtReleaseWon => (AtCreateTask, snd (lock_release s))
  | AtReleaseLost => (Conflict, snd (lock_release s))
  | AtCreateTask => (Accepted, snd (create_task (run_workflow_task days_back) s))
  | Accepted | Conflict | Invalid => (at_, s)
  end.

Definition finished (p : pc) : bool :=
  match p with Accepted | Conflict | Invalid => true | _ => false end.

(** The answer of a finished coroutine. *)
Definition answer (days_back : Z) (p : pc) : option (result json) :=
  match p with
  | Accepted =>
      Some (Ok (JDict [("status", JStr "started");
                       ("message", JStr "Full workflow started in background");
                       ("workflow", JStr "collect → enrich → analyze → summarize");
                       ("days_back", JInt days_back)]))
  | Conflict => Some (Raise (HTTPException 409 "Workflow is already running"))
  | Invalid => Some (Raise (HTTPException 422 "Unprocessable Entity"))
  | _ => None
  end.

(** Two coroutines advanced one statement at a time in the order the
    schedule gives ([true]: the first one moves). *)
Fixpoint interleave (schedule : list bool) (d1 d2 : Z) (c : pc * pc * state)
  : pc * pc * state :=
  match schedule with
  | [] => c
  | first :: rest =>
      let '(p1, p2, s) := c in
      if first : bool then
        let '(p1', s') := step_handler d1 p1 s in
        interleave rest d1 d2 (p1', p2, s')
      else
        let '(p2', s') := step_handler d2 p2 s in
        interleave rest d1 d2 (p1, p2', s')
  end.

(** One coroutine advanced [n] statements with nothing in between. *)
Fixpoint run_alone (n : nat) (days_back : Z) (c : pc * state) : pc * state :=
  match n with
  | O => c
  | S n' => run_alone n' days_back (step_handler days_back (fst c) (snd c))
  end.

(** HTTP view of a handler's outcome. *)
Definition http_status {A} (r : result A) : Z :=
  match r with
  | Ok _ => 200
  | Raise (HTTPException c _) => c
  | Raise _ => 500
  end.

Definition accepted (r : result json) : bool :=
  match r with
  | Ok (JDict (("status", JStr "started") :: _)) => true
  | _ => false
  end.

Definition conflict {A} (r : result A) : bool :=
  match r with
  | Raise (HTTPException 409 _) => true
  | _ => false
  end.

End Server.

(** ** The extractor as the specification words it

    The four-step strategy of the ResponseExtractor, written on the text
    itself (what lies before and after a marker) rather than on positions. *)

Module ExtractorSpec.

Fixpoint drop (n : nat) (s : string) : string :=
  match n, s with
  | O, _ => s
  | S n', String _ s' => drop n' s'
  | S _, EmptyString => EmptyString
  end.

(** [cut sub s = Some (before, after)]: [s] is [before ++ sub ++ after] and
    this is the first occurrence of [sub]. *)
Fixpoint cut (sub s : string) : option (string * string) :=
  match s with
  | EmptyString =>
      match sub with EmptyString => Some (EmptyString, EmptyString) | _ => None end
  | String c s' =>
      if prefix sub s then Some (EmptyString, drop (String.length sub) s)
      else match cut sub s' with
           | Some (a, b) => Some (String c a, b)
           | None => None
           end
  end.

(** [rcut sub s = Some (before, after)]: the same for the last occurrence. *)
Fixpoint rcut (sub s : string) : option (string * string) :=
  match s with
  | EmptyString =>
      if prefix sub s then Some (EmptyString, EmptyString) else None
  | String c s' =>
      match rcut sub s' with
      | Some (a, b) => Some (String c a, b)
      | None =>
          if prefix sub s then Some (EmptyString, drop (String.length sub) s)
          else None
      end
  end.

(** The text between an opening marker and the next closing fence. *)
Definition block_after (opening response : string) : option string :=
  match cut opening response with
  | Some (_, after) =>
      match cut "```" after with
      | Some (body, _) => Some (PyStr.strip body)
      | None => None
      end
  | None => None
  end.

(** (1) a fenced block explicitly tagged as JSON with a matching closing
    fence. *)
Definition tagged_block (response : string) : option string :=
  block_after "```json" response.

(** (2) any fenced block with a matching closing fence. *)
Definition any_block (response : string) : option string :=
  block_after "```" response.

(** (3) the substring from the first '{' to the last '}' when both exist and
    the latter follows the former. *)
Definition braces (response : string) : option string :=
  match cut "{" response with
  | Some (_, after) =>
      match rcut "}" after with
      | Some (inner, _) => Some ("{" ++ inner ++ "}")
      | None => None
      end
  | None => None
  end.

Definition or_else {A} (a b : option A) : option A :=
  match a with Some _ => a | None => b end.

Definition tag {A B} (b : B) (a : option A) : option (A * B) :=
  match a with Some x => Some (x, b) | None => None end.

(** The strategies in the stated order: each is tried when the ones before
    it have failed. *)
Definition ordered_as_stated (response : string)
  : option (string * Analysis.extraction_method) :=
  or_else (tag Analysis.markdown_json_block (tagged_block response))
    (or_else (tag Analysis.markdown_code_block (any_block response))
             (tag Analysis.brace_boundaries (braces response))).

(** The order the code follows: strategy (2) is tried only on a text with no
    JSON tag at all; an unclosed tagged fence leads straight to (3). *)
Definition ordered_as_built (response : string)
  : option (string * Analysis.extraction_method) :=
  if PyStr.contains "```json" response then
    or_else (tag Analysis.markdown_json_block (tagged_block response))
            (tag Analysis.brace_boundaries (braces response))
  else
    or_else (tag Analysis.markdown_code_block (any_block response))
            (tag Analysis.brace_boundaries (braces response)).

(** (4): parse what was extracted; the canonical empty schema when nothing
    was, or when it does not parse. *)
Definition parse_or_empty (json_loads : string -> result json)
           (extracted : option (string * Analysis.extraction_method)) : json :=
  match extracted with
  | Some (text, _) =>
      match json_loads text with
      | Ok v => v
      | Raise _ => empty_schema
      end
  | None => empty_schema
  end.

Definition extractor_as_stated (json_loads : string -> result json)
           (response : string) : json :=
  parse_or_empty json_loads (ordered_as_stated response).

Definition extractor_as_built (json_loads : string -> result json)
           (response : string) : json :=
  parse_or_empty json_loads (ordered_as_built response).

End ExtractorSpec.

(** ** The statements of the specification, on the embedding *)

Module Statements.

(** *** Re-insertion (PersistenceGateway) *)

(** The five variants of a CollectedRecord. *)
Inductive record : Type :=
| RArticle (a : Database.Article)
| RFundingRound (f : Database.FundingRound)
| RLaunch (l : Database.Launch)
| RRepository (r : Database.Repository)
| RRepoSignal (s : Database.RepoSignal).

(** One turn of the loop of the insert method of the record's kind. *)
Definition insert_record_step (acc : Database.t * Z) (r : record) : Database.t * Z :=
  match r with
  | RArticle a => Database.insert_news_step acc a
  | RFundingRound f => Database.insert_funding_step acc f
  | RLaunch l => Database.insert_launches_step acc l
  | RRepository x => Database.insert_github_repositories_step acc x
  | RRepoSignal s => Database.insert_github_signals_step acc s
  end.

(** The record's dedup key is already in storage: the URL of an article, the
    link of a funding round or launch, the full name of a repository.  The
    github_signals table declares no key; whatever one takes as the natural
    key of a signal, a stored row holding the very same signal has it. *)
Definition key_stored (db : Database.t) (r : record) : Prop :=
  match r with
  | RArticle a =>
      exists k row, Database.news_url a = Some k /\ In row (Database.news db)
                    /\ Database.news_url (Database.news_rec row) = Some k
  | RFundingRound f =>
      exists k row, Database.funding_link f = Some k /\ In row (Database.funding db)
                    /\ Database.funding_link (Database.funding_rec row) = Some k
  | RLaunch l =>
      exists k row, Database.launch_link l = Some k /\ In row (Database.launches db)
                    /\ Database.launch_link (Database.launch_rec row) = Some k
  | RRepository x =>
      exists k row, Database.repo_full_name x = Some k
                    /\ In row (Database.github_repositories db)
                    /\ Database.repo_full_name (Database.repo_rec row) = Some k
  | RRepoSignal s =>
      exists row, In row (Database.github_signals db) /\ Database.signal_rec row = s
  end.

Definition is_signal (r : record) : bool :=
  match r with RRepoSignal _ => true | _ => false end.

(** Re-insertion is a silent no-op: nothing is stored and the count of
    inserted records does not move. *)
Definition reinsert_is_noop (db : Database.t) (inserted : Z) (r : record) : Prop :=
  insert_record_step (db, inserted) r = (db, inserted).

(** *** A scheduled run that raises (Scheduler) *)

(** After the loop turn in which the run raised, [last_run] is what it was
    before the run, and the turn ends in the fixed back-off sleep. *)
Definition failed_run_as_stated (runner : nat -> Scheduler.run)
           (s : Scheduler.state) : Prop :=
  let s' := snd (Scheduler.loop_turn runner s) in
  Scheduler.last_run (Scheduler.self s') = Scheduler.last_run (Scheduler.self s)
  /\ exists before,
       Scheduler.trace s' = (before ++ [Scheduler.Slept Scheduler.Backoff 300])%list.

(** *** Returning rather than raising (PipelineRunner) *)

(** The computation returns a value satisfying [P] from state [s]. *)
Definition returns_with {S A} (P : A -> Prop) (m : M S A) (s : S) : Prop :=
  exists a s', m s = (Ok a, s') /\ P a.

(** An awaited call returns or raises an [Exception]: it is not cancelled. *)
Definition not_cancelled {A} (r : result A) : bool :=
  match r with
  | Raise CancelledError => false
  | _ => true
  end.

(** No API key: [None] or the empty string. *)
Definition unconfigured (c : LLM.LLMClient) : bool :=
  match LLM.api_key c with
  | None | Some EmptyString => true
  | Some _ => false
  end.




(** *** Single flight (ConcurrencyGuard) *)

(** The body of the Accepted answer of POST /orchestrator/run. *)
Definition started_reply (days_back : Z) : json :=
  JDict [("status", JStr "started");
         ("message", JStr "Full workflow started in background");
         ("workflow", JStr "collect → enrich → analyze → summarize");
         ("days_back", JInt days_back)].

(** Where a coroutine of [trigger_workflow] holds the lock, has raised the
    flag, or has been refused. *)
Definition in_critical_section (p : Server.pc) : bool :=
  match p with
  | Server.AtCheck | Server.AtSet | Server.AtReleaseWon | Server.AtReleaseLost => true
  | _ => false
  end.

Definition won (p : Server.pc) : bool :=
  match p with
  | Server.AtReleaseWon | Server.AtCreateTask | Server.Accepted => true
  | _ => false
  end.

Definition lost (p : Server.pc) : bool :=
  match p with Server.AtReleaseLost | Server.Conflict => true | _ => false end.

Definition about_to_set (p : Server.pc) : bool :=
  match p with Server.AtSet => true | _ => false end.

Definition is_invalid (p : Server.pc) : bool :=
  match p with Server.Invalid => true | _ => false end.

(** What ties the lock and the flag to the two coroutines at every point of
    every interleaving: the lock is held exactly while one of them is between
    acquire and release, never by both; the flag is up exactly when one of
    them has raised it, never both; a refused one has seen the other's flag;
    and one about to raise the flag has seen it down. *)
Definition guard_invariant (p1 p2 : Server.pc) (lock flag : bool) : bool :=
  Bool.eqb lock (in_critical_section p1 || in_critical_section p2)
  && negb (in_critical_section p1 && in_critical_section p2)
  && Bool.eqb flag (won p1 || won p2)
  && negb (won p1 && won p2)
  && (if lost p1 then won p2 else true)
  && (if lost p2 then won p1 else true)
  && (if about_to_set p1 then negb (won p2) else true)
  && (if about_to_set p2 then negb (won p1) else true)
  && negb (is_invalid p1) && negb (is_invalid p2).

Definition inv_at (p1 p2 : Server.pc) (s : Server.state) : bool :=
  guard_invariant p1 p2 (Server.workflow_lock s)
                  (Server.running (Server.workflow_status s)).

(** *** Concrete inputs used below *)

(** A running hourly scheduler whose last run is recorded at 0 and whose
    next run, at 3600, is due now. *)
Definition hourly_due : Scheduler.state :=
  Scheduler.mkState
    (Scheduler.mkScheduler true true (Some 0) (Some 3600)
                           (Some Scheduler.HOURLY) (Some 3600) true)
    3600 0 [].

(** A workflow that takes two minutes and returns. *)
Definition two_minute_run : nat -> Scheduler.run :=
  fun _ => Scheduler.mkRun 120 Scheduler.Returns.

(** A workflow that fails after ten seconds. *)
Definition failing_run : nat -> Scheduler.run :=
  fun _ => Scheduler.mkRun 10 (Scheduler.Raises (RuntimeError "boom")).

(** The server just after start-up. *)
Definition fresh_server : Server.state :=
  Server.mkState (Server.mkStatus false None None) false None Database.empty
                 0 0 [] [] [] 0.

(** A date check standing in for [datetime.strptime]: ten characters,
    digits around two dashes. *)
Definition is_digit (c : ascii) : bool :=
  let n := nat_of_ascii c in ((48 <=? n) && (n <=? 57))%nat.

Definition ymd_shape (date : string) : bool :=
  match list_ascii_of_string date with
  | [y1; y2; y3; y4; d1; m1; m2; d2; a1; a2] =>
      is_digit y1 && is_digit y2 && is_digit y3 && is_digit y4
      && Ascii.eqb d1 "-" && is_digit m1 && is_digit m2
      && Ascii.eqb d2 "-" && is_digit a1 && is_digit a2
  | _ => false
  end.

Definition strptime_shape (date fmt : string) : result unit :=
  if ymd_shape date then Ok tt
  else Raise (ValueError "time data does not match format").

(** A signal and a database that already holds it. *)
Definition star_signal : Database.RepoSignal :=
  Database.mkSignal (Some "star_spike") (Some "octo/repo")
                    (Some "https://github.com/octo/repo") (Some "stars +500")
                    (Some "high") (Some "2024-05-01") "{}".

Definition db_with_signal : Database.t :=
  Database.mkDb [] [] [] []
                [Database.mkSignalRow 1 None star_signal] [] [].

(** An article and a database that already holds its URL. *)
Definition sample_article : Database.Article :=
  Database.mkArticle (Some "Seed round") (Some "https://example.com/a")
                     (Some "techcrunch") (Some "2024-05-01T00:00:00")
                     None None "{}".

Definition db_with_article : Database.t :=
  Database.mkDb [Database.mkNewsRow 1 sample_article false] [] [] [] [] [] [].

(** Collaborators of a run on a machine with no API key: every collector
    answers 200 with nothing new, enrichment does nothing. *)
Definition no_key : LLM.LLMClient :=
  LLM.mkClient "openai" "gpt-4-turbo-preview" None.

Definition quiet_analysis_env : Analysis.Env :=
  Analysis.mkEnv no_key (Raise (RequestError "unreachable"))
                 (fun _ => Raise (JSONDecodeError "Expecting value"))
                 (fun _ _ => true) 0 PyStr.of_int.

Definition quiet_summarizer_env : Summarizer.Env :=
  Summarizer.mkEnv no_key (Raise (RequestError "unreachable"))
                   (fun _ _ => true) 0 PyStr.of_int PyStr.of_int
                   (fun _ _ _ _ _ _ _ => Ok []).

Definition quiet_env : Orchestrator.Env :=
  Orchestrator.mkEnv
    (Ok (Orchestrator.mkResponse 200 (Ok (Orchestrator.mkNewsData None [] 0))))
    (Ok (Orchestrator.mkResponse 200 (Ok [])))
    (Ok (Orchestrator.mkResponse 200 (Ok [])))
    (Ok (Orchestrator.mkResponse 200 (Ok [])))
    (Ok (Orchestrator.mkResponse 200 (Ok [])))
    (fun _ => ret tt)
    quiet_analysis_env quiet_summarizer_env.

(** The same collaborators, except that the funding endpoint of the
    startup collector fails with an error that is not an httpx one. *)
Definition startup_down_env : Orchestrator.Env :=
  Orchestrator.mkEnv
    (Ok (Orchestrator.mkResponse 200 (Ok (Orchestrator.mkNewsData None [] 0))))
    (Raise (RuntimeError "boom"))
    (Ok (Orchestrator.mkResponse 200 (Ok [])))
    (Ok (Orchestrator.mkResponse 200 (Ok [])))
    (Ok (Orchestrator.mkResponse 200 (Ok [])))
    (fun _ => ret tt)
    quiet_analysis_env quiet_summarizer_env.


(** A completion text with an unclosed JSON-tagged fence after a closed
    plain one. *)
Definition unclosed_tag_after_block : string := "``` [1] ``` ```json {}".

End Statements.

(** ** Vocabulary for the properties of the code beyond the specification *)

Module Observations.

(** *** Scheduler *)

(** The instants at which runs were started, oldest first. *)
Fixpoint run_starts (tr : list Scheduler.event) : list Z :=
  match tr with
  | [] => []
  | Scheduler.RunStarted t :: rest => t :: run_starts rest
  | _ :: rest => run_starts rest
  end.

(** Consecutive instants lie at least [gap] apart. *)
Fixpoint spaced (gap : Z) (ts : list Z) : bool :=
  match ts with
  | [] => true
  | t1 :: rest =>
      match rest with
      | [] => true
      | t2 :: _ => (t1 + gap <=? t2) && spaced gap rest
      end
  end.

(** The interval [start] derives from its arguments (lines 62-71). *)
Definition interval_of (freq : Scheduler.ScheduleFrequency) (interval : option Z)
  : option Z :=
  match freq with
  | Scheduler.HOURLY => Some 3600
  | Scheduler.DAILY => Some 86400
  | Scheduler.WEEKLY => Some 604800
  | Scheduler.CUSTOM => interval
  end.

(** What the loop keeps from turn to turn: a due time is set, no run started
    before [lo], the recorded starts are an interval apart and the due time
    lies an interval or more after each of them. *)
Definition paced (iv lo : Z) (s : Scheduler.state) : Prop :=
  Scheduler.interval_seconds (Scheduler.self s) = Some iv
  /\ exists nr,
       Scheduler.next_run (Scheduler.self s) = Some nr
       /\ lo <= nr
       /\ spaced iv (run_starts (Scheduler.trace s)) = true
       /\ Forall (fun t => lo <= t /\ t + iv <= nr) (run_starts (Scheduler.trace s)).

(** A workflow that takes longer than an hour. *)
Definition hour_long_run : nat -> Scheduler.run :=
  fun _ => Scheduler.mkRun 4000 Scheduler.Returns.

(** *** Storage *)

(** The [url] column of the news table, row by row. *)
Definition news_urls (db : Database.t) : list (option string) :=
  map (fun r => Database.news_url (Database.news_rec r)) (Database.news db).

(** The constraints [init_db] declares on [news.url]: NOT NULL and UNIQUE. *)
Definition news_urls_unique (db : Database.t) : Prop :=
  NoDup (news_urls db) /\ Forall (fun u => u <> None) (news_urls db).


(** *** Analysis *)

(** The character [c] does not occur in [s]. *)
Fixpoint lacks (c : ascii) (s : string) : bool :=
  match s with
  | EmptyString => true
  | String x s' => negb (Ascii.eqb x c) && lacks c s'
  end.

Definition is_dict (v : json) : bool :=
  match v with JDict _ => true | _ => false end.


(** A completion with twenty-five trends and nothing else. *)
Definition twenty_five_trends : json :=
  JDict [("trends", JList (repeat (JDict [("title", JStr "AI agents")]) 25))].

(** An analysis agent whose key is set but whose provider is not one of the
    two the client knows. *)
Definition azure_env : Analysis.Env :=
  Analysis.mkEnv (LLM.mkClient "azure" "gpt-4" (Some "sk-test")) (Ok "{}")
                 (fun _ => Ok (JDict [])) (fun _ _ => true) 0 PyStr.of_int.

(** *** Summarizer *)

(** Both text columns [_find_related_articles] reads are filled. *)
Definition has_text (article : Database.news_row) : bool :=
  negb (Database.is_null (Database.news_title (Database.news_rec article)))
  && negb (Database.is_null (Database.news_summary (Database.news_rec article))).

(** *** Orchestrator *)

(** No collector agent can be reached. *)
Definition outage_env : Orchestrator.Env :=
  Orchestrator.mkEnv
    (Raise (RequestError "connection refused"))
    (Raise (RequestError "connection refused"))
    (Raise (RequestError "connection refused"))
    (Raise (RequestError "connection refused"))
    (Raise (RequestError "connection refused"))
    (fun _ => ret tt)
    Statements.quiet_analysis_env Statements.quiet_summarizer_env.

(** A [strptime] that accepts every text. *)
Definition strptime_any (date fmt : string) : result unit := Ok tt.

End Observations.

(** * Properties *)

(** ** The scheduler: when the next run is due *)

Module SchedulerProps.

Import Scheduler.

Lemma truthy_nonzero : forall iv, iv <> 0 -> truthy (Some iv) = true.
Proof.
  intros iv H. unfold truthy. apply Z.eqb_neq in H. now rewrite H.
Qed.

(** A run followed by the recomputation of [next_run], whatever way the
    workflow ends short of cancellation: [last_run] holds the instant read
    before the workflow was awaited and [next_run] is that instant plus the
    interval; the clock has moved on by the workflow's duration. *)
Lemma run_then_calculate :
  forall runner s iv,
    interval_seconds (self s) = Some iv -> iv <> 0 ->
    (forall e, outcome (runner (runs s)) = Raises e -> is_Exception e = true) ->
    (_run_workflow runner ;; _calculate_next_run) s =
    (Ok tt,
     mkState (set_next_run (Some (clock s + iv))
                (set_last_run (Some (clock s)) (self s)))
             (clock s + duration (runner (runs s))) (S (runs s))
             (trace s ++ [RunStarted (clock s);
                          RunEnded (clock s + duration (runner (runs s)))
                                   (outcome (runner (runs s)))])).
Proof.
  intros runner [w c n tr] iv Hiv Hnz Hexc. simpl in *.
  destruct w as [st ir lr nr fr ivs en]. simpl in *. subst ivs.
  assert (Hz : (iv =? 0) = false) by now apply Z.eqb_neq.
  unfold _run_workflow, _calculate_next_run, try_except, bind, datetime_now,
    set_self, modify, await_workflow_runner, get, ret, raise, truthy. simpl.
  destruct (outcome (runner n)) as [|e] eqn:Ho; simpl.
  - rewrite Hz. reflexivity.
  - rewrite (Hexc e eq_refl). simpl. rewrite Hz. reflexivity.
Qed.

Lemma bind_get_run : forall {A} (k : state -> M state A) s, (bind get k) s = k s s.
Proof. reflexivity. Qed.

(** The manual trigger of a running scheduler. *)
Lemma trigger_now_next_run :
  forall runner s iv,
    is_running (self s) = true ->
    interval_seconds (self s) = Some iv -> iv <> 0 ->
    (forall e, outcome (runner (runs s)) = Raises e -> is_Exception e = true) ->
    let s' := snd (trigger_now runner s) in
    clock s' = clock s + duration (runner (runs s))
    /\ last_run (self s') = Some (clock s)
    /\ next_run (self s') = Some (clock s + iv).
Proof.
  intros runner s iv Hrun Hiv Hnz Hexc.
  pose proof (run_then_calculate runner s iv Hiv Hnz Hexc) as H.
  unfold trigger_now. rewrite bind_get_run. rewrite Hrun. cbn [negb].
  rewrite H. simpl. auto.
Qed.


Lemma bind_now_run : forall {A} (k : Z -> M state A) s,
  (bind datetime_now k) s = k (clock s) s.
Proof. reflexivity. Qed.

Lemma bind_ret_run : forall {S A B} (a : A) (k : A -> M S B) s,
  (bind (ret a) k) s = k a s.
Proof. reflexivity. Qed.

Lemma bind_sleep_run : forall {A} site d (k : unit -> M state A) s,
  (bind (asyncio_sleep site d) k) s
  = k tt (mkState (self s) (clock s + d) (runs s) (trace s ++ [Slept site d])).
Proof. reflexivity. Qed.

(** A scheduled tick: the [try] block of the turn in which a run is due. *)
Lemma loop_try_block_when_due :
  forall runner s nr iv,
    next_run (self s) = Some nr ->
    interval_seconds (self s) = Some iv -> iv <> 0 ->
    (forall e, outcome (runner (runs s)) = Raises e -> is_Exception e = true) ->
    let waited := if 0 <? nr - clock s
                  then [Slept UntilNextRun (nr - clock s)] else [] in
    let started := if 0 <? nr - clock s then nr else clock s in
    let r := runner (runs s) in
    loop_try_block runner s =
    (Ok tt,
     mkState (set_next_run (Some (started + iv))
                (set_last_run (Some started) (self s)))
             (started + duration r) (S (runs s))
             (trace s ++ waited
                ++ [RunStarted started; RunEnded (started + duration r) (outcome r)])).
Proof.
  intros runner s nr iv Hnr Hiv Hnz Hexc. cbv zeta.
  unfold loop_try_block. rewrite bind_get_run, Hnr, bind_now_run.
  destruct (0 <? nr - clock s) eqn:Hw.
  - rewrite bind_sleep_run. cbv beta.
    rewrite (run_then_calculate runner
               (mkState (self s) (clock s + (nr - clock s)) (runs s)
                        (trace s ++ [Slept UntilNextRun (nr - clock s)]))
               iv Hiv Hnz Hexc). simpl.
    replace (clock s + (nr - clock s)) with nr by lia.
    rewrite <- app_assoc. reflexivity.
  - rewrite bind_ret_run. cbv beta.
    rewrite (run_then_calculate runner s iv Hiv Hnz Hexc). reflexivity.
Qed.

(** The same turn with its [except] clauses: none of them is entered. *)
Lemma loop_turn_when_due :
  forall runner s nr iv,
    next_run (self s) = Some nr ->
    interval_seconds (self s) = Some iv -> iv <> 0 ->
    (forall e, outcome (runner (runs s)) = Raises e -> is_Exception e = true) ->
    let waited := if 0 <? nr - clock s
                  then [Slept UntilNextRun (nr - clock s)] else [] in
    let started := if 0 <? nr - clock s then nr else clock s in
    let r := runner (runs s) in
    loop_turn runner s =
    (Ok true,
     mkState (set_next_run (Some (started + iv))
                (set_last_run (Some started) (self s)))
             (started + duration r) (S (runs s))
             (trace s ++ waited
                ++ [RunStarted started; RunEnded (started + duration r) (outcome r)])).
Proof.
  intros runner s nr iv Hnr Hiv Hnz Hexc. cbv zeta.
  unfold loop_turn, try_except. unfold bind at 1.
  rewrite (loop_try_block_when_due runner s nr iv Hnr Hiv Hnz Hexc).
  reflexivity.
Qed.

(** Whenever the workflow takes time, the next run is not due one interval
    after the run's completion: it is due one interval after its start. *)
Lemma next_run_is_start_plus_interval :
  forall runner s nr iv,
    next_run (self s) = Some nr ->
    interval_seconds (self s) = Some iv -> iv <> 0 ->
    (forall e, outcome (runner (runs s)) = Raises e -> is_Exception e = true) ->
    0 < duration (runner (runs s)) ->
    let s' := snd (loop_turn runner s) in
    next_run (self s') = Some (clock s' - duration (runner (runs s)) + iv)
    /\ next_run (self s') <> Some (clock s' + iv).
Proof.
  intros runner s nr iv Hnr Hiv Hnz Hexc Hpos.
  rewrite (loop_turn_when_due runner s nr iv Hnr Hiv Hnz Hexc). simpl.
  split.
  - f_equal. lia.
  - intro H. injection H. lia.
Qed.

(** C1 (the code at a run of two minutes).  The specification wants
    [next_run] to be the run's completion time plus the interval.  With an
    hourly schedule due at 3600 and a workflow that takes 120 seconds, the run
    completes at 3720, yet [last_run] is 3600, the start, and [next_run] is
    7200 = start + interval, not 7320 = completion + interval; the manual
    trigger behaves the same. *)
Theorem next_run_counts_from_run_start :
  let tick := snd (loop_turn Statements.two_minute_run Statements.hourly_due) in
  let manual := snd (trigger_now Statements.two_minute_run Statements.hourly_due) in
  clock tick = 3720
  /\ last_run (self tick) = Some 3600
  /\ next_run (self tick) = Some 7200
  /\ next_run (self tick) <> Some (clock tick + 3600)
  /\ clock manual = 3720
  /\ next_run (self manual) = Some 7200
  /\ next_run (self manual) <> Some (clock manual + 3600).
Proof.
  cbv zeta. vm_compute. repeat split; try reflexivity; intro H; discriminate H.
Qed.

(** No turn of the loop ends in the back-off sleep: [_run_workflow] lets
    nothing but a cancellation out, and nothing else in the [try] block
    raises. *)
Lemma loop_turn_trace : forall runner s,
  exists added,
    trace (snd (loop_turn runner s)) = (trace s ++ added)%list
    /\ ~ In (Slept Backoff 300) added.
Proof.
  intros runner [[st ir lr nr fr ivs en] c n tr].
  unfold loop_turn, loop_try_block, try_except, bind, get, datetime_now,
    _run_workflow, _calculate_next_run, try_except, bind, get, datetime_now,
    set_self, modify, await_workflow_runner, asyncio_sleep, ret, raise, truthy.
  simpl.
  destruct nr as [nr|]; simpl.
  - destruct (0 <? nr - c); simpl;
      destruct (outcome (runner n)) as [|e]; simpl;
      try (destruct e; simpl);
      destruct ivs as [iv|]; simpl;
      try (destruct (iv =? 0); simpl);
      rewrite <- ?app_assoc; simpl;
      (eexists; split; [reflexivity |
         simpl; intros H; repeat (destruct H as [H | H]; [discriminate H |]); exact H]).
  - eexists. split; [reflexivity|].
    simpl. intros [H | H]; [discriminate H | exact H].
Qed.

(** C8 (as stated, at a concrete failing run).  The hourly scheduler with
    [last_run = 0] runs a workflow that raises after ten seconds: [last_run]
    moves to 3600 and the turn ends without any back-off sleep. *)
Lemma failed_run_moves_last_run_without_backoff :
  let s' := snd (loop_turn Statements.failing_run Statements.hourly_due) in
  last_run (self Statements.hourly_due) = Some 0
  /\ last_run (self s') = Some 3600
  /\ trace s' = [RunStarted 3600; RunEnded 3610 (Raises (RuntimeError "boom"))]
  /\ ~ Statements.failed_run_as_stated Statements.failing_run Statements.hourly_due.
Proof.
  cbv zeta. repeat split; try (vm_compute; reflexivity).
  unfold Statements.failed_run_as_stated. intros [H _].
  vm_compute in H. discriminate H.
Qed.

(** C8 (amended).  When the workflow of a scheduled run raises an exception,
    [_run_workflow] swallows it: the loop turn ends normally and goes on, the
    only sleep of the turn is the wait for the due time (no back-off), and
    [next_run] is recomputed as [last_run] plus the interval, so the retry
    waits for the next interval. *)
Theorem failed_run_retried_on_next_interval :
  forall runner s nr iv e,
    next_run (self s) = Some nr ->
    interval_seconds (self s) = Some iv -> iv <> 0 ->
    outcome (runner (runs s)) = Raises e -> is_Exception e = true ->
    let s' := snd (loop_turn runner s) in
    let waited := if 0 <? nr - clock s
                  then [Slept UntilNextRun (nr - clock s)] else [] in
    fst (loop_turn runner s) = Ok true
    /\ (exists t0 t1,
          trace s'
          = (trace s ++ waited ++ [RunStarted t0; RunEnded t1 (Raises e)])%list)
    /\ (forall ev, In ev (trace s') -> In ev (trace s) \/ ev <> Slept Backoff 300)
    /\ next_run (self s')
       = option_map (fun t => t + iv) (last_run (self s')).
Proof.
  intros runner s nr iv e Hnr Hiv Hnz Ho He.
  assert (Hexc : forall e', outcome (runner (runs s)) = Raises e' ->
                            is_Exception e' = true).
  { intros e' H'. rewrite Ho in H'. injection H' as <-. exact He. }
  rewrite (loop_turn_when_due runner s nr iv Hnr Hiv Hnz Hexc).
  cbv zeta. simpl fst. simpl snd. rewrite Ho. simpl.
  repeat split.
  - eexists. eexists. reflexivity.
  - intros ev Hin. apply in_app_or in Hin. destruct Hin as [Hin | Hin].
    + now left.
    + right. destruct (0 <? nr - clock s); simpl in Hin;
        repeat (destruct Hin as [Hin | Hin]; [subst ev; discriminate |]);
        contradiction.
Qed.

Lemma failed_run_retried_on_next_interval_witness :
  fst (loop_turn Statements.failing_run Statements.hourly_due) = Ok true
  /\ next_run (self (snd (loop_turn Statements.failing_run Statements.hourly_due)))
     = option_map (fun t => t + 3600)
         (last_run (self (snd (loop_turn Statements.failing_run Statements.hourly_due)))).
Proof.
  pose proof (failed_run_retried_on_next_interval
                Statements.failing_run Statements.hourly_due 3600 3600
                (RuntimeError "boom") eq_refl eq_refl
                (fun H : 3600 = 0 => Z.neq_sym _ _ (Z.lt_neq 0 3600 eq_refl) H)
                eq_refl eq_refl) as H.
  cbv zeta in H. destruct H as [H1 [_ [_ H4]]].
  split; [exact H1 | exact H4].
Defined.

End SchedulerProps.

(** ** The control surface: single flight, scheduler start, briefing lookup *)

Module ServerProps.

Import Server Statements.

Lemma valid_days_back :
  forall d, 1 <= d <= 30 -> (d <? 1) || (30 <? d) = false.
Proof.
  intros d [H1 H2]. apply orb_false_iff. split; apply Z.ltb_ge; lia.
Qed.

(** With no workflow in flight and the lock free, a request is accepted: the
    flag is raised, the background task is created, the lock is free again
    and nobody had to wait for it. *)
Lemma trigger_when_idle :
  forall d s,
    1 <= d <= 30 ->
    running (workflow_status s) = false -> workflow_lock s = false ->
    trigger_workflow d s =
    (Ok (started_reply d),
     mkState (mkStatus true (last_run (workflow_status s)) None) false
             (scheduler s) (db s) (clock s) (sched_runs s) (sched_trace s)
             (created_tasks s ++ [run_workflow_task d]) (db_queries s)
             (lock_waits s)).
Proof.
  intros d [st lk sc dbs c n tr tasks qs w] Hd Hrun Hlk. simpl in *.
  unfold trigger_workflow. rewrite (valid_days_back d Hd).
  subst lk. unfold bind, async_with_lock, lock_acquire, lock_release, modify,
    get, raise, create_task, ret, bind. simpl. rewrite Hrun. reflexivity.
Qed.

(** With a workflow in flight, a request is refused with 409 and nothing
    changes. *)
Lemma trigger_when_running :
  forall d s,
    1 <= d <= 30 ->
    running (workflow_status s) = true -> workflow_lock s = false ->
    trigger_workflow d s =
    (Raise (HTTPException 409 "Workflow is already running"), s).
Proof.
  intros d [st lk sc dbs c n tr tasks qs w] Hd Hrun Hlk. simpl in *.
  unfold trigger_workflow. rewrite (valid_days_back d Hd).
  subst lk. unfold bind, async_with_lock, lock_acquire, lock_release, modify,
    get, raise, create_task, ret, bind. simpl. rewrite Hrun. reflexivity.
Qed.

(** While a workflow is in flight every request of a burst is refused. *)
Lemma burst_while_running :
  forall ds s,
    Forall (fun d => 1 <= d <= 30) ds ->
    running (workflow_status s) = true -> workflow_lock s = false ->
    exists rs,
      serve_runs ds s = (Ok rs, s)
      /\ List.length rs = List.length ds
      /\ Forall (fun r => conflict r = true /\ accepted r = false) rs.
Proof.
  induction ds as [|d ds IH]; intros s Hds Hrun Hlk.
  - exists []. repeat split; constructor.
  - inversion Hds as [|? ? Hd Hrest]; subst.
    destruct (IH s Hrest Hrun Hlk) as [rs [E [Hlen Hall]]].
    exists (Raise (HTTPException 409 "Workflow is already running") :: rs).
    simpl. rewrite (trigger_when_running d s Hd Hrun Hlk), E.
    repeat split; [now rewrite Hlen | constructor; [split; reflexivity | exact Hall]].
Qed.

(** A burst that finds no workflow in flight: the first request wins, all
    the others are refused. *)
Lemma burst_when_idle :
  forall d ds s,
    1 <= d <= 30 -> Forall (fun d => 1 <= d <= 30) ds ->
    running (workflow_status s) = false -> workflow_lock s = false ->
    exists rs s',
      serve_runs (d :: ds) s = (Ok (Ok (started_reply d) :: rs), s')
      /\ Forall (fun r => conflict r = true /\ accepted r = false) rs
      /\ lock_waits s' = lock_waits s.
Proof.
  intros d ds s Hd Hds Hrun Hlk.
  pose proof (trigger_when_idle d s Hd Hrun Hlk) as E1.
  set (s1 := mkState (mkStatus true (last_run (workflow_status s)) None) false
                     (scheduler s) (db s) (clock s) (sched_runs s) (sched_trace s)
                     (created_tasks s ++ [run_workflow_task d]) (db_queries s)
                     (lock_waits s)) in *.
  destruct (burst_while_running ds s1 Hds eq_refl eq_refl) as [rs [E [_ Hall]]].
  exists rs, s1. simpl. rewrite E1, E. repeat split. exact Hall.
Qed.

(** *** Every interleaving of two handlers *)

(** A statement of the first coroutine keeps the invariant. *)
Lemma step_keeps_invariant_first : forall d p1 p2 s,
  1 <= d <= 30 ->
  inv_at p1 p2 s = true ->
  inv_at (fst (step_handler d p1 s)) p2 (snd (step_handler d p1 s)) = true.
Proof.
  intros d p1 p2 [[run lr err] lk sc dbs c n tr tasks qs w] Hd H.
  unfold inv_at in *. simpl in H.
  destruct p1; simpl; try rewrite (valid_days_back d Hd); simpl;
    destruct p2, lk, run; simpl in *; try discriminate H; reflexivity.
Qed.

Lemma guard_invariant_sym : forall p1 p2 lock flag,
  guard_invariant p1 p2 lock flag = guard_invariant p2 p1 lock flag.
Proof.
  intros p1 p2 lock flag. destruct p1, p2, lock, flag; reflexivity.
Qed.

Lemma step_keeps_invariant_second : forall d p1 p2 s,
  1 <= d <= 30 ->
  inv_at p1 p2 s = true ->
  inv_at p1 (fst (step_handler d p2 s)) (snd (step_handler d p2 s)) = true.
Proof.
  intros d p1 p2 s Hd H. unfold inv_at in *.
  rewrite guard_invariant_sym. apply (step_keeps_invariant_first d p2 p1 s Hd).
  unfold inv_at. now rewrite guard_invariant_sym.
Qed.

Lemma interleave_keeps_invariant : forall schedule d1 d2 p1 p2 s,
  1 <= d1 <= 30 -> 1 <= d2 <= 30 ->
  inv_at p1 p2 s = true ->
  let '(q1, q2, s') := interleave schedule d1 d2 (p1, p2, s) in
  inv_at q1 q2 s' = true.
Proof.
  induction schedule as [|first rest IH]; intros d1 d2 p1 p2 s Hd1 Hd2 H.
  - exact H.
  - simpl. destruct first.
    + pose proof (step_keeps_invariant_first d1 p1 p2 s Hd1 H) as H'.
      destruct (step_handler d1 p1 s) as [p1' s1]. now apply IH.
    + pose proof (step_keeps_invariant_second d2 p1 p2 s Hd2 H) as H'.
      destruct (step_handler d2 p2 s) as [p2' s1]. now apply IH.
Qed.

Lemma finished_under_invariant : forall p1 p2 lock flag,
  guard_invariant p1 p2 lock flag = true ->
  finished p1 = true -> finished p2 = true ->
  (p1 = Accepted /\ p2 = Conflict) \/ (p1 = Conflict /\ p2 = Accepted).
Proof.
  intros p1 p2 lock flag H F1 F2.
  destruct p1, p2; try discriminate F1; try discriminate F2;
    destruct lock, flag; simpl in H; try discriminate H; auto.
Qed.

(** Whatever the order in which the statements of the two handlers are
    run, once both have finished one has been accepted and the other
    refused. *)
Lemma any_interleaving_one_winner : forall schedule s d1 d2 p1 p2 s',
  running (workflow_status s) = false -> workflow_lock s = false ->
  1 <= d1 <= 30 -> 1 <= d2 <= 30 ->
  interleave schedule d1 d2 (AtValidate, AtValidate, s) = (p1, p2, s') ->
  finished p1 = true -> finished p2 = true ->
  (p1 = Accepted /\ p2 = Conflict) \/ (p1 = Conflict /\ p2 = Accepted).
Proof.
  intros schedule s d1 d2 p1 p2 s' Hrun Hlk Hd1 Hd2 E F1 F2.
  assert (H0 : inv_at AtValidate AtValidate s = true).
  { unfold inv_at. now rewrite Hrun, Hlk. }
  pose proof (interleave_keeps_invariant schedule d1 d2 _ _ s Hd1 Hd2 H0) as H.
  rewrite E in H. eapply finished_under_invariant; eauto.
Qed.

(** Run with nothing in between, the seven statements are the handler. *)
Lemma run_alone_is_trigger_workflow : forall d s,
  workflow_lock s = false ->
  answer d (fst (run_alone 7 d (AtValidate, s))) = Some (fst (trigger_workflow d s))
  /\ snd (run_alone 7 d (AtValidate, s)) = snd (trigger_workflow d s).
Proof.
  intros d [[run lr err] lk sc dbs c n tr tasks qs w] Hlk. simpl in Hlk. subst lk.
  unfold trigger_workflow. simpl.
  destruct ((d <? 1) || (30 <? d)); simpl; [split; reflexivity|].
  destruct run; simpl; split; reflexivity.
Qed.

(** C2.  Two StartRun requests that arrive together while no workflow is
    in flight.  In whatever order the statements of the two handlers are
    interleaved, once both have answered one has been Accepted and the other
    refused with 409 Conflict.  As the event loop really runs them (a handler
    has no await between its first statement and its last, so they run back
    to back before the background task of the first gets to finish) the one
    run first is Accepted and the other gets 409; the lock is free whenever
    a handler reaches it, so neither request waits behind the other, and only
    the accepted one starts a background task. *)
Theorem concurrent_runs_one_accepted_one_conflict :
  forall s d1 d2,
    running (workflow_status s) = false -> workflow_lock s = false ->
    1 <= d1 <= 30 -> 1 <= d2 <= 30 ->
    (forall schedule p1 p2 s',
        interleave schedule d1 d2 (AtValidate, AtValidate, s) = (p1, p2, s') ->
        finished p1 = true -> finished p2 = true ->
        (p1 = Accepted /\ p2 = Conflict) \/ (p1 = Conflict /\ p2 = Accepted))
    /\ exists r1 r2 s',
        serve_runs [d1; d2] s = (Ok [r1; r2], s')
        /\ accepted r1 = true /\ conflict r1 = false
        /\ conflict r2 = true /\ accepted r2 = false
        /\ http_status r1 = 200 /\ http_status r2 = 409
        /\ lock_waits s' = lock_waits s /\ workflow_lock s' = false
        /\ created_tasks s' = (created_tasks s ++ [run_workflow_task d1])%list.
Proof.
  intros s d1 d2 Hrun Hlk Hd1 Hd2. split.
  - intros schedule p1 p2 s' E F1 F2.
    exact (any_interleaving_one_winner schedule s d1 d2 p1 p2 s'
             Hrun Hlk Hd1 Hd2 E F1 F2).
  - pose proof (trigger_when_idle d1 s Hd1 Hrun Hlk) as E1.
    set (s1 := mkState (mkStatus true (last_run (workflow_status s)) None) false
                       (scheduler s) (db s) (clock s) (sched_runs s) (sched_trace s)
                       (created_tasks s ++ [run_workflow_task d1]) (db_queries s)
                       (lock_waits s)) in *.
    pose proof (trigger_when_running d2 s1 Hd2 eq_refl eq_refl) as E2.
    exists (Ok (started_reply d1)),
           (Raise (HTTPException 409 "Workflow is already running")), s1.
    simpl. rewrite E1, E2. unfold ret. simpl. repeat split; reflexivity.
Qed.

Lemma concurrent_runs_one_accepted_one_conflict_witness :
  (forall schedule p1 p2 s',
      interleave schedule 7 3 (AtValidate, AtValidate, Statements.fresh_server)
      = (p1, p2, s') ->
      finished p1 = true -> finished p2 = true ->
      (p1 = Accepted /\ p2 = Conflict) \/ (p1 = Conflict /\ p2 = Accepted))
  /\ exists r1 r2 s',
      serve_runs [7; 3] Statements.fresh_server = (Ok [r1; r2], s')
      /\ accepted r1 = true /\ conflict r1 = false
      /\ conflict r2 = true /\ accepted r2 = false
      /\ http_status r1 = 200 /\ http_status r2 = 409
      /\ lock_waits s' = lock_waits Statements.fresh_server
      /\ workflow_lock s' = false
      /\ created_tasks s'
         = (created_tasks Statements.fresh_server ++ [run_workflow_task 7])%list.
Proof.
  apply (concurrent_runs_one_accepted_one_conflict Statements.fresh_server 7 3);
    try reflexivity; split; discriminate.
Defined.

(** A schedule that lets the second handler in while the first holds the
    lock: the second waits at the lock, and is refused once it gets in. *)
Lemma lock_makes_the_late_handler_wait :
  interleave [true; true; true; false; false; true; true; true;
              false; false; false]
             7 3 (AtValidate, AtValidate, Statements.fresh_server)
  = (Accepted, Conflict,
     mkState (mkStatus true None None) false None Database.empty 0 0 [] 
             [run_workflow_task 7] [] 1).
Proof. reflexivity. Qed.

(** Once the background task has finished, the flag is down again. *)
Lemma run_workflow_finish_clears_flag :
  forall isoformat r s,
    (forall e, r = Raise e -> is_Exception e = true) ->
    running (workflow_status (snd (run_workflow_finish isoformat r s))) = false.
Proof.
  intros isoformat r s H. unfold run_workflow_finish, bind, get, modify, raise.
  destruct r as [res | e]; simpl.
  - reflexivity.
  - rewrite (H e eq_refl). reflexivity.
Qed.

(** *** Starting the scheduler *)

(** C9 (the code at the failing input).  On a freshly started server,
    [StartScheduler(frequency=custom, intervalSeconds=None)] leaves the whole
    state as it was, but the answer is HTTP 500, not the 400 the handler
    builds: the [HTTPException(400)] raised inside the [try] is caught by the
    handler's own [except Exception] and wrapped. *)
Theorem start_custom_without_interval_answers_500 :
  forall isoformat run_immediately,
    start_scheduler isoformat "custom" None run_immediately Statements.fresh_server
    = (Raise (HTTPException 500
               (str_exn (HTTPException 400
                  "interval_seconds parameter is required when frequency=custom"))),
       Statements.fresh_server)
    /\ http_status (fst (start_scheduler isoformat "custom" None run_immediately
                           Statements.fresh_server)) <> 400.
Proof.
  intros isoformat b. split.
  - reflexivity.
  - vm_compute. discriminate.
Qed.

(** The same on any state whose lock is free: no field changes, and the
    status is 500 whether the scheduler is running (409 wrapped) or not
    (400 wrapped). *)
Lemma start_custom_without_interval_keeps_state :
  forall isoformat b s,
    workflow_lock s = false ->
    snd (start_scheduler isoformat "custom" None b s) = s
    /\ http_status (fst (start_scheduler isoformat "custom" None b s)) = 500.
Proof.
  intros isoformat b [st lk sc dbs c n tr tasks qs w] Hlk. simpl in Hlk. subst lk.
  unfold start_scheduler. simpl parse_frequency. cbv iota.
  destruct sc as [[t0 ir lr nr fr ivs en]|]; [destruct ir|]; split; reflexivity.
Qed.

(** A custom interval below 60 seconds never reaches the handler: the
    [Query(ge=60)] constraint answers 422 and the state is untouched. *)
Lemma start_custom_short_interval_rejected :
  forall isoformat b s n,
    n < 60 ->
    start_scheduler isoformat "custom" (Some n) b s
    = (Raise (HTTPException 422 "Unprocessable Entity"), s).
Proof.
  intros isoformat b s n Hn. unfold start_scheduler. simpl parse_frequency.
  cbv iota. apply Z.ltb_lt in Hn. rewrite Hn. reflexivity.
Qed.

(** Below the handler, [WorkflowScheduler.start] itself checks only that the
    custom interval is neither [None] nor 0, and it has already written
    [frequency] and [enabled] when it raises. *)
Lemma scheduler_start_custom_none_raises_after_writes :
  forall c n tr,
    Scheduler.start Scheduler.CUSTOM None false
                    (Scheduler.mkState Scheduler.init c n tr)
    = (Raise (ValueError "interval_seconds required for CUSTOM frequency"),
       Scheduler.mkState
         (Scheduler.mkScheduler false false None None (Some Scheduler.CUSTOM) None true)
         c n tr).
Proof. reflexivity. Qed.

(** Nor does it ask for 60 seconds: a custom interval of 30 is accepted
    there, so the lower bound is the [Query] constraint's alone. *)
Lemma scheduler_start_accepts_short_custom_interval :
  forall c n tr,
    Scheduler.start Scheduler.CUSTOM (Some 30) false
                    (Scheduler.mkState Scheduler.init c n tr)
    = (Ok tt,
       Scheduler.mkState
         (Scheduler.mkScheduler true true None (Some (c + 30))
                                (Some Scheduler.CUSTOM) (Some 30) true)
         c n (tr ++ [Scheduler.Spawned Scheduler.SchedulerLoopTask])).
Proof. reflexivity. Qed.

(** *** Briefing by date *)

(** C10.  When the date string does not parse as [%Y-%m-%d], that is when
    [datetime.strptime] raises [ValueError], GET /briefing/{date} answers
    HTTP 400 and the server state is exactly what it was: in particular no
    query was sent to the database. *)
Theorem malformed_date_rejected_before_any_query :
  forall isoformat strptime date msg s,
    strptime date "%Y-%m-%d" = Raise (ValueError msg) ->
    get_briefing_by_date isoformat strptime date s
    = (Raise (HTTPException 400 "Invalid date format. Use YYYY-MM-DD"), s)
    /\ db_queries (snd (get_briefing_by_date isoformat strptime date s))
       = db_queries s.
Proof.
  intros isoformat strptime date msg s H.
  assert (E : get_briefing_by_date isoformat strptime date s
              = (Raise (HTTPException 400 "Invalid date format. Use YYYY-MM-DD"), s)).
  { unfold get_briefing_by_date, try_except, bind, lift. rewrite H. reflexivity. }
  rewrite E. split; reflexivity.
Qed.

Lemma malformed_date_rejected_before_any_query_witness :
  get_briefing_by_date PyStr.of_int Statements.strptime_shape "yesterday"
                       Statements.fresh_server
  = (Raise (HTTPException 400 "Invalid date format. Use YYYY-MM-DD"),
     Statements.fresh_server)
  /\ db_queries (snd (get_briefing_by_date PyStr.of_int Statements.strptime_shape
                        "yesterday" Statements.fresh_server))
     = db_queries Statements.fresh_server.
Proof.
  apply (malformed_date_rejected_before_any_query
           PyStr.of_int Statements.strptime_shape "yesterday"
           "time data does not match format" Statements.fresh_server).
  reflexivity.
Defined.

(** A date that parses is looked up: the query is sent. *)
Lemma wellformed_date_is_queried :
  forall isoformat strptime date s,
    strptime date "%Y-%m-%d" = Ok tt ->
    db_queries (snd (get_briefing_by_date isoformat strptime date s))
    = (db_queries s ++ ["get_briefing_by_date"])%list.
Proof.
  intros isoformat strptime date s H.
  unfold get_briefing_by_date, try_except, bind, lift, db_call,
    Database.get_briefing_by_date, get, ret, raise. rewrite H. simpl.
  destruct (find _ _) as [row|]; simpl.
  - destruct (set_retrieved_at _ _) as [j|e]; simpl; [reflexivity|].
    destruct (is_ValueError e); [reflexivity|].
    destruct (is_Exception e); reflexivity.
  - reflexivity.
Qed.

End ServerProps.

(** ** The response extractor: positions against the worded strategy *)

Module ExtractorProps.

Import PyStr ExtractorSpec.

Lemma length_append : forall a b,
  String.length (a ++ b) = (String.length a + String.length b)%nat.
Proof. induction a as [|c a IH]; intros b; simpl; [reflexivity | now rewrite IH]. Qed.

Lemma append_assoc : forall a b c : string, (a ++ b) ++ c = a ++ (b ++ c).
Proof. induction a as [|x a IH]; intros b c; simpl; [reflexivity | now rewrite IH]. Qed.

Lemma drop_app : forall a b, drop (String.length a) (a ++ b) = b.
Proof. induction a as [|c a IH]; intros b; simpl; [now destruct b | apply IH]. Qed.

Lemma drop_drop : forall n m s, drop (n + m) s = drop m (drop n s).
Proof.
  induction n as [|n IH]; intros m s; simpl.
  - reflexivity.
  - destruct s as [|c s]; [now destruct m | apply IH].
Qed.

Lemma substring_drop : forall n m s, substring n m s = substring 0 m (drop n s).
Proof.
  induction n as [|n IH]; intros m s; simpl.
  - reflexivity.
  - destruct s as [|c s]; [now destruct m | apply IH].
Qed.

Lemma substring_0_app : forall a b, substring 0 (String.length a) (a ++ b) = a.
Proof. induction a as [|c a IH]; intros b; simpl; [now destruct b | now rewrite IH]. Qed.

Lemma prefix_split : forall sub s,
  prefix sub s = true -> s = sub ++ drop (String.length sub) s.
Proof.
  induction sub as [|x sub IH]; intros s H.
  - now destruct s.
  - destruct s as [|c s]; simpl in H; [discriminate|].
    destruct (ascii_dec x c) as [->|]; [|discriminate].
    simpl. f_equal. now apply IH.
Qed.

Lemma index_0_cons : forall sub c s,
  index 0 sub (String c s)
  = if prefix sub (String c s) then Some 0%nat
    else match index 0 sub s with Some n => Some (S n) | None => None end.
Proof. reflexivity. Qed.

Lemma cut_cons : forall sub c s,
  cut sub (String c s)
  = if prefix sub (String c s)
    then Some (EmptyString, drop (String.length sub) (String c s))
    else match cut sub s with Some (a, b) => Some (String c a, b) | None => None end.
Proof. reflexivity. Qed.

(** [cut] finds what [index 0] finds. *)
Lemma index_cut : forall sub s,
  index 0 sub s = match cut sub s with
                  | Some (a, _) => Some (String.length a)
                  | None => None
                  end.
Proof.
  intros sub. induction s as [|c s IH].
  - simpl. now destruct sub.
  - rewrite index_0_cons, cut_cons.
    destruct (prefix sub (String c s)); [reflexivity|].
    rewrite IH. destruct (cut sub s) as [[a b]|]; reflexivity.
Qed.

Lemma cut_split : forall sub s a b,
  cut sub s = Some (a, b) -> s = a ++ sub ++ b.
Proof.
  intros sub. induction s as [|c s IH]; intros a b H.
  - simpl in H. destruct sub; [|discriminate]. now injection H as <- <-.
  - rewrite cut_cons in H. destruct (prefix sub (String c s)) eqn:Hp.
    + injection H as <- <-. simpl. now apply prefix_split.
    + destruct (cut sub s) as [[a' b']|] eqn:Hc; [|discriminate].
      injection H as <- <-. simpl. f_equal. now apply IH.
Qed.

(** Searching from position [n] is searching what is left after [n]
    characters. *)
Lemma index_drop : forall x sub n s,
  index n (String x sub) s
  = match index 0 (String x sub) (drop n s) with
    | Some k => Some (n + k)%nat
    | None => None
    end.
Proof.
  intros x sub. induction n as [|n IH]; intros s.
  - simpl drop. destruct (index 0 (String x sub) s); reflexivity.
  - destruct s as [|c s].
    + reflexivity.
    + simpl drop. change (index (S n) (String x sub) (String c s))
        with (match index n (String x sub) s with
              | Some k => Some (S k) | None => None end).
      rewrite IH. destruct (index 0 (String x sub) (drop n s)); reflexivity.
Qed.

(** The two fence strategies, computed by positions as the code does,
    extract the block the specification describes. *)
Lemma fenced_by_positions : forall x opening response,
  let o := String x opening in
  (if contains o response then
     let json_start := find response o 0 + Z.of_nat (String.length o) in
     let json_end := find response "```" json_start in
     if negb (json_end =? -1)
     then Some (strip (slice response json_start json_end))
     else None
   else None)
  = block_after o response.
Proof.
  intros x opening response o.
  unfold contains, find, block_after. change (Z.to_nat 0) with 0%nat.
  rewrite (index_cut o response).
  destruct (cut o response) as [[pre after]|] eqn:Hc; [|reflexivity].
  cbv zeta.
  pose proof (cut_split _ _ _ _ Hc) as Hs.
  replace (Z.to_nat (Z.of_nat (String.length pre) + Z.of_nat (String.length o)))
    with (String.length pre + String.length o)%nat by lia.
  rewrite (index_drop "`" "``").
  assert (Hd : drop (String.length pre + String.length o) response = after).
  { rewrite Hs at 1. rewrite drop_drop, drop_app, drop_app. reflexivity. }
  rewrite Hd, (index_cut "```" after).
  destruct (cut "```" after) as [[body rest]|] eqn:Hb; [|reflexivity].
  replace (Z.of_nat (String.length pre + String.length o + String.length body) =? -1)
    with false by (symmetry; apply Z.eqb_neq; lia).
  simpl negb. cbv iota. f_equal. f_equal.
  unfold slice.
  replace (Z.to_nat (Z.of_nat (String.length pre) + Z.of_nat (String.length o)))
    with (String.length pre + String.length o)%nat by lia.
  replace (Z.to_nat (Z.of_nat (String.length pre + String.length o + String.length body)
                     - (Z.of_nat (String.length pre) + Z.of_nat (String.length o))))
    with (String.length body) by lia.
  rewrite substring_drop, Hd, (cut_split _ _ _ _ Hb). apply substring_0_app.
Qed.


Lemma rcut_cons : forall sub c s,
  rcut sub (String c s)
  = match rcut sub s with
    | Some (a, b) => Some (String c a, b)
    | None => if prefix sub (String c s)
              then Some (EmptyString, drop (String.length sub) (String c s))
              else None
    end.
Proof. reflexivity. Qed.

Lemma rfind_from_cons : forall sub c s pos last,
  rfind_from sub (String c s) pos last
  = rfind_from sub s (S pos)
      (if prefix sub (String c s) then Z.of_nat pos else last).
Proof. reflexivity. Qed.

(** [rcut] finds what [rfind] finds. *)
Lemma rfind_from_rcut : forall sub s pos last,
  rfind_from sub s pos last
  = match rcut sub s with
    | Some (a, _) => Z.of_nat (pos + String.length a)
    | None => last
    end.
Proof.
  intros sub. induction s as [|c s IH]; intros pos last.
  - simpl. destruct sub; simpl; [f_equal; lia | reflexivity].
  - rewrite rfind_from_cons, IH, rcut_cons.
    destruct (rcut sub s) as [[a b]|].
    + simpl. f_equal. lia.
    + destruct (prefix sub (String c s)); [simpl; f_equal; lia | reflexivity].
Qed.

Lemma rcut_split : forall sub s a b,
  rcut sub s = Some (a, b) -> s = a ++ sub ++ b.
Proof.
  intros sub. induction s as [|c s IH]; intros a b H.
  - simpl in H. destruct sub; [|discriminate].
    now injection H as <- <-.
  - rewrite rcut_cons in H. destruct (rcut sub s) as [[a' b']|] eqn:Hr.
    + injection H as <- <-. simpl. f_equal. now apply IH.
    + destruct (prefix sub (String c s)) eqn:Hp; [|discriminate].
      injection H as <- <-. simpl. now apply prefix_split.
Qed.

Lemma rcut_app_some : forall sub s1 s2 a b,
  rcut sub s2 = Some (a, b) -> rcut sub (s1 ++ s2) = Some (s1 ++ a, b).
Proof.
  intros sub. induction s1 as [|c s1 IH]; intros s2 a b H.
  - exact H.
  - simpl append. rewrite rcut_cons, (IH _ _ _ H). reflexivity.
Qed.

(** A one-character marker that does not occur in the tail can only be
    found inside the head. *)
Lemma rcut_app_none : forall ch s1 s2,
  rcut (String ch EmptyString) s2 = None ->
  match rcut (String ch EmptyString) (s1 ++ s2) with
  | Some (a, _) => (String.length a < String.length s1)%nat
  | None => True
  end.
Proof.
  intros ch. induction s1 as [|c s1 IH]; intros s2 H.
  - simpl append. now rewrite H.
  - simpl append. rewrite rcut_cons. specialize (IH s2 H).
    destruct (rcut (String ch EmptyString) (s1 ++ s2)) as [[a b]|].
    + simpl. lia.
    + destruct (prefix (String ch EmptyString) (String c (s1 ++ s2))); simpl; [lia | exact I].
Qed.

Lemma substring_middle : forall a x b,
  substring (String.length a) (String.length x) (a ++ x ++ b) = x.
Proof.
  intros a x b. rewrite substring_drop, drop_app. apply substring_0_app.
Qed.

(** The brace strategy, computed by positions as the code does. *)
Lemma braces_by_positions : forall response,
  (let json_start := find response "{" 0 in
   let json_end := rfind response "}" in
   if negb (json_start =? -1) && negb (json_end =? -1) && (json_start <? json_end)
   then Some (slice response json_start (json_end + 1))
   else None)
  = braces response.
Proof.
  intros response. cbv zeta. unfold find, rfind, braces.
  change (Z.to_nat 0) with 0%nat.
  rewrite (index_cut "{" response), (rfind_from_rcut "}" response 0 (-1)).
  destruct (cut "{" response) as [[pre after]|] eqn:Hc.
  - pose proof (cut_split _ _ _ _ Hc) as Hs.
    destruct (rcut "}" after) as [[inner rest]|] eqn:Hr.
    + pose proof (rcut_split _ _ _ _ Hr) as Ha.
      assert (Hw : rcut "}" response = Some (pre ++ "{" ++ inner, rest)).
      { rewrite Hs at 1. rewrite <- append_assoc.
        replace ((pre ++ "{") ++ inner) with (pre ++ "{" ++ inner)
          by (now rewrite append_assoc).
        rewrite <- (append_assoc pre "{" inner).
        now apply rcut_app_some. }
      rewrite Hw. cbv beta iota.
      set (je := Z.of_nat (0 + String.length (pre ++ "{" ++ inner))).
      assert (Hje : je = Z.of_nat (String.length pre) + 1
                         + Z.of_nat (String.length inner)).
      { subst je. rewrite !length_append. simpl String.length. lia. }
      destruct (Z.eqb_spec (Z.of_nat (String.length pre)) (-1)) as [E|_]; [lia|].
      destruct (Z.eqb_spec je (-1)) as [E|_]; [lia|].
      destruct (Z.ltb_spec (Z.of_nat (String.length pre)) je) as [_|E]; [|lia].
      simpl andb. cbv iota. f_equal. unfold slice.
      replace (Z.to_nat (Z.of_nat (String.length pre))) with (String.length pre) by lia.
      replace (Z.to_nat (je + 1 - Z.of_nat (String.length pre)))
        with (String.length ("{" ++ inner ++ "}"))
        by (rewrite !length_append; simpl String.length; lia).
      rewrite Hs at 1. rewrite Ha.
      replace (pre ++ "{" ++ inner ++ "}" ++ rest)
        with (pre ++ ("{" ++ inner ++ "}") ++ rest)
        by (simpl; now rewrite append_assoc).
      apply substring_middle.
    + pose proof (rcut_app_none "}" (pre ++ "{") after Hr) as Hn.
      rewrite append_assoc in Hn. rewrite <- Hs in Hn.
      destruct (rcut "}" response) as [[a b]|].
      * rewrite length_append in Hn. simpl String.length in Hn. cbv beta iota.
        destruct (Z.ltb_spec (Z.of_nat (String.length pre))
                             (Z.of_nat (0 + String.length a))) as [E|_]; [lia|].
        now rewrite andb_false_r.
      * cbv beta iota. change (-1 =? -1) with true. simpl negb.
        now rewrite andb_false_r.
  - reflexivity.
Qed.

(** The positions the code computes select what [ordered_as_built]
    describes. *)
Lemma extract_json_str_as_built : forall response,
  Analysis.extract_json_str response
  = match ordered_as_built response with
    | Some r => Ok r
    | None => Raise (JSONDecodeError "No valid JSON structure found in response.")
    end.
Proof.
  intros response. unfold Analysis.extract_json_str, ordered_as_built.
  pose proof (fenced_by_positions "`" "``json" response) as Htag.
  pose proof (fenced_by_positions "`" "``" response) as Hany.
  pose proof (braces_by_positions response) as Hbr.
  cbv zeta in Htag, Hany, Hbr.
  change (Z.of_nat (String.length "```json")) with 7 in Htag.
  change (Z.of_nat (String.length "```")) with 3 in Hany.
  unfold tagged_block, any_block.
  rewrite <- Hbr.
  destruct (contains "```json" response) eqn:Hj.
  - rewrite <- Htag.
    destruct (negb (find response "```" (find response "```json" 0 + 7) =? -1));
      simpl.
    + reflexivity.
    + destruct (_ && _ && _); reflexivity.
  - rewrite <- Hany.
    destruct (contains "```" response) eqn:Hf.
    + destruct (negb (find response "```" (find response "```" 0 + 3) =? -1));
        simpl.
      * reflexivity.
      * destruct (_ && _ && _); reflexivity.
    + simpl. destruct (_ && _ && _); reflexivity.
Qed.

(** C5 (amended).  For every completion text the extractor tries (1) the
    block after a JSON-tagged fence up to the next fence, then, only when the
    text holds no JSON tag at all, (2) the block between the first two
    fences, then (3) the text from the first '{' to the last '}' when the
    latter follows the former; an unclosed JSON-tagged fence leads from (1)
    straight to (3).  What was extracted is parsed, and (4) the canonical
    empty schema is returned when nothing was extracted or it does not parse;
    the function returns a value for every text and every behaviour of
    [json.loads]. *)
Theorem parse_llm_response_follows_built_order :
  forall (json_loads : string -> result json) (response : string),
    Analysis._parse_llm_response json_loads response
    = extractor_as_built json_loads response.
Proof.
  intros json_loads response.
  unfold Analysis._parse_llm_response, extractor_as_built, parse_or_empty.
  rewrite extract_json_str_as_built.
  destruct (ordered_as_built response) as [[text method]|]; reflexivity.
Qed.

(** C5 (as stated, at a concrete text).  On [``` [1] ``` ```json {}] the
    tagged fence is never closed, so strategy (1) fails, and the text does
    hold a closed fenced block, so the stated order selects it by strategy
    (2); the code goes to the braces instead.  The two results differ as soon
    as [json.loads] parses both extracts. *)
Lemma unclosed_tag_skips_the_plain_block :
  tagged_block Statements.unclosed_tag_after_block = None
  /\ ordered_as_stated Statements.unclosed_tag_after_block
     = Some ("[1]", Analysis.markdown_code_block)
  /\ Analysis.extract_json_str Statements.unclosed_tag_after_block
     = Ok ("{}", Analysis.brace_boundaries)
  /\ (forall json_loads,
        json_loads "[1]" = Ok (JList [JInt 1]) ->
        json_loads "{}" = Ok (JDict []) ->
        Analysis._parse_llm_response json_loads Statements.unclosed_tag_after_block
        <> extractor_as_stated json_loads Statements.unclosed_tag_after_block).
Proof.
  repeat split; try (vm_compute; reflexivity).
  intros json_loads H1 H2.
  unfold Analysis._parse_llm_response, extractor_as_stated, parse_or_empty.
  replace (Analysis.extract_json_str Statements.unclosed_tag_after_block)
    with (@Ok (string * Analysis.extraction_method) ("{}", Analysis.brace_boundaries))
    by (vm_compute; reflexivity).
  replace (ordered_as_stated Statements.unclosed_tag_after_block)
    with (Some ("[1]", Analysis.markdown_code_block))
    by (vm_compute; reflexivity).
  rewrite H1, H2. discriminate.
Qed.

Lemma tagged_block_needs_tag : forall response text,
  tagged_block response = Some text -> contains "```json" response = true.
Proof.
  intros response text H. unfold tagged_block, block_after in H.
  unfold contains. rewrite index_cut.
  destruct (cut "```json" response) as [[a b]|]; [reflexivity | discriminate].
Qed.

Lemma no_tag_no_tagged_block : forall response,
  contains "```json" response = false -> tagged_block response = None.
Proof.
  intros response H. destruct (tagged_block response) eqn:E; [|reflexivity].
  apply tagged_block_needs_tag in E. congruence.
Qed.

(** The stated order and the built one part only on a text whose JSON tag
    is unclosed while some fenced block is closed. *)
Lemma orders_agree_unless_unclosed_tag : forall response,
  contains "```json" response = false
  \/ tagged_block response <> None
  \/ any_block response = None ->
  ordered_as_stated response = ordered_as_built response.
Proof.
  intros response H. unfold ordered_as_stated, ordered_as_built.
  destruct (contains "```json" response) eqn:Hj.
  - destruct (tagged_block response) as [t|] eqn:Ht; [reflexivity|].
    destruct H as [H | [H | H]]; [discriminate | congruence |].
    rewrite H. reflexivity.
  - rewrite (no_tag_no_tagged_block response Hj). reflexivity.
Qed.

(** A text with no fence and no brace yields the canonical empty schema,
    whatever [json.loads] does. *)
Lemma no_json_here :
  forall json_loads,
    Analysis._parse_llm_response json_loads "no json here" = empty_schema.
Proof. reflexivity. Qed.

End ExtractorProps.

(** ** Persistence: re-insertion *)

Module DatabaseProps.

Import Database Statements.

Lemma sql_eq_same : forall k, sql_eq (Some k) (Some k) = true.
Proof. intros k. simpl. apply String.eqb_refl. Qed.

(** A stored row with the same non-null key makes the UNIQUE test fail. *)
Lemma unique_violated :
  forall {R} (key : R -> option string) (rows : list R) (k : string) (row : R),
    In row rows -> key row = Some k ->
    existsb (fun x => sql_eq (key x) (Some k)) rows = true.
Proof.
  intros R key rows k row Hin Hk. apply existsb_exists.
  exists row. split; [exact Hin | rewrite Hk; apply sql_eq_same].
Qed.

Lemma news_url_taken : forall db a k row,
  news_url a = Some k -> In row (news db) -> news_url (news_rec row) = Some k ->
  news_accepts (news db) a = false.
Proof.
  intros db a k row Ha Hin Hk. unfold news_accepts. rewrite Ha.
  rewrite (unique_violated (fun r => news_url (news_rec r)) _ k row Hin Hk).
  now rewrite !andb_false_r.
Qed.

Lemma funding_link_taken : forall db f k row,
  funding_link f = Some k -> In row (funding db) ->
  funding_link (funding_rec row) = Some k ->
  funding_accepts (funding db) f = false.
Proof.
  intros db f k row Ha Hin Hk. unfold funding_accepts. rewrite Ha.
  rewrite (unique_violated (fun r => funding_link (funding_rec r)) _ k row Hin Hk).
  now rewrite !andb_false_r.
Qed.

Lemma launch_link_taken : forall db l k row,
  launch_link l = Some k -> In row (launches db) ->
  launch_link (launch_rec row) = Some k ->
  launch_accepts (launches db) l = false.
Proof.
  intros db l k row Ha Hin Hk. unfold launch_accepts. rewrite Ha.
  rewrite (unique_violated (fun r => launch_link (launch_rec r)) _ k row Hin Hk).
  now rewrite !andb_false_r.
Qed.

Lemma repo_full_name_taken : forall db r k row,
  repo_full_name r = Some k -> In row (github_repositories db) ->
  repo_full_name (repo_rec row) = Some k ->
  repo_accepts (github_repositories db) r = false.
Proof.
  intros db r k row Ha Hin Hk. unfold repo_accepts. rewrite Ha.
  rewrite (unique_violated (fun x => repo_full_name (repo_rec x)) _ k row Hin Hk).
  now rewrite !andb_false_r.
Qed.

(** One turn of an insert loop on a keyed record whose key is stored. *)
Lemma stored_key_blocks_insert :
  forall db inserted r,
    is_signal r = false -> key_stored db r ->
    insert_record_step (db, inserted) r = (db, inserted).
Proof.
  intros db inserted r Hkind Hkey.
  destruct r as [a | f | l | x | s]; simpl in *; try discriminate;
    destruct Hkey as [k [row [Ha [Hin Hk]]]].
  - unfold insert_news_step. now rewrite (news_url_taken db a k row Ha Hin Hk).
  - unfold insert_funding_step.
    now rewrite (funding_link_taken db f k row Ha Hin Hk).
  - unfold insert_launches_step.
    now rewrite (launch_link_taken db l k row Ha Hin Hk).
  - unfold insert_github_repositories_step.
    now rewrite (repo_full_name_taken db x k row Ha Hin Hk).
Qed.

(** C6 (amended).  For an article, a funding round, a launch or a
    repository whose dedup key (URL, link, full name) is already stored, the
    insert is a silent no-op: nothing is raised, storage is unchanged and the
    inserted count does not move.  (Signals are left out: their table has no
    key.) *)
Theorem reinsert_of_keyed_record_is_noop :
  forall db inserted r,
    is_signal r = false -> key_stored db r -> reinsert_is_noop db inserted r.
Proof.
  intros db inserted r Hkind Hkey. unfold reinsert_is_noop.
  now apply stored_key_blocks_insert.
Qed.

Lemma sample_article_key_stored :
  key_stored db_with_article (RArticle sample_article).
Proof.
  exists "https://example.com/a", (mkNewsRow 1 sample_article false).
  repeat split. now left.
Defined.

Lemma reinsert_of_keyed_record_is_noop_witness :
  reinsert_is_noop db_with_article 0 (RArticle sample_article).
Proof.
  apply (reinsert_of_keyed_record_is_noop db_with_article 0 (RArticle sample_article)).
  - reflexivity.
  - exact sample_article_key_stored.
Defined.

(** At the level of the insert methods: a record whose key is stored adds
    nothing to the count the method returns. *)
Lemma insert_news_skips_stored_url : forall db a rest,
  key_stored db (RArticle a) ->
  insert_news (a :: rest) db = insert_news rest db.
Proof.
  intros db a rest H. unfold insert_news. simpl fold_left.
  pose proof (stored_key_blocks_insert db 0 (RArticle a) eq_refl H) as E.
  simpl in E. now rewrite E.
Qed.

Lemma insert_news_of_stored_alone : forall db a,
  key_stored db (RArticle a) -> insert_news [a] db = (Ok 0, db).
Proof.
  intros db a H. now rewrite insert_news_skips_stored_url.
Qed.

(** C6 (as stated, at a concrete record).  A signal that is already stored,
    inserted again through [insert_github_signals], is stored a second time
    and counted: the returned count is 1, not 0. *)
Lemma signal_reinsert_is_stored_again :
  key_stored db_with_signal (RRepoSignal star_signal)
  /\ insert_github_signals [star_signal] db_with_signal
     = (Ok 1,
        mkDb [] [] [] []
             [mkSignalRow 1 None star_signal; mkSignalRow 2 None star_signal]
             [] [])
  /\ ~ reinsert_is_noop db_with_signal 0 (RRepoSignal star_signal).
Proof.
  split; [| split].
  - exists (mkSignalRow 1 None star_signal). split; [now left | reflexivity].
  - reflexivity.
  - unfold reinsert_is_noop. vm_compute. discriminate.
Qed.

(** Every signal with its three mandatory attributes is counted, whatever
    is stored. *)
Lemma signal_always_counted : forall db inserted s,
  signal_accepts s = true ->
  snd (insert_github_signals_step (db, inserted) s) = inserted + 1.
Proof.
  intros db inserted s H. unfold insert_github_signals_step. now rewrite H.
Qed.

End DatabaseProps.

(** ** The pipeline: what a run returns and when it raises *)

Module PipelineProps.

Import Statements.

(** *** Sequencing *)


Lemma returns_ret : forall {S A} (P : A -> Prop) (a : A) (s : S),
  P a -> returns_with P (ret a) s.
Proof. intros S A P a s H. exists a, s. now split. Qed.

Lemma raises_bind :
  forall {S A B} (m : M S A) (k : A -> M S B) s e s',
    m s = (Raise e, s') -> bind m k s = (Raise e, s').
Proof. intros S A B m k s e s' H. unfold bind. now rewrite H. Qed.

(** *** The validated day window *)


Lemma validate_days_out_of_range : forall d,
  d < 1 \/ 365 < d ->
  Database._validate_days d
  = Raise (ValueError "days must be an integer between 1 and 365").
Proof.
  intros d H. unfold Database._validate_days.
  destruct H as [H | H]; apply Z.ltb_lt in H; rewrite H;
    [reflexivity | now rewrite orb_true_r].
Qed.

Section Queries.

Variable recent : Z -> option string -> bool.
Variable days : Z.
Hypothesis in_range : 1 <= days <= 365.






End Queries.

(** Outside the window the very first query of the analysis stage raises. *)
Lemma get_recent_news_rejects : forall recent d e l db,
  d < 1 \/ 365 < d ->
  Database.get_recent_news recent d e l db
  = (Raise (ValueError "days must be an integer between 1 and 365"), db).
Proof.
  intros recent d e l db H. unfold Database.get_recent_news, bind, lift.
  now rewrite (validate_days_out_of_range d H).
Qed.

(** *** The completion client *)



Lemma not_cancelled_raise : forall {A} (r : result A) e,
  not_cancelled r = true -> r = Raise e -> is_Exception e = true.
Proof.
  intros A r e H ->. destruct e; try reflexivity. discriminate H.
Qed.

(** *** Validation of the analysis payload *)










(** *** The Analyze stage *)

Lemma limit_ok : forall n, 1 <= n <= 10000 ->
  Database._validate_limit (Some n) = Ok (Some n).
Proof.
  intros n [H1 H2]. unfold Database._validate_limit.
  replace (n <? 1) with false by (symmetry; apply Z.ltb_ge; lia).
  replace (10000 <? n) with false by (symmetry; apply Z.ltb_ge; lia).
  reflexivity.
Qed.




(** Outside the day window the stage raises: the first query is not inside
    the [try]. *)
Lemma analyze_rejects_days : forall env days db,
  days < 1 \/ 365 < days ->
  Analysis.analyze_recent_data env days db
  = (Raise (ValueError "days must be an integer between 1 and 365"), db).
Proof.
  intros env days db H. unfold Analysis.analyze_recent_data.
  apply raises_bind. now apply get_recent_news_rejects.
Qed.


(** *** The Summarize stage *)







(** *** The Collect stage *)

Import Orchestrator.

Lemma replace_exception_value : forall {A} (r : result A) (default : exn -> A),
  not_cancelled r = true ->
  exists a, replace_exception (gather1 r) default = Value a.
Proof.
  intros A r default H. destruct r as [a|e]; simpl.
  - now exists a.
  - rewrite (not_cancelled_raise _ e H eq_refl). eexists. reflexivity.
Qed.

(** A collector that returns keeps its slot. *)
Lemma collect_all_keeps_values : forall n s g,
  collect_all (Ok n) (Ok s) (Ok g) = mkCollected (Value n) (Value s) (Value g).
Proof. reflexivity. Qed.

(** Each slot depends on its own collector only. *)
Lemma collect_all_isolates : forall a a' b b' c c',
  news (collect_all a b c) = news (collect_all a b' c')
  /\ startup (collect_all a b c) = startup (collect_all a' b c')
  /\ github (collect_all a b c) = github (collect_all a' b' c).
Proof. intros. repeat split. Qed.

(** *** The Store stage *)




(** *** The whole run *)





(** Outside the day window the run raises, whatever the collaborators do:
    a stage before Analyze raises, or Analyze does. *)
Lemma bind_raises_when_rest_raises :
  forall {S A B} (m : M S A) (k : A -> M S B) s,
    (forall a s', is_ok (fst (k a s')) = false) ->
    is_ok (fst (bind m k s)) = false.
Proof.
  intros S A B m k s H. unfold bind.
  destruct (m s) as [[a|e] s']; [apply H | reflexivity].
Qed.

Lemma run_raises_outside_window : forall env days db,
  days < 1 \/ 365 < days ->
  is_ok (fst (run_full_workflow env days db)) = false.
Proof.
  intros env days db H. unfold run_full_workflow, run_after_collect.
  do 4 (apply bind_raises_when_rest_raises; intros).
  rewrite (raises_bind _ _ _ _ _ (analyze_rejects_days (analysis_env env) days _ H)).
  reflexivity.
Qed.








(** C7 (the code when one collector raises).  A startup or github collector
    that raises leaves in its slot exactly what a collector with nothing to
    report leaves: two empty lists and no trace of the error, where the news
    slot keeps the error text under "error".  The other two slots hold their
    collectors' values. *)
Theorem failed_startup_or_github_slot_has_no_error_tag :
  forall n s g,
    collect_all (Ok n) (Raise (RuntimeError "boom")) (Ok g)
    = collect_all (Ok n) (Ok (mkStartupData [] [])) (Ok g)
    /\ collect_all (Ok n) (Ok s) (Raise (RuntimeError "boom"))
       = collect_all (Ok n) (Ok s) (Ok (mkGithubData [] []))
    /\ collect_all (Raise (RuntimeError "boom")) (Ok s) (Ok g)
       = mkCollected (Value (mkNewsData (Some "boom") [] 0)) (Value s) (Value g)
    /\ collect_from_startup_api_agent startup_down_env = Raise (RuntimeError "boom")
    /\ collect_all_data startup_down_env = collect_all_data quiet_env
    /\ (exists res db',
          run_full_workflow startup_down_env 7 Database.empty = (Ok res, db')
          /\ Orchestrator.status res = "success").
Proof.
  intros n s g. repeat split.
  eexists. eexists. split; [vm_compute; reflexivity | reflexivity].
Qed.

(** An httpx error is caught inside the collector and leaves as little. *)
Lemma startup_collector_swallows_httpx_error : forall env msg,
  http_funding env = Raise (RequestError msg) ->
  collect_from_startup_api_agent env = Ok (mkStartupData [] []).
Proof.
  intros env msg H. unfold collect_from_startup_api_agent. now rewrite H.
Qed.

Lemma news_collector_tags_httpx_error : forall env msg,
  http_news_all env = Raise (RequestError msg) ->
  collect_from_news_agent env = Ok (mkNewsData (Some msg) [] 0).
Proof.
  intros env msg H. unfold collect_from_news_agent. now rewrite H.
Qed.

End PipelineProps.

(** * Further properties of the code *)

(** ** The scheduler: starting, stopping and the pace of the loop *)

Module ScheduleLaws.

Import Scheduler Observations.

Lemma run_starts_app : forall a b,
  run_starts (a ++ b) = (run_starts a ++ run_starts b)%list.
Proof.
  induction a as [|ev a IH]; intros b; simpl; [reflexivity|].
  destruct ev; simpl; rewrite IH; reflexivity.
Qed.

Lemma spaced_add : forall gap ts t,
  spaced gap ts = true -> Forall (fun x => x + gap <= t) ts ->
  spaced gap (ts ++ [t]) = true.
Proof.
  induction ts as [|a ts IH]; intros t Hs Hall; [reflexivity|].
  inversion Hall as [|? ? Ha Hts]; subst.
  destruct ts as [|b ts].
  - simpl. rewrite andb_true_r. now apply Z.leb_le.
  - change (spaced gap (a :: b :: ts)) with ((a + gap <=? b) && spaced gap (b :: ts)) in Hs.
    apply andb_true_iff in Hs. destruct Hs as [Hab Hs].
    change (spaced gap ((a :: b :: ts) ++ [t]))
      with ((a + gap <=? b) && spaced gap ((b :: ts) ++ [t])).
    rewrite Hab. simpl andb. apply IH; assumption.
Qed.

(** One turn with a due time set: exactly one run is started, at the due
    time or now, whichever is later; unless the turn ends the loop, the next
    due time is that start plus the interval. *)
Lemma loop_turn_starts_one_run : forall runner s nr iv,
  next_run (self s) = Some nr ->
  interval_seconds (self s) = Some iv -> iv <> 0 ->
  let started := Z.max nr (clock s) in
  let s' := snd (loop_turn runner s) in
  run_starts (trace s') = (run_starts (trace s) ++ [started])%list
  /\ interval_seconds (self s') = Some iv
  /\ ((fst (loop_turn runner s) = Ok true /\ next_run (self s') = Some (started + iv))
      \/ fst (loop_turn runner s) = Ok false).
Proof.
  intros runner [[st ir lr nr0 fr ivs en] c n tr] nr iv Hnr Hiv Hnz.
  simpl in Hnr, Hiv. subst nr0 ivs.
  assert (Hz : (iv =? 0) = false) by now apply Z.eqb_neq.
  unfold loop_turn, loop_try_block, try_except, bind, get, datetime_now,
    _run_workflow, _calculate_next_run, try_except, bind, get, datetime_now,
    set_self, modify, await_workflow_runner, asyncio_sleep, ret, raise, truthy.
  simpl.
  destruct (Z.ltb_spec 0 (nr - c)) as [Hw | Hw]; simpl;
    [replace (c + (nr - c)) with nr by lia; replace (Z.max nr c) with nr by lia
    | replace (Z.max nr c) with c by lia];
    destruct (outcome (runner n)) as [|e]; simpl;
    try (destruct e; simpl); rewrite ?Hz; simpl;
    rewrite !run_starts_app; simpl; rewrite ?app_nil_r;
    (split; [reflexivity | split; [reflexivity | auto]]).
Qed.

Lemma scheduler_loop_turn : forall runner fuel s,
  _scheduler_loop runner (S fuel) s =
  if enabled (self s) then
    match loop_turn runner s with
    | (Ok true, s1) => _scheduler_loop runner fuel s1
    | (Ok false, s1) => (Ok tt, s1)
    | (Raise e, s1) => (Raise e, s1)
    end
  else (Ok tt, s).
Proof.
  intros runner fuel s. simpl. unfold bind at 1. simpl.
  destruct (enabled (self s)); [|reflexivity].
  unfold bind. destruct (loop_turn runner s) as [[[|]|e] s1]; reflexivity.
Qed.

(** The loop keeps its pace. *)
Lemma loop_keeps_pace : forall runner fuel iv lo s,
  0 < iv -> paced iv lo s ->
  let starts := run_starts (trace (snd (_scheduler_loop runner fuel s))) in
  spaced iv starts = true /\ Forall (fun t => lo <= t) starts.
Proof.
  intros runner fuel iv lo. induction fuel as [|fuel IH]; intros s Hpos Hp; cbv zeta.
  - simpl. destruct Hp as [_ [nr [_ [_ [Hs Hall]]]]]. split; [exact Hs|].
    eapply Forall_impl; [|exact Hall]. simpl. intros; tauto.
  - destruct Hp as [Hiv [nr [Hnr [Hlo [Hs Hall]]]]].
    assert (Hkeep : spaced iv (run_starts (trace s)) = true
                    /\ Forall (fun t => lo <= t) (run_starts (trace s))).
    { split; [exact Hs|]. eapply Forall_impl; [|exact Hall]. simpl. intros; tauto. }
    rewrite scheduler_loop_turn.
    destruct (enabled (self s)); [|exact Hkeep].
    assert (Hnz : iv <> 0) by lia.
    pose proof (loop_turn_starts_one_run runner s nr iv Hnr Hiv Hnz) as Ht.
    cbv zeta in Ht. destruct Ht as [Hst [Hiv' Hres]].
    assert (Hs' : spaced iv (run_starts (trace (snd (loop_turn runner s)))) = true).
    { rewrite Hst. apply spaced_add; [exact Hs|].
      eapply Forall_impl; [|exact Hall]. simpl. intros; lia. }
    assert (Hall' : Forall (fun t => lo <= t /\ t + iv <= Z.max nr (clock s) + iv)
                           (run_starts (trace (snd (loop_turn runner s))))).
    { rewrite Hst. apply Forall_app. split.
      - eapply Forall_impl; [|exact Hall]. simpl. intros; lia.
      - constructor; [lia | constructor]. }
    destruct (loop_turn runner s) as [[[|]|e] s1] eqn:Hturn;
      simpl in Hst, Hiv', Hres, Hs', Hall' |- *.
    + apply IH; [exact Hpos|]. destruct Hres as [[_ Hnr'] | Hres]; [|discriminate Hres].
      split; [exact Hiv'|]. exists (Z.max nr (clock s) + iv).
      repeat split; [exact Hnr' | lia | exact Hs' | exact Hall'].
    + split; [exact Hs'|]. eapply Forall_impl; [|exact Hall']. simpl. intros; tauto.
    + destruct Hres as [[Hres _] | Hres]; discriminate Hres.
Qed.

(** What [start] does to a scheduler that is not running. *)
Lemma start_on_a_stopped_scheduler :
  forall freq interval run_immediately s iv,
    is_running (self s) = false ->
    interval_of freq interval = Some iv -> iv <> 0 ->
    let s' := snd (start freq interval run_immediately s) in
    fst (start freq interval run_immediately s) = Ok tt
    /\ is_running (self s') = true
    /\ enabled (self s') = true
    /\ frequency (self s') = Some freq
    /\ interval_seconds (self s') = Some iv
    /\ next_run (self s')
       = Some (match last_run (self s) with Some t => t | None => clock s end + iv)
    /\ last_run (self s') = last_run (self s)
    /\ runs s' = runs s /\ clock s' = clock s.
Proof.
  intros freq interval run_immediately [[st ir lr nr fr ivs en] c n tr] iv Hrun Hint Hnz.
  simpl in Hrun. subst ir.
  assert (Hz : (iv =? 0) = false) by now apply Z.eqb_neq.
  unfold start, bind, get, set_self, modify, emit, _calculate_next_run, bind, get,
    datetime_now, set_self, modify, ret, raise.
  destruct freq; simpl in Hint; try (injection Hint as Hint); subst;
    destruct run_immediately; destruct lr; simpl; unfold truthy; simpl;
    rewrite ?Hz; simpl; rewrite ?Hz; simpl; repeat split; reflexivity.
Qed.

(** X1.  [start] on a scheduler that is not running, with an hourly, daily or
    weekly frequency or a custom one with a non-zero interval: it returns,
    the scheduler is running and enabled, the interval is 3600, 86400, 604800
    or the custom one, and the first run is due one interval after the
    previous [last_run] when there is one (which may lie in the past after a
    restart), else one interval after now.  No workflow is run by [start]
    itself and [last_run] is not touched. *)
Theorem start_arms_the_schedule :
  forall freq interval run_immediately s iv,
    is_running (self s) = false ->
    interval_of freq interval = Some iv -> iv <> 0 ->
    let s' := snd (start freq interval run_immediately s) in
    fst (start freq interval run_immediately s) = Ok tt
    /\ is_running (self s') = true
    /\ enabled (self s') = true
    /\ frequency (self s') = Some freq
    /\ interval_seconds (self s') = Some iv
    /\ next_run (self s')
       = Some (match last_run (self s) with Some t => t | None => clock s end + iv)
    /\ last_run (self s') = last_run (self s)
    /\ runs s' = runs s /\ clock s' = clock s.
Proof. exact start_on_a_stopped_scheduler. Qed.

Lemma start_arms_the_schedule_witness :
  next_run (self (snd (start DAILY None false (mkState init 1000 0 []))))
  = Some 87400.
Proof.
  pose proof (start_arms_the_schedule DAILY None false (mkState init 1000 0 []) 86400
                eq_refl eq_refl) as H.
  cbv zeta in H. apply H. intro H0. discriminate H0.
Defined.

(** X2.  A second [start] on a scheduler that was started is ignored: it
    returns without raising and changes nothing, whatever frequency and
    interval it is given (a custom frequency without interval included). *)
Theorem start_while_running_changes_nothing :
  forall f1 i1 r1 f2 i2 r2 s iv,
    is_running (self s) = false ->
    interval_of f1 i1 = Some iv -> iv <> 0 ->
    let s1 := snd (start f1 i1 r1 s) in
    start f2 i2 r2 s1 = (Ok tt, s1).
Proof.
  intros f1 i1 r1 f2 i2 r2 s iv Hrun Hint Hnz. cbv zeta.
  destruct (start_on_a_stopped_scheduler f1 i1 r1 s iv Hrun Hint Hnz) as [_ [Hr _]].
  unfold start at 1. rewrite SchedulerProps.bind_get_run. cbv zeta in Hr.
  rewrite Hr. reflexivity.
Qed.

Lemma start_while_running_changes_nothing_witness :
  start CUSTOM None true (snd (start HOURLY None false (mkState init 0 0 [])))
  = (Ok tt, snd (start HOURLY None false (mkState init 0 0 []))).
Proof.
  apply (start_while_running_changes_nothing HOURLY None false CUSTOM None true
           (mkState init 0 0 []) 3600).
  - reflexivity.
  - reflexivity.
  - intro H. discriminate H.
Defined.

(** X3.  [stop] on a running scheduler returns and leaves it not running, not
    enabled and without loop task, while the frequency, the interval,
    [last_run] and [next_run] stay as they were; from there the scheduler
    loop does nothing at all, however long it is given. *)
Theorem stopped_scheduler_starts_no_run :
  forall runner fuel s,
    is_running (self s) = true ->
    let s1 := snd (stop s) in
    fst (stop s) = Ok tt
    /\ is_running (self s1) = false
    /\ enabled (self s1) = false
    /\ scheduled_task (self s1) = false
    /\ (frequency (self s1), interval_seconds (self s1),
        last_run (self s1), next_run (self s1))
       = (frequency (self s), interval_seconds (self s),
          last_run (self s), next_run (self s))
    /\ _scheduler_loop runner fuel s1 = (Ok tt, s1).
Proof.
  intros runner fuel [[st ir lr nr fr ivs en] c n tr] Hrun. simpl in Hrun. subst ir.
  unfold stop, bind, get, set_self, modify, emit, ret. simpl.
  destruct st; simpl; (repeat split; try reflexivity); destruct fuel; reflexivity.
Qed.

Lemma stopped_scheduler_starts_no_run_witness :
  _scheduler_loop Statements.two_minute_run 5 (snd (stop Statements.hourly_due))
  = (Ok tt, snd (stop Statements.hourly_due)).
Proof.
  pose proof (stopped_scheduler_starts_no_run Statements.two_minute_run 5
                Statements.hourly_due eq_refl) as H.
  cbv zeta in H. apply H.
Defined.

(** X4.  Left to itself, the scheduler loop never starts two runs less than
    one interval apart, and never starts one before the due time it was
    given: for a positive interval and whatever the workflow does (return,
    raise, take long, be cancelled), the run starts recorded after any number
    of turns are pairwise at least [interval_seconds] apart and none is
    earlier than the initial [next_run]. *)
Theorem loop_keeps_run_starts_an_interval_apart :
  forall runner fuel s nr iv,
    next_run (self s) = Some nr ->
    interval_seconds (self s) = Some iv -> 0 < iv ->
    run_starts (trace s) = [] ->
    let starts := run_starts (trace (snd (_scheduler_loop runner fuel s))) in
    spaced iv starts = true /\ Forall (fun t => nr <= t) starts.
Proof.
  intros runner fuel s nr iv Hnr Hiv Hpos Hfresh.
  apply loop_keeps_pace; [exact Hpos|].
  split; [exact Hiv|]. exists nr. rewrite Hfresh.
  repeat split; [exact Hnr | lia | constructor].
Qed.

Lemma loop_keeps_run_starts_an_interval_apart_witness :
  spaced 3600 (run_starts (trace (snd (_scheduler_loop Statements.two_minute_run 3
                                         Statements.hourly_due)))) = true.
Proof.
  exact (proj1 (loop_keeps_run_starts_an_interval_apart
                  Statements.two_minute_run 3 Statements.hourly_due 3600 3600
                  eq_refl eq_refl eq_refl eq_refl)).
Defined.

(** X5.  A run that lasts at least one interval is followed by the next run
    at once: the next turn of the loop does not sleep, it starts the workflow
    at the very instant the slow run ended. *)
Theorem run_longer_than_interval_is_followed_at_once :
  forall runner s nr iv,
    next_run (self s) = Some nr ->
    interval_seconds (self s) = Some iv -> 0 < iv ->
    (forall n e, outcome (runner n) = Raises e -> is_Exception e = true) ->
    iv <= duration (runner (runs s)) ->
    let s1 := snd (loop_turn runner s) in
    let s2 := snd (loop_turn runner s1) in
    let r2 := runner (runs s1) in
    trace s2 = (trace s1 ++ [RunStarted (clock s1);
                             RunEnded (clock s1 + duration r2) (outcome r2)])%list.
Proof.
  intros runner s nr iv Hnr Hiv Hpos Hexc Hslow.
  assert (Hnz : iv <> 0) by lia.
  rewrite (SchedulerProps.loop_turn_when_due runner s nr iv Hnr Hiv Hnz (Hexc (runs s))).
  cbv zeta. simpl snd.
  set (started := if 0 <? nr - clock s then nr else clock s).
  set (s1 := mkState _ _ _ _).
  assert (Hnr1 : next_run (self s1) = Some (started + iv)) by reflexivity.
  assert (Hiv1 : interval_seconds (self s1) = Some iv) by exact Hiv.
  rewrite (SchedulerProps.loop_turn_when_due runner s1 (started + iv) iv Hnr1 Hiv1 Hnz
             (Hexc (runs s1))).
  assert (Hw : (0 <? started + iv - clock s1) = false).
  { apply Z.ltb_ge. subst s1. cbn [clock]. lia. }
  rewrite Hw. reflexivity.
Qed.

Lemma run_longer_than_interval_is_followed_at_once_witness :
  trace (snd (loop_turn hour_long_run (snd (loop_turn hour_long_run Statements.hourly_due))))
  = [RunStarted 3600; RunEnded 7600 Returns; RunStarted 7600; RunEnded 11600 Returns].
Proof.
  apply (run_longer_than_interval_is_followed_at_once
           hour_long_run Statements.hourly_due 3600 3600).
  - reflexivity.
  - reflexivity.
  - reflexivity.
  - intros n e H. discriminate H.
  - intro H. discriminate H.
Defined.

End ScheduleLaws.

(** ** The store: inserts, briefings *)

Module StorageLaws.

Import Database Observations.

(** *** insert_news *)

Lemma insert_news_step_cases : forall db n a,
  (news_accepts (news db) a = false /\ insert_news_step (db, n) a = (db, n))
  \/ (news_accepts (news db) a = true
      /\ insert_news_step (db, n) a
         = (mkDb (news db ++ [mkNewsRow (next_id (news db)) a false])
                 (funding db) (launches db) (github_repositories db)
                 (github_signals db) (analysis_results db) (briefings db), n + 1)).
Proof.
  intros db n a. unfold insert_news_step.
  destruct (news_accepts (news db) a); [right | left]; split; reflexivity.
Qed.

Lemma news_rejected_for_good : forall rows more a,
  news_accepts rows a = false -> news_accepts (rows ++ more) a = false.
Proof.
  intros rows more a H. unfold news_accepts in *.
  rewrite existsb_app, negb_orb.
  destruct (negb (is_null (news_title a)) && negb (is_null (news_url a))
            && negb (is_null (news_source a)) && negb (is_null (news_timestamp a)));
    [|reflexivity].
  simpl in *. rewrite H. reflexivity.
Qed.

Lemma news_step_grows : forall db n a,
  exists more, news (fst (insert_news_step (db, n) a)) = (news db ++ more)%list.
Proof.
  intros db n a. destruct (insert_news_step_cases db n a) as [[_ ->] | [_ ->]]; simpl.
  - exists []. now rewrite app_nil_r.
  - eexists. reflexivity.
Qed.

Lemma news_fold_grows : forall l acc,
  exists more,
    news (fst (fold_left insert_news_step l acc)) = (news (fst acc) ++ more)%list.
Proof.
  induction l as [|a l IH]; intros [db n].
  - exists []. simpl. now rewrite app_nil_r.
  - change (fold_left insert_news_step (a :: l) (db, n))
      with (fold_left insert_news_step l (insert_news_step (db, n) a)).
    destruct (IH (insert_news_step (db, n) a)) as [m2 H2].
    destruct (news_step_grows db n a) as [m1 H1].
    exists (m1 ++ m2)%list. rewrite H2, H1. simpl. now rewrite app_assoc.
Qed.

Lemma news_step_then_rejected : forall db n a,
  news_accepts (news (fst (insert_news_step (db, n) a))) a = false.
Proof.
  intros db n a. destruct (insert_news_step_cases db n a) as [[H ->] | [H ->]]; simpl.
  - exact H.
  - unfold news_accepts in *. rewrite existsb_app. simpl.
    destruct (news_url a) as [u|]; simpl in *.
    + rewrite String.eqb_refl. rewrite !orb_true_r. simpl. now rewrite !andb_false_r.
    + now rewrite !andb_false_r in H.
Qed.

Lemma news_fold_then_rejected : forall l acc a,
  In a l -> news_accepts (news (fst (fold_left insert_news_step l acc))) a = false.
Proof.
  induction l as [|x l IH]; intros [db n] a Hin; [contradiction|].
  change (fold_left insert_news_step (x :: l) (db, n))
    with (fold_left insert_news_step l (insert_news_step (db, n) x)).
  destruct Hin as [-> | Hin].
  - destruct (news_fold_grows l (insert_news_step (db, n) a)) as [more ->].
    apply news_rejected_for_good, news_step_then_rejected.
  - apply IH, Hin.
Qed.

Lemma news_fold_of_rejected : forall l db n,
  (forall a, In a l -> news_accepts (news db) a = false) ->
  fold_left insert_news_step l (db, n) = (db, n).
Proof.
  induction l as [|x l IH]; intros db n H; [reflexivity|].
  change (fold_left insert_news_step (x :: l) (db, n))
    with (fold_left insert_news_step l (insert_news_step (db, n) x)).
  destruct (insert_news_step_cases db n x) as [[_ ->] | [Hacc _]].
  - apply IH. intros a Ha. apply H. now right.
  - rewrite (H x (or_introl eq_refl)) in Hacc. discriminate Hacc.
Qed.

Lemma insert_news_again : forall batch db,
  insert_news batch (snd (insert_news batch db)) = (Ok 0, snd (insert_news batch db)).
Proof.
  intros batch db. unfold insert_news.
  pose proof (fun a => news_fold_then_rejected batch (db, 0) a) as H.
  destruct (fold_left insert_news_step batch (db, 0)) as [db1 n1]. simpl in *.
  rewrite (news_fold_of_rejected batch db1 0 H). reflexivity.
Qed.

(** X8.  Inserting a batch of articles a second time inserts nothing: after
    [insert_news batch], the same call returns 0 and leaves every table as it
    is, whatever the batch (articles with missing columns or repeated URLs
    included) and whatever was stored before. *)
Theorem second_insert_of_a_news_batch_adds_nothing : forall batch db,
  let db1 := snd (insert_news batch db) in
  insert_news batch db1 = (Ok 0, db1).
Proof. intros batch db. apply insert_news_again. Qed.

Lemma news_fold_counts : forall l db n,
  exists added,
    fold_left insert_news_step l (db, n)
    = (mkDb (news db ++ added) (funding db) (launches db) (github_repositories db)
            (github_signals db) (analysis_results db) (briefings db),
       n + Z.of_nat (List.length added))
    /\ (List.length added <= List.length l)%nat
    /\ Forall (fun r => In (news_rec r) l /\ news_is_enriched r = false) added.
Proof.
  induction l as [|x l IH]; intros db n.
  - exists []. simpl. rewrite app_nil_r, Z.add_0_r. destruct db. auto.
  - change (fold_left insert_news_step (x :: l) (db, n))
      with (fold_left insert_news_step l (insert_news_step (db, n) x)).
    destruct (insert_news_step_cases db n x) as [[_ ->] | [_ ->]].
    + destruct (IH db n) as [added [H1 [H2 H3]]]. exists added.
      split; [exact H1 | split; [simpl; lia |]].
      eapply Forall_impl; [|exact H3]. simpl. intros r [Hr He]. auto.
    + destruct (IH (mkDb (news db ++ [mkNewsRow (next_id (news db)) x false])
                         (funding db) (launches db) (github_repositories db)
                         (github_signals db) (analysis_results db) (briefings db))
                   (n + 1)) as [added [H1 [H2 H3]]].
      exists (mkNewsRow (next_id (news db)) x false :: added).
      split; [|split].
      * rewrite H1. simpl. rewrite <- app_assoc. simpl. f_equal. lia.
      * simpl. lia.
      * constructor; [simpl; auto|].
        eapply Forall_impl; [|exact H3]. simpl. intros r [Hr He]. auto.
Qed.

(** X10.  [insert_news] returns the number of rows it added: the news table
    afterwards is the table before followed by that many new rows, each
    holding an article of the batch with [is_enriched] unset; there are at
    most as many as the batch has articles, and no other table changes. *)
Theorem insert_news_reports_what_it_stored : forall batch db,
  let db' := snd (insert_news batch db) in
  exists added,
    fst (insert_news batch db) = Ok (Z.of_nat (List.length added))
    /\ news db' = (news db ++ added)%list
    /\ (List.length added <= List.length batch)%nat
    /\ Forall (fun r => In (news_rec r) batch /\ news_is_enriched r = false) added
    /\ funding db' = funding db /\ launches db' = launches db
    /\ github_repositories db' = github_repositories db
    /\ github_signals db' = github_signals db
    /\ analysis_results db' = analysis_results db
    /\ briefings db' = briefings db.
Proof.
  intros batch db. cbv zeta. unfold insert_news.
  destruct (news_fold_counts batch db 0) as [added [H1 [H2 H3]]].
  rewrite H1. simpl. exists added. repeat split; assumption.
Qed.

Lemma url_not_stored : forall rows u,
  existsb (fun r => sql_eq (news_url (news_rec r)) (Some u)) rows = false ->
  ~ In (Some u) (map (fun r => news_url (news_rec r)) rows).
Proof.
  induction rows as [|r rows IH]; intros u H Hin; [exact Hin|].
  simpl in H. apply orb_false_iff in H. destruct H as [Hr Hrest].
  destruct Hin as [Heq | Hin].
  - rewrite Heq in Hr. simpl in Hr. rewrite String.eqb_refl in Hr. discriminate Hr.
  - exact (IH u Hrest Hin).
Qed.

Lemma news_step_keeps_urls_unique : forall db n a,
  news_urls_unique db -> news_urls_unique (fst (insert_news_step (db, n) a)).
Proof.
  intros db n a [Hnd Hnn].
  destruct (insert_news_step_cases db n a) as [[_ ->] | [Hacc ->]]; [split; assumption|].
  unfold news_urls_unique, news_urls in *. simpl. rewrite map_app. simpl.
  unfold news_accepts in Hacc.
  destruct (news_url a) as [u|] eqn:Hu; [|now rewrite !andb_false_r in Hacc].
  apply andb_true_iff in Hacc. destruct Hacc as [_ Hex].
  apply negb_true_iff in Hex.
  split.
  - apply NoDup_app; [exact Hnd | repeat constructor; intros [] |].
    intros x Hx [Hx' | []]. subst x. exact (url_not_stored _ _ Hex Hx).
  - apply Forall_app. split; [exact Hnn|]. repeat constructor. discriminate.
Qed.

(** X9.  [insert_news] keeps the URL column of the news table free of
    duplicates and of NULLs: if no two stored rows share a URL and none lacks
    one, the same holds after any batch has been inserted. *)
Theorem insert_news_keeps_urls_unique : forall batch db,
  news_urls_unique db -> news_urls_unique (snd (insert_news batch db)).
Proof.
  intros batch db H. unfold insert_news.
  assert (G : forall l acc, news_urls_unique (fst acc) ->
                            news_urls_unique (fst (fold_left insert_news_step l acc))).
  { induction l as [|x l IH]; intros [d n] Hd; [exact Hd|].
    change (fold_left insert_news_step (x :: l) (d, n))
      with (fold_left insert_news_step l (insert_news_step (d, n) x)).
    apply IH. now apply news_step_keeps_urls_unique. }
  specialize (G batch (db, 0) H).
  destruct (fold_left insert_news_step batch (db, 0)) as [d1 n1]. exact G.
Qed.

Lemma insert_news_keeps_urls_unique_witness :
  news_urls_unique
    (snd (insert_news [Statements.sample_article; Statements.sample_article] empty)).
Proof.
  apply (insert_news_keeps_urls_unique
           [Statements.sample_article; Statements.sample_article] empty).
  split; constructor.
Defined.

(** *** insert_funding *)




(** *** insert_github_signals *)

Lemma signals_fold_counts : forall l db n,
  let '(db', n') := fold_left insert_github_signals_step l (db, n) in
  n' = n + Z.of_nat (List.length (filter signal_accepts l))
  /\ map signal_rec (github_signals db')
     = (map signal_rec (github_signals db) ++ filter signal_accepts l)%list.
Proof.
  induction l as [|x l IH]; intros db n.
  - simpl. rewrite app_nil_r. split; [lia | reflexivity].
  - change (fold_left insert_github_signals_step (x :: l) (db, n))
      with (fold_left insert_github_signals_step l (insert_github_signals_step (db, n) x)).
    unfold insert_github_signals_step at 2. simpl filter.
    destruct (signal_accepts x).
    + match goal with |- context [fold_left _ l (?d, ?m)] => specialize (IH d m) end.
      destruct (fold_left insert_github_signals_step l _) as [db' n'].
      destruct IH as [H1 H2]. split.
      * rewrite H1. simpl. lia.
      * rewrite H2. simpl. rewrite map_app. simpl. now rewrite <- app_assoc.
    + specialize (IH db n).
      destruct (fold_left insert_github_signals_step l _) as [db' n'].
      exact IH.
Qed.

(** X12.  [insert_github_signals] stores and counts every signal of the
    batch that has its type, indicator and date, in order, whatever the table
    already holds: the count never depends on what is stored, so inserting
    the same batch again stores the same signals again. *)
Theorem every_valid_signal_is_stored_whatever_is_stored : forall batch db,
  let valid := filter signal_accepts batch in
  let db' := snd (insert_github_signals batch db) in
  fst (insert_github_signals batch db) = Ok (Z.of_nat (List.length valid))
  /\ map signal_rec (github_signals db')
     = (map signal_rec (github_signals db) ++ valid)%list.
Proof.
  intros batch db. cbv zeta. unfold insert_github_signals.
  pose proof (signals_fold_counts batch db 0) as H.
  destruct (fold_left insert_github_signals_step batch (db, 0)) as [db' n'].
  destruct H as [H1 H2]. simpl. split; [now rewrite H1 | exact H2].
Qed.


(** *** insert_github_repositories *)













(** *** briefings *)

Lemma find_other_date : forall d d' (rows : list briefing_row),
  d' <> d ->
  find (fun r => String.eqb (briefing_date r) d')
       (filter (fun r => negb (String.eqb (briefing_date r) d)) rows)
  = find (fun r => String.eqb (briefing_date r) d') rows.
Proof.
  intros d d' rows Hne. induction rows as [|r rows IH]; [reflexivity|].
  simpl. destruct (String.eqb_spec (briefing_date r) d) as [Hd | Hd]; simpl.
  - destruct (String.eqb_spec (briefing_date r) d') as [Hd' | Hd']; [congruence | exact IH].
  - destruct (String.eqb (briefing_date r) d'); [reflexivity | exact IH].
Qed.

Lemma find_same_date_filtered : forall d (rows : list briefing_row),
  find (fun r => String.eqb (briefing_date r) d)
       (filter (fun r => negb (String.eqb (briefing_date r) d)) rows) = None.
Proof.
  intros d rows. induction rows as [|r rows IH]; [reflexivity|].
  simpl. destruct (String.eqb (briefing_date r) d) eqn:E; simpl; [exact IH|].
  rewrite E. exact IH.
Qed.

Lemma find_app_none : forall {A} (f : A -> bool) l1 l2,
  find f l1 = None -> find f (l1 ++ l2) = find f l2.
Proof.
  intros A f l1 l2. induction l1 as [|x l1 IH]; intros H; [reflexivity|].
  simpl in *. destruct (f x); [discriminate H | exact (IH H)].
Qed.

Lemma find_app_some : forall {A} (f : A -> bool) l1 l2 x,
  find f l1 = Some x -> find f (l1 ++ l2) = Some x.
Proof.
  intros A f l1 l2 x. induction l1 as [|y l1 IH]; intros H; [discriminate H|].
  simpl in *. destruct (f y); [exact H | exact (IH H)].
Qed.

Lemma saved_briefing_is_found : forall db date summary content data_start data_end,
  Database.get_briefing_by_date date
    (snd (save_briefing date summary content data_start data_end db))
  = (Ok (Some (mkBriefingRow date summary content data_start data_end)),
     snd (save_briefing date summary content data_start data_end db)).
Proof.
  intros db date summary content data_start data_end.
  unfold save_briefing, get_briefing_by_date, modify, bind, get, ret. simpl.
  rewrite find_app_none by apply find_same_date_filtered.
  simpl. rewrite String.eqb_refl. reflexivity.
Qed.

(** X6.  A briefing saved with [save_briefing] is what
    [get_briefing_by_date] returns for its date, with every column as given,
    and the lookup of any other date gives what it gave before the save. *)
Theorem saved_briefing_is_found_by_its_date :
  forall date summary content data_start data_end db,
    let db' := snd (save_briefing date summary content data_start data_end db) in
    get_briefing_by_date date db'
    = (Ok (Some (mkBriefingRow date summary content data_start data_end)), db')
    /\ forall other, other <> date ->
         fst (get_briefing_by_date other db') = fst (get_briefing_by_date other db).
Proof.
  intros date summary content data_start data_end db. cbv zeta.
  split; [apply (saved_briefing_is_found db)|].
  unfold save_briefing, get_briefing_by_date, modify, bind, get, ret. simpl.
  intros other Hne. f_equal.
  destruct (find (fun r => String.eqb (briefing_date r) other) (briefings db)) as [x|] eqn:E.
  - apply find_app_some. rewrite find_other_date by exact Hne. exact E.
  - rewrite find_app_none by (rewrite find_other_date by exact Hne; exact E).
    simpl. destruct (String.eqb_spec date other) as [H | H]; [congruence | reflexivity].
Qed.







Lemma in_firstn : forall {A} n (l : list A) x, In x (firstn n l) -> In x l.
Proof.
  intros A n l x H. rewrite <- (firstn_skipn n l). apply in_or_app. now left.
Qed.

End StorageLaws.

(** ** The analysis agent: validation, persistence, extraction *)

Module AnalysisLaws.

Import PyStr LLM Analysis Statements Observations ExtractorSpec.

Lemma assoc_set_same : forall {A} k (v : A) kv, assoc k (assoc_set k v kv) = Some v.
Proof.
  intros A k v. induction kv as [|[k' v'] kv IH]; simpl.
  - now rewrite String.eqb_refl.
  - destruct (String.eqb k k') eqn:E; simpl.
    + now rewrite String.eqb_refl.
    + now rewrite E.
Qed.

Lemma stamp_item_stamps : forall now_iso a b,
  stamp_item now_iso a = Ok b -> py_in "created_at" b = Ok true.
Proof.
  intros now_iso a b H. unfold stamp_item in H.
  destruct (py_in "created_at" a) as [[|]|e] eqn:E; [| |discriminate H].
  - now injection H as <-.
  - destruct a; try discriminate H. injection H as <-.
    simpl. now rewrite assoc_set_same.
Qed.

Lemma stamp_items_stamps : forall now_iso l l',
  stamp_items now_iso l = Ok l' ->
  List.length l' = List.length l
  /\ Forall (fun item => py_in "created_at" item = Ok true) l'.
Proof.
  intros now_iso. induction l as [|a l IH]; intros l' H; simpl in H.
  - injection H as <-. split; [reflexivity | constructor].
  - destruct (stamp_item now_iso a) as [b|e] eqn:Ea; [|discriminate H].
    destruct (stamp_items now_iso l) as [r|e] eqn:El; [|discriminate H].
    injection H as <-. destruct (IH r eq_refl) as [Hlen Hall].
    split; [simpl; now rewrite Hlen|].
    constructor; [exact (stamp_item_stamps _ _ _ Ea) | exact Hall].
Qed.








Lemma stamp_items_of_dicts : forall now_iso l,
  forallb is_dict l = true ->
  exists l', stamp_items now_iso l = Ok l'
             /\ Forall2 (fun a b => stamp_item now_iso a = Ok b) l l'.
Proof.
  intros now_iso. induction l as [|a l IH]; intros H.
  - exists []. split; [reflexivity | constructor].
  - simpl in H. apply andb_true_iff in H. destruct H as [Ha Hl].
    destruct (IH Hl) as [l' [E F]].
    destruct a as [| | | | | |kv]; try discriminate Ha.
    assert (Hs : exists b, stamp_item now_iso (JDict kv) = Ok b).
    { unfold stamp_item. simpl. destruct (assoc "created_at" kv); eexists; reflexivity. }
    destruct Hs as [b Hb]. exists (b :: l'). split.
    + simpl stamp_items. rewrite Hb, E. reflexivity.
    + constructor; assumption.
Qed.

Lemma forallb_firstn : forall {A} (f : A -> bool) n l,
  forallb f l = true -> forallb f (firstn n l) = true.
Proof.
  intros A f. induction n as [|n IH]; intros l H; [reflexivity|].
  destruct l as [|a l]; [reflexivity|]. simpl in *.
  apply andb_true_iff in H. destruct H as [-> H]. simpl. now apply IH.
Qed.

Lemma capped_list_of_dicts : forall now_iso results key cap l,
  py_get results key (JList []) = Ok (JList l) ->
  forallb is_dict l = true ->
  exists l',
    get_capped results key cap = Ok (JList (firstn cap l))
    /\ stamp_category now_iso (JList (firstn cap l)) = Ok (JList l')
    /\ List.length l' = Nat.min cap (List.length l)
    /\ Forall2 (fun a b => stamp_item now_iso a = Ok b) (firstn cap l) l'
    /\ Forall (fun item => py_in "created_at" item = Ok true) l'.
Proof.
  intros now_iso results key cap l Hg Hd.
  destruct (stamp_items_of_dicts now_iso (firstn cap l) (forallb_firstn _ _ _ Hd))
    as [l' [E F]].
  destruct (stamp_items_stamps _ _ _ E) as [Hlen Hall].
  exists l'. unfold get_capped. rewrite Hg. simpl. rewrite E.
  repeat split; try assumption. rewrite Hlen. apply length_firstn.
Qed.

(** X13.  On a result whose four categories are lists of dicts (a missing
    category counts as the empty list), [_validate_analysis_results] returns
    the four lists cut to 20, 20, 15 and 15 items: each output list has the
    smaller of the cap and the input length, its items are the first items
    of the input in order, each as the stamping step leaves it, and every
    one holds "created_at". *)
Theorem validation_caps_and_stamps_each_list :
  forall now_iso results t c f i,
    py_get results "trends" (JList []) = Ok (JList t) ->
    py_get results "competitor_moves" (JList []) = Ok (JList c) ->
    py_get results "opportunities_for_founders" (JList []) = Ok (JList f) ->
    py_get results "opportunities_for_investors" (JList []) = Ok (JList i) ->
    forallb is_dict (t ++ c ++ f ++ i) = true ->
    exists t' c' f' i',
      _validate_analysis_results now_iso results
      = Ok (JDict [("trends", JList t'); ("competitor_moves", JList c');
                   ("opportunities_for_founders", JList f');
                   ("opportunities_for_investors", JList i')])
      /\ List.length t' = Nat.min 20 (List.length t)
      /\ List.length c' = Nat.min 20 (List.length c)
      /\ List.length f' = Nat.min 15 (List.length f)
      /\ List.length i' = Nat.min 15 (List.length i)
      /\ Forall2 (fun a b => stamp_item now_iso a = Ok b) (firstn 20 t) t'
      /\ Forall2 (fun a b => stamp_item now_iso a = Ok b) (firstn 20 c) c'
      /\ Forall2 (fun a b => stamp_item now_iso a = Ok b) (firstn 15 f) f'
      /\ Forall2 (fun a b => stamp_item now_iso a = Ok b) (firstn 15 i) i'
      /\ Forall (fun item => py_in "created_at" item = Ok true) (t' ++ c' ++ f' ++ i').
Proof.
  intros now_iso results t c f i Gt Gc Gf Gi Hd.
  rewrite !forallb_app in Hd.
  apply andb_true_iff in Hd. destruct Hd as [Dt Hd].
  apply andb_true_iff in Hd. destruct Hd as [Dc Hd].
  apply andb_true_iff in Hd. destruct Hd as [Df Di].
  destruct (capped_list_of_dicts now_iso results _ 20%nat t Gt Dt)
    as [t' [Ct [St [Lt [Ft At]]]]].
  destruct (capped_list_of_dicts now_iso results _ 20%nat c Gc Dc)
    as [c' [Cc [Sc [Lc [Fc Ac]]]]].
  destruct (capped_list_of_dicts now_iso results _ 15%nat f Gf Df)
    as [f' [Cf [Sf [Lf [Ff Af]]]]].
  destruct (capped_list_of_dicts now_iso results _ 15%nat i Gi Di)
    as [i' [Ci [Si [Li [Fi Ai]]]]].
  exists t', c', f', i'. unfold _validate_analysis_results.
  rewrite Ct, Cc, Cf, Ci, St, Sc, Sf, Si.
  repeat (split; [first [reflexivity | assumption]|]).
  rewrite !Forall_app. auto.
Qed.

Lemma validation_caps_and_stamps_each_list_witness :
  exists t' c' f' i',
    _validate_analysis_results "2024-05-01T00:00:00" twenty_five_trends
    = Ok (JDict [("trends", JList t'); ("competitor_moves", JList c');
                 ("opportunities_for_founders", JList f');
                 ("opportunities_for_investors", JList i')])
    /\ List.length t' = 20%nat.
Proof.
  destruct (validation_caps_and_stamps_each_list
              "2024-05-01T00:00:00" twenty_five_trends
              (repeat (JDict [("title", JStr "AI agents")]) 25) [] [] []
              eq_refl eq_refl eq_refl eq_refl eq_refl)
    as [t' [c' [f' [i' [H1 [H2 _]]]]]].
  exists t', c', f', i'. split; [exact H1 | exact H2].
Defined.



(** *** analyze_recent_data and the store *)

(** X15.  [analyze_recent_data] writes to the database only when it
    succeeds: a result with status "success" comes with exactly one new row
    in [analysis_results], of type "comprehensive", holding the returned
    results and the model name; a result with status "error" carries the
    empty schema and leaves the database as it was, and so does a raised
    exception. *)
Theorem analysis_is_stored_only_when_it_succeeds :
  forall env days db,
    let db' := snd (analyze_recent_data env days db) in
    match fst (analyze_recent_data env days db) with
    | Ok res =>
        (status res = "success"
         /\ exists row,
              Database.analysis_results db'
              = (Database.analysis_results db ++ [row])%list
              /\ Database.results_json row = results res
              /\ Database.analysis_type row = "comprehensive"
              /\ Database.model_used row = LLM.model (llm env))
        \/ (status res = "error" /\ db' = db /\ results res = empty_schema)
    | Raise e => db' = db
    end.
Proof.
  intros env days db. cbv zeta.
  unfold analyze_recent_data,
    Database.get_recent_news, Database.get_recent_funding, Database.get_recent_launches,
    Database.get_recent_github_repos, Database.get_recent_github_signals,
    Database._validate_days, Database._validate_limit.
  destruct ((days <? 1) || (365 <? days)); simpl; [reflexivity|].
  unfold try_except, bind, lift, get, ret, raise, Database.save_analysis_result, modify.
  simpl.
  destruct (LLM.complete (llm env) (llm_reply env)) as [response|e]; simpl.
  - destruct (_validate_analysis_results _ _) as [v|e]; simpl.
    + left. split; [reflexivity|]. eexists. repeat split.
    + destruct (is_ValueError e); simpl; [right; auto|].
      destruct (is_Exception e); simpl; [right; auto | reflexivity].
  - destruct (is_ValueError e); simpl; [right; auto|].
    destruct (is_Exception e); simpl; [right; auto | reflexivity].
Qed.

(** X16.  With an API key set and a provider other than "openai" and
    "anthropic", [analyze_recent_data] (day window respected) returns status
    "error" with the client's "Unsupported LLM provider" text as error, and
    with the message that says the API key is not configured; nothing is
    stored. *)
Theorem unsupported_provider_is_reported_as_a_missing_key :
  forall env days db,
    1 <= days <= 365 ->
    unconfigured (llm env) = false ->
    String.eqb (provider (llm env)) "openai" = false ->
    String.eqb (provider (llm env)) "anthropic" = false ->
    analyze_recent_data env days db
    = (Ok (mkAnalysisResult "error"
             (Some ("Unsupported LLM provider: " ++ provider (llm env)))
             (Some "LLM API key not configured. Set OPENAI_API_KEY or ANTHROPIC_API_KEY environment variable.")
             empty_schema None),
       db).
Proof.
  intros env days db Hd Hkey Ho Ha.
  unfold analyze_recent_data,
    Database.get_recent_news, Database.get_recent_funding, Database.get_recent_launches,
    Database.get_recent_github_repos, Database.get_recent_github_signals,
    Database._validate_days, Database._validate_limit.
  assert (Hw : (days <? 1) || (365 <? days) = false).
  { apply orb_false_iff. split; apply Z.ltb_ge; lia. }
  rewrite Hw. simpl.
  unfold try_except, bind, lift, get, ret, raise. simpl.
  unfold LLM.complete, _validate_api_key. unfold unconfigured in Hkey.
  destruct (api_key (llm env)) as [[|c k]|]; try discriminate Hkey.
  rewrite Ho, Ha. reflexivity.
Qed.

Lemma unsupported_provider_is_reported_as_a_missing_key_witness :
  fst (analyze_recent_data azure_env 7 Database.empty)
  = Ok (mkAnalysisResult "error" (Some "Unsupported LLM provider: azure")
          (Some "LLM API key not configured. Set OPENAI_API_KEY or ANTHROPIC_API_KEY environment variable.")
          empty_schema None).
Proof.
  rewrite (unsupported_provider_is_reported_as_a_missing_key azure_env 7 Database.empty).
  - reflexivity.
  - split; intro H; discriminate H.
  - reflexivity.
  - reflexivity.
  - reflexivity.
Defined.



(** *** The extractor on well-formed replies *)

Lemma prefix_app : forall a b, prefix a (a ++ b) = true.
Proof.
  induction a as [|c a IH]; intros b; simpl; [now destruct b|].
  destruct (ascii_dec c c); [apply IH | contradiction].
Qed.

Lemma prefix_other_head : forall x sub c s,
  Ascii.eqb c x = false -> prefix (String x sub) (String c s) = false.
Proof.
  intros x sub c s H. simpl. destruct (ascii_dec x c) as [->|]; [|reflexivity].
  now rewrite Ascii.eqb_refl in H.
Qed.

Lemma cut_past : forall x sub pre rest,
  lacks x pre = true ->
  cut (String x sub) (pre ++ String x sub ++ rest) = Some (pre, rest).
Proof.
  intros x sub. induction pre as [|c pre IH]; intros rest H.
  - simpl append. rewrite ExtractorProps.cut_cons.
    change (String x (sub ++ rest)) with (String x sub ++ rest).
    rewrite prefix_app, ExtractorProps.drop_app. reflexivity.
  - simpl in H. apply andb_true_iff in H. destruct H as [Hc Hpre].
    apply negb_true_iff in Hc.
    simpl append. rewrite ExtractorProps.cut_cons.
    rewrite (prefix_other_head x sub c _ Hc).
    change (String x (sub ++ rest)) with (String x sub ++ rest).
    now rewrite (IH rest Hpre).
Qed.

Lemma cut_lacking : forall x sub s,
  lacks x s = true -> cut (String x sub) s = None.
Proof.
  intros x sub. induction s as [|c s IH]; intros H; [reflexivity|].
  simpl in H. apply andb_true_iff in H. destruct H as [Hc Hs].
  apply negb_true_iff in Hc.
  rewrite ExtractorProps.cut_cons, (prefix_other_head x sub c s Hc), (IH Hs). reflexivity.
Qed.

Lemma rcut_lacking : forall x s,
  lacks x s = true -> rcut (String x EmptyString) s = None.
Proof.
  intros x. induction s as [|c s IH]; intros H; [reflexivity|].
  simpl in H. apply andb_true_iff in H. destruct H as [Hc Hs].
  apply negb_true_iff in Hc.
  rewrite ExtractorProps.rcut_cons, (IH Hs), (prefix_other_head x EmptyString c s Hc).
  reflexivity.
Qed.

Lemma rcut_before : forall x inner post,
  lacks x post = true ->
  rcut (String x EmptyString) (inner ++ String x EmptyString ++ post) = Some (inner, post).
Proof.
  intros x inner post H.
  rewrite (ExtractorProps.rcut_app_some (String x EmptyString) inner
             (String x EmptyString ++ post) EmptyString post).
  - f_equal. f_equal. clear. induction inner as [|c s IH]; simpl; [reflexivity | now rewrite IH].
  - simpl append. rewrite ExtractorProps.rcut_cons, (rcut_lacking x post H).
    simpl prefix. destruct (ascii_dec x x); [|contradiction].
    destruct post; reflexivity.
Qed.

Lemma contains_cut : forall sub s,
  contains sub s = match cut sub s with Some _ => true | None => false end.
Proof.
  intros sub s. unfold contains. rewrite ExtractorProps.index_cut.
  destruct (cut sub s) as [[a b]|]; reflexivity.
Qed.

(** X17.  A reply that holds its JSON in a fence tagged json is parsed from
    inside the fence: when neither the text before the opening fence nor the
    body contains a backtick, [_parse_llm_response] returns what [json.loads]
    makes of the stripped body (the empty schema if that fails), whatever
    follows the closing fence. *)
Theorem fenced_json_reply_is_parsed_from_inside_the_fence :
  forall json_loads pre body post,
    lacks "`" pre = true -> lacks "`" body = true ->
    _parse_llm_response json_loads (pre ++ "```json" ++ body ++ "```" ++ post)
    = match json_loads (strip body) with
      | Ok parsed => parsed
      | Raise _ => empty_schema
      end.
Proof.
  intros json_loads pre body post Hpre Hbody.
  unfold _parse_llm_response. rewrite ExtractorProps.extract_json_str_as_built.
  unfold ordered_as_built. rewrite contains_cut.
  unfold tagged_block, block_after.
  rewrite (cut_past "`" "``json" pre (body ++ "```" ++ post) Hpre).
  rewrite (cut_past "`" "``" body post Hbody). reflexivity.
Qed.

Lemma fenced_json_reply_is_parsed_from_inside_the_fence_witness :
  _parse_llm_response (fun _ => Ok (JDict []))
                      ("Here is the analysis: " ++ "```json" ++ " {} " ++ "```" ++ " Done.")
  = JDict [].
Proof.
  rewrite (fenced_json_reply_is_parsed_from_inside_the_fence
             (fun _ => Ok (JDict [])) "Here is the analysis: " " {} " " Done.");
    reflexivity.
Defined.


(** X18.  Prose around a bare JSON object is dropped: on a reply without
    any backtick, made of a text without opening brace, an object in braces
    and a text without closing brace, [_parse_llm_response] returns what
    [json.loads] makes of the object alone (the empty schema if that
    fails). *)
Theorem prose_around_a_bare_object_is_dropped :
  forall json_loads pre inner post,
    lacks "`" (pre ++ "{" ++ inner ++ "}" ++ post) = true ->
    lacks "{" pre = true -> lacks "}" post = true ->
    _parse_llm_response json_loads (pre ++ "{" ++ inner ++ "}" ++ post)
    = match json_loads ("{" ++ inner ++ "}") with
      | Ok parsed => parsed
      | Raise _ => empty_schema
      end.
Proof.
  intros json_loads pre inner post Htick Hpre Hpost.
  unfold _parse_llm_response. rewrite ExtractorProps.extract_json_str_as_built.
  unfold ordered_as_built. rewrite contains_cut.
  rewrite (cut_lacking "`" "``json" _ Htick).
  unfold any_block, block_after. rewrite (cut_lacking "`" "``" _ Htick).
  unfold braces. rewrite (cut_past "{" EmptyString pre (inner ++ "}" ++ post) Hpre).
  rewrite (rcut_before "}" inner post Hpost). reflexivity.
Qed.

Lemma prose_around_a_bare_object_is_dropped_witness :
  _parse_llm_response (fun _ => Ok (JDict []))
                      ("Result: " ++ "{" ++ " " ++ "}" ++ " as asked.")
  = JDict [].
Proof.
  rewrite (prose_around_a_bare_object_is_dropped
             (fun _ => Ok (JDict [])) "Result: " " " " as asked.");
    reflexivity.
Defined.

End AnalysisLaws.

(** ** The summarizer: articles related to a trend *)

Module BriefingLaws.

Import PyStr Summarizer Observations.

Lemma related_loop_outcome : forall ks articles,
  match related_loop ks articles with
  | Ok related =>
      forallb has_text articles = true
      /\ incl related articles
      /\ (List.length related <= List.length articles)%nat
  | Raise e =>
      e = AttributeError "'NoneType' object has no attribute 'lower'"
      /\ forallb has_text articles = false
  end.
Proof.
  intros ks. induction articles as [|a rest IH].
  - simpl. split; [reflexivity|]. split; [apply incl_refl | lia].
  - cbn [related_loop forallb]. unfold has_text at 1 3, lower_of.
    destruct (Database.news_title (Database.news_rec a)) as [t|];
      [|split; reflexivity].
    destruct (Database.news_summary (Database.news_rec a)) as [sm|];
      [|split; reflexivity].
    cbn [Database.is_null negb andb].
    destruct (related_loop ks rest) as [related|e]; [|exact IH].
    destruct IH as [Hall [Hincl Hlen]]. split; [exact Hall|].
    destruct (existsb _ ks).
    + split; [|simpl; lia]. intros x [<- | Hx]; [now left | right; now apply Hincl].
    + split; [|simpl; lia]. intros x Hx. right. now apply Hincl.
Qed.

(** X19.  [_find_related_articles] needs every article to have its text:
    when the keywords can be joined, the call raises [AttributeError] exactly
    when some article of the list has no summary (or no title), whatever the
    keywords, even none; otherwise it returns at most ten articles, all
    taken from the list.  Keywords that cannot be joined make it raise the
    [TypeError] of the join. *)
Theorem related_articles_need_every_summary :
  forall articles keywords,
    match joined_keywords keywords with
    | Raise e => _find_related_articles articles keywords = Raise e
    | Ok _ =>
        match _find_related_articles articles keywords with
        | Ok related =>
            forallb has_text articles = true
            /\ incl related articles
            /\ (List.length related <= 10)%nat
        | Raise e =>
            e = AttributeError "'NoneType' object has no attribute 'lower'"
            /\ forallb has_text articles = false
        end
    end.
Proof.
  intros articles keywords. unfold _find_related_articles.
  destruct (joined_keywords keywords) as [ks|e]; [|reflexivity].
  pose proof (related_loop_outcome ks articles) as H.
  destruct (related_loop ks articles) as [related|e]; [|exact H].
  destruct H as [Hall [Hincl _]]. split; [exact Hall|]. split.
  - intros x Hx. apply Hincl.
    rewrite <- (firstn_skipn 10 related). apply in_or_app. now left.
  - apply firstn_le_length.
Qed.

End BriefingLaws.

(** ** The orchestrator: collection-only runs *)

Module CollectionLaws.

Import Database Orchestrator Statements Observations StorageLaws.

Lemma bind_run : forall {S A B} (m : M S A) (k : A -> M S B) s,
  bind m k s = match m s with
               | (Ok a, s') => k a s'
               | (Raise e, s') => (Raise e, s')
               end.
Proof. reflexivity. Qed.

(** The list [store_news_articles] hands to [insert_news]. *)
Lemma store_news_is_insert : forall d db,
  store_news_articles (Value d) db
  = insert_news (flat_map (fun '(source_name, source_articles) =>
                             map (set_source source_name) source_articles)
                          (sources d)) db.
Proof.
  intros d db. unfold store_news_articles, as_dict, bind, ret.
  destruct (flat_map _ (sources d)); reflexivity.
Qed.

Lemma store_startup_is_inserts : forall d db,
  store_startup_signals (Value d) db
  = (funding_inserted <- insert_funding (startup_funding d) ;;
     launches_inserted <- insert_launches (startup_launches d) ;;
     ret (funding_inserted, launches_inserted)) db.
Proof.
  intros d db. unfold store_startup_signals, as_dict.
  rewrite SchedulerProps.bind_ret_run.
  destruct (startup_funding d); destruct (startup_launches d); reflexivity.
Qed.

Lemma store_github_is_inserts : forall d db,
  store_github_signals (Value d) db
  = (trending_inserted <- insert_github_repositories (github_trending d) ;;
     signals_inserted <- insert_github_signals (Orchestrator.github_signals d) ;;
     ret (trending_inserted, signals_inserted)) db.
Proof.
  intros d db. unfold store_github_signals, as_dict.
  rewrite SchedulerProps.bind_ret_run.
  destruct (github_trending d); destruct (Orchestrator.github_signals d); reflexivity.
Qed.


Lemma insert_news_returns : forall l db, exists k d, insert_news l db = (Ok k, d).
Proof. intros. unfold insert_news. destruct (fold_left _ _ _). eauto. Qed.
Lemma insert_funding_returns : forall l db, exists k d, insert_funding l db = (Ok k, d).
Proof. intros. unfold insert_funding. destruct (fold_left _ _ _). eauto. Qed.
Lemma insert_launches_returns : forall l db, exists k d, insert_launches l db = (Ok k, d).
Proof. intros. unfold insert_launches. destruct (fold_left _ _ _). eauto. Qed.
Lemma insert_repos_returns : forall l db,
  exists k d, insert_github_repositories l db = (Ok k, d).
Proof. intros. unfold insert_github_repositories. destruct (fold_left _ _ _). eauto. Qed.
Lemma insert_signals_returns : forall l db,
  exists k d, insert_github_signals l db = (Ok k, d).
Proof. intros. unfold insert_github_signals. destruct (fold_left _ _ _). eauto. Qed.

(** The Store stage on three filled slots is five inserts in a row. *)
Lemma store_stage_on_values : forall n s g db,
  exists k1 k2 k3 k4 k5 d1 d2 d3 d4 d5,
    insert_news (flat_map (fun '(source_name, source_articles) =>
                             map (set_source source_name) source_articles)
                          (sources n)) db = (Ok k1, d1)
    /\ insert_funding (startup_funding s) d1 = (Ok k2, d2)
    /\ insert_launches (startup_launches s) d2 = (Ok k3, d3)
    /\ insert_github_repositories (github_trending g) d3 = (Ok k4, d4)
    /\ insert_github_signals (Orchestrator.github_signals g) d4 = (Ok k5, d5)
    /\ (news_inserted <- store_news_articles (Value n) ;;
        signals_inserted <- store_startup_signals (Value s) ;;
        github_inserted <- store_github_signals (Value g) ;;
        ret (mkCollectionResult "success"
               news_inserted (fst signals_inserted) (snd signals_inserted)
               (fst github_inserted) (snd github_inserted))) db
       = (Ok (mkCollectionResult "success" k1 k2 k3 k4 k5), d5).
Proof.
  intros n s g db.
  destruct (insert_news_returns
              (flat_map (fun '(source_name, source_articles) =>
                           map (set_source source_name) source_articles) (sources n)) db)
    as [k1 [d1 H1]].
  destruct (insert_funding_returns (startup_funding s) d1) as [k2 [d2 H2]].
  destruct (insert_launches_returns (startup_launches s) d2) as [k3 [d3 H3]].
  destruct (insert_repos_returns (github_trending g) d3) as [k4 [d4 H4]].
  destruct (insert_signals_returns (Orchestrator.github_signals g) d4) as [k5 [d5 H5]].
  exists k1, k2, k3, k4, k5, d1, d2, d3, d4, d5.
  repeat (split; [assumption|]).
  unfold bind at 1. rewrite store_news_is_insert, H1.
  unfold bind at 1. rewrite store_startup_is_inserts.
  unfold bind at 1. rewrite H2. unfold bind at 1. rewrite H3. unfold ret at 1.
  unfold bind at 1. rewrite store_github_is_inserts.
  unfold bind at 1. rewrite H4. unfold bind at 1. rewrite H5. reflexivity.
Qed.











Lemma run_collection_on_values : forall env n s g db,
  collect_all_data env = mkCollected (Value n) (Value s) (Value g) ->
  run_data_collection_only env db
  = (news_inserted <- store_news_articles (Value n) ;;
     signals_inserted <- store_startup_signals (Value s) ;;
     github_inserted <- store_github_signals (Value g) ;;
     ret (mkCollectionResult "success"
            news_inserted (fst signals_inserted) (snd signals_inserted)
            (fst github_inserted) (snd github_inserted))) db.
Proof.
  intros env n s g db H. unfold run_data_collection_only. rewrite H. reflexivity.
Qed.







(** X21.  [run_data_collection_only] returns status "success" whatever the
    collectors do short of being cancelled: HTTP errors, undecodable bodies
    and any other exception in a collector leave the run returning. *)
Theorem collection_survives_every_collector_failure :
  forall env db,
    not_cancelled (collect_from_news_agent env) = true ->
    not_cancelled (collect_from_startup_api_agent env) = true ->
    not_cancelled (collect_from_github_agent env) = true ->
    exists cres db',
      run_data_collection_only env db = (Ok cres, db')
      /\ collection_status cres = "success".
Proof.
  intros env db Hn Hs Hg.
  assert (Hc : exists n s g,
             collect_all_data env = mkCollected (Value n) (Value s) (Value g)).
  { unfold collect_all_data, collect_all.
    destruct (PipelineProps.replace_exception_value (collect_from_news_agent env)
                (fun e => mkNewsData (Some (str_exn e)) [] 0) Hn) as [n ->].
    destruct (PipelineProps.replace_exception_value (collect_from_startup_api_agent env)
                (fun _ => mkStartupData [] []) Hs) as [s ->].
    destruct (PipelineProps.replace_exception_value (collect_from_github_agent env)
                (fun _ => mkGithubData [] []) Hg) as [g ->].
    now exists n, s, g. }
  destruct Hc as [n [s [g Hc]]].
  rewrite (run_collection_on_values env n s g db Hc).
  destruct (store_stage_on_values n s g db)
    as [k1 [k2 [k3 [k4 [k5 [d1 [d2 [d3 [d4 [d5 [_ [_ [_ [_ [_ Hrun]]]]]]]]]]]]]]].
  rewrite Hrun. eexists. eexists. split; reflexivity.
Qed.

Lemma collection_survives_every_collector_failure_witness :
  exists cres db',
    run_data_collection_only startup_down_env Database.empty = (Ok cres, db')
    /\ collection_status cres = "success".
Proof.
  apply (collection_survives_every_collector_failure startup_down_env Database.empty);
    reflexivity.
Defined.

(** X23.  A complete outage is reported as a success with nothing stored:
    when the news request, the funding request and the trending request each
    raise an exception, [run_data_collection_only] returns status "success"
    with all five counts at 0 and leaves the database untouched. *)
Theorem outage_is_reported_as_success_with_zero_counts :
  forall env db e1 e2 e3,
    http_news_all env = Raise e1 -> is_Exception e1 = true ->
    http_funding env = Raise e2 -> is_Exception e2 = true ->
    http_trending env = Raise e3 -> is_Exception e3 = true ->
    run_data_collection_only env db
    = (Ok (mkCollectionResult "success" 0 0 0 0 0), db).
Proof.
  intros env db e1 e2 e3 H1 E1 H2 E2 H3 E3.
  unfold run_data_collection_only, collect_all_data, collect_all,
    collect_from_news_agent, collect_from_startup_api_agent, collect_from_github_agent,
    catch_httpx.
  rewrite H1, H2, H3. cbv zeta.
  destruct (is_httpx_error e1); destruct (is_httpx_error e2); destruct (is_httpx_error e3);
    simpl; rewrite ?E1, ?E2, ?E3; reflexivity.
Qed.

Lemma outage_is_reported_as_success_with_zero_counts_witness :
  run_data_collection_only outage_env Database.empty
  = (Ok (mkCollectionResult "success" 0 0 0 0 0), Database.empty).
Proof.
  apply (outage_is_reported_as_success_with_zero_counts
           outage_env Database.empty
           (RequestError "connection refused") (RequestError "connection refused")
           (RequestError "connection refused"));
    reflexivity.
Defined.

End CollectionLaws.

(** ** The control surface: briefings, the shared guard, the scheduler endpoints *)

Module EndpointLaws.

Import Server Statements Observations.

(** *** Briefing lookups *)

(** X24.  [GET /briefing/{date}] answers a well-formed date that has no
    briefing with HTTP 500, not with the 404 the handler builds: the
    [HTTPException(404)] raised in the [try] block is caught by the handler's
    own [except Exception] and wrapped, so the detail of the 500 is the text
    of the 404. *)
Theorem missing_briefing_of_a_wellformed_date_answers_500 :
  forall isoformat strptime date s,
    strptime date "%Y-%m-%d" = Ok tt ->
    find (fun r => String.eqb (Database.briefing_date r) date)
         (Database.briefings (db s)) = None ->
    fst (get_briefing_by_date isoformat strptime date s)
    = Raise (HTTPException 500
               (str_exn (HTTPException 404 ("Briefing not found for date: " ++ date)))).
Proof.
  intros isoformat strptime date s Hp Hf.
  unfold get_briefing_by_date, try_except, bind, lift, db_call,
    Database.get_briefing_by_date, bind, get, ret, raise.
  rewrite Hp. simpl. rewrite Hf. reflexivity.
Qed.

Lemma missing_briefing_of_a_wellformed_date_answers_500_witness :
  http_status (fst (get_briefing_by_date PyStr.of_int strptime_shape "2024-05-01"
                      fresh_server)) = 500.
Proof.
  rewrite (missing_briefing_of_a_wellformed_date_answers_500
             PyStr.of_int strptime_shape "2024-05-01" fresh_server eq_refl eq_refl).
  reflexivity.
Defined.

(** The run ends by saving its briefing under [briefing_date]. *)
Lemma returned_run_saved_its_briefing : forall env days d res d',
  Orchestrator.run_full_workflow env days d = (Ok res, d') ->
  Orchestrator.status res = "success"
  /\ Database.get_briefing_by_date (Orchestrator.briefing_date res) d'
     = (Ok (Some (Database.mkBriefingRow
                    (Orchestrator.briefing_date res)
                    (Summarizer.summary (Orchestrator.briefing res))
                    (Summarizer.to_json (Orchestrator.briefing res))
                    (Summarizer.isoformat (Orchestrator.summarizer_env env)
                       (Summarizer.now (Orchestrator.summarizer_env env) - days * 86400))
                    (Summarizer.isoformat (Orchestrator.summarizer_env env)
                       (Summarizer.now (Orchestrator.summarizer_env env))))), d').
Proof.
  intros env days d res d' H.
  unfold Orchestrator.run_full_workflow, Orchestrator.run_after_collect in H.
  rewrite CollectionLaws.bind_run in H.
  destruct (Orchestrator.store_news_articles _ d) as [[k1|e] d1]; [|discriminate H].
  rewrite CollectionLaws.bind_run in H.
  destruct (Orchestrator.store_startup_signals _ d1) as [[k2|e] d2]; [|discriminate H].
  rewrite CollectionLaws.bind_run in H.
  destruct (Orchestrator.store_github_signals _ d2) as [[k3|e] d3]; [|discriminate H].
  rewrite CollectionLaws.bind_run in H.
  destruct (Orchestrator.enrich_recent_data env days d3) as [[u|e] d4]; [|discriminate H].
  rewrite CollectionLaws.bind_run in H.
  destruct (Analysis.analyze_recent_data _ days d4) as [[ar|e] d5]; [|discriminate H].
  rewrite CollectionLaws.bind_run in H.
  destruct (Summarizer.create_briefing _ ar days d5) as [[b|e] d6]; [|discriminate H].
  cbv zeta in H. rewrite CollectionLaws.bind_run in H.
  destruct (Database.save_briefing _ _ _ _ _ d6) as [[[]|e] d7] eqn:Hsave;
    [|discriminate H].
  unfold ret in H. injection H as <- <-. simpl.
  split; [reflexivity|].
  pose proof (StorageLaws.saved_briefing_is_found d6
                (Summarizer.strftime_ymd (Orchestrator.summarizer_env env)
                   (Summarizer.now (Orchestrator.summarizer_env env)))
                (Summarizer.summary b) (Summarizer.to_json b)
                (Summarizer.isoformat (Orchestrator.summarizer_env env)
                   (Summarizer.now (Orchestrator.summarizer_env env) - days * 86400))
                (Summarizer.isoformat (Orchestrator.summarizer_env env)
                   (Summarizer.now (Orchestrator.summarizer_env env)))) as Hfound.
  rewrite Hsave in Hfound. exact Hfound.
Qed.

Lemma to_json_is_a_dict : forall b, exists entries, Summarizer.to_json b = JDict entries.
Proof.
  intros [bd ga [[p1 p2] p3] sm secs [[[[n1 n2] n3] n4] n5]]. eexists. reflexivity.
Qed.

(** X25.  Once the background task of an accepted run has returned, the run
    is on record and its briefing is served: [workflow_status] shows running
    false, [last_run] at the time the task ended and the error field as it
    was, and [GET /briefing/{date}] for the run's briefing date (when it
    parses as a date) answers the briefing JSON the run produced, with
    "retrieved_at" set. *)
Theorem finished_run_is_recorded_and_its_briefing_served :
  forall isoformat strptime env days s res d',
    Orchestrator.run_full_workflow env days (db s) = (Ok res, d') ->
    strptime (Orchestrator.briefing_date res) "%Y-%m-%d" = Ok tt ->
    let s1 := snd (run_workflow isoformat env days s) in
    workflow_status s1
    = mkStatus false (Some (isoformat (clock s1))) (error (workflow_status s))
    /\ exists entries,
         Summarizer.to_json (Orchestrator.briefing res) = JDict entries
         /\ fst (get_briefing_by_date isoformat strptime
                   (Orchestrator.briefing_date res) s1)
            = Ok (JDict (assoc_set "retrieved_at" (JStr (isoformat (clock s1))) entries)).
Proof.
  intros isoformat strptime env days s res d' Hrun Hdate. cbv zeta.
  destruct (returned_run_saved_its_briefing env days (db s) res d' Hrun) as [Hst Hget].
  assert (Hs1 : snd (run_workflow isoformat env days s)
                = set_workflow_status
                    (mkStatus false (Some (isoformat (clock s))) (error (workflow_status s)))
                    (set_db d' s)).
  { unfold run_workflow. rewrite Hrun.
    unfold run_workflow_finish, bind, get, modify. simpl. rewrite Hst. reflexivity. }
  rewrite Hs1. split; [reflexivity|].
  destruct (to_json_is_a_dict (Orchestrator.briefing res)) as [entries He].
  exists entries. split; [exact He|].
  unfold get_briefing_by_date, try_except.
  rewrite CollectionLaws.bind_run. unfold lift at 1. rewrite Hdate.
  rewrite CollectionLaws.bind_run. unfold db_call at 1.
  change (db (set_workflow_status
                (mkStatus false (Some (isoformat (clock s))) (error (workflow_status s)))
                (set_db d' s))) with d'.
  rewrite Hget. cbv iota beta.
  rewrite CollectionLaws.bind_run. unfold get at 1. cbv iota beta.
  cbn [Database.briefing_json]. rewrite He. reflexivity.
Qed.

Lemma finished_run_is_recorded_and_its_briefing_served_witness :
  workflow_status (snd (run_workflow PyStr.of_int quiet_env 7 fresh_server))
  = mkStatus false (Some "0") None.
Proof.
  pose proof (finished_run_is_recorded_and_its_briefing_served
                PyStr.of_int strptime_any quiet_env 7 fresh_server
                (match fst (Orchestrator.run_full_workflow quiet_env 7 Database.empty) with
                 | Ok r => r
                 | Raise _ =>
                     Orchestrator.mkWorkflowResult "" "" 0 0 0 0 0 ""
                       (Summarizer.mkBriefing "" "" ("", "", 0) "" [] (0, 0, 0, 0, 0))
                 end)
                (snd (Orchestrator.run_full_workflow quiet_env 7 Database.empty))
                eq_refl eq_refl) as H.
  cbv zeta in H. destruct H as [H _]. exact H.
Defined.



(** *** The guard shared by the two triggers *)

Lemma trigger_collection_when_idle : forall s,
  running (workflow_status s) = false ->
  trigger_collection s =
  (Ok (JDict [("status", JStr "started");
              ("message", JStr "Data collection started in background")]),
   mkState (mkStatus true (last_run (workflow_status s)) None) false
           (scheduler s) (db s) (clock s) (sched_runs s) (sched_trace s)
           (created_tasks s ++ [run_collection_task]) (db_queries s)
           (if workflow_lock s then S (lock_waits s) else lock_waits s)).
Proof.
  intros [st lk sc dbs c n tr tasks qs w] Hrun. simpl in *.
  unfold trigger_collection, bind, async_with_lock, lock_acquire, lock_release, modify,
    get, raise, create_task, ret, bind. simpl. rewrite Hrun. reflexivity.
Qed.

Lemma trigger_collection_when_running : forall s,
  running (workflow_status s) = true ->
  fst (trigger_collection s) = Raise (HTTPException 409 "Workflow is already running")
  /\ workflow_status (snd (trigger_collection s)) = workflow_status s
  /\ created_tasks (snd (trigger_collection s)) = created_tasks s
  /\ db (snd (trigger_collection s)) = db s.
Proof.
  intros [st lk sc dbs c n tr tasks qs w] Hrun. simpl in *.
  unfold trigger_collection, bind, async_with_lock, lock_acquire, lock_release, modify,
    get, raise, create_task, ret, bind. simpl. rewrite Hrun. simpl. auto.
Qed.

Lemma trigger_workflow_when_running : forall d s,
  1 <= d <= 30 ->
  running (workflow_status s) = true ->
  fst (trigger_workflow d s) = Raise (HTTPException 409 "Workflow is already running")
  /\ workflow_status (snd (trigger_workflow d s)) = workflow_status s
  /\ created_tasks (snd (trigger_workflow d s)) = created_tasks s
  /\ db (snd (trigger_workflow d s)) = db s.
Proof.
  intros d [st lk sc dbs c n tr tasks qs w] Hd Hrun. simpl in *.
  unfold trigger_workflow. rewrite (ServerProps.valid_days_back d Hd).
  unfold bind, async_with_lock, lock_acquire, lock_release, modify,
    get, raise, create_task, ret, bind. simpl. rewrite Hrun. simpl. auto.
Qed.

Lemma trigger_workflow_when_free : forall d s,
  1 <= d <= 30 ->
  running (workflow_status s) = false ->
  fst (trigger_workflow d s) = Ok (started_reply d)
  /\ running (workflow_status (snd (trigger_workflow d s))) = true
  /\ created_tasks (snd (trigger_workflow d s))
     = (created_tasks s ++ [run_workflow_task d])%list.
Proof.
  intros d [st lk sc dbs c n tr tasks qs w] Hd Hrun. simpl in *.
  unfold trigger_workflow. rewrite (ServerProps.valid_days_back d Hd).
  unfold bind, async_with_lock, lock_acquire, lock_release, modify,
    get, raise, create_task, ret, bind. simpl. rewrite Hrun. simpl. auto.
Qed.

(** X26.  [POST /orchestrator/run] and [POST /orchestrator/collect] share
    one guard: when no workflow is in flight each of them is accepted, and
    once either has been accepted a following request of either kind is
    refused with 409 and creates no task, until the background task
    finishes. *)
Theorem collection_and_workflow_share_one_guard :
  forall d s,
    1 <= d <= 30 ->
    running (workflow_status s) = false ->
    let after_run := snd (trigger_workflow d s) in
    let after_collect := snd (trigger_collection s) in
    accepted (fst (trigger_workflow d s)) = true
    /\ conflict (fst (trigger_collection after_run)) = true
    /\ created_tasks (snd (trigger_collection after_run))
       = (created_tasks s ++ [run_workflow_task d])%list
    /\ accepted (fst (trigger_collection s)) = true
    /\ conflict (fst (trigger_workflow d after_collect)) = true
    /\ conflict (fst (trigger_collection after_collect)) = true
    /\ created_tasks (snd (trigger_workflow d after_collect))
       = (created_tasks s ++ [run_collection_task])%list.
Proof.
  intros d s Hd Hidle. cbv zeta.
  destruct (trigger_workflow_when_free d s Hd Hidle) as [R1 [R2 R3]].
  pose proof (trigger_collection_when_idle s Hidle) as C1.
  destruct (trigger_collection_when_running _ R2) as [C2 [_ [C3 _]]].
  assert (Hc : running (workflow_status (snd (trigger_collection s))) = true)
    by now rewrite C1.
  destruct (trigger_workflow_when_running d _ Hd Hc) as [W1 [_ [W2 _]]].
  destruct (trigger_collection_when_running _ Hc) as [W3 _].
  rewrite R1, C2, C3, R3, W1, W2, W3. rewrite C1. simpl.
  repeat split; reflexivity.
Qed.

Lemma collection_and_workflow_share_one_guard_witness :
  conflict (fst (trigger_collection (snd (trigger_workflow 7 fresh_server)))) = true.
Proof.
  pose proof (collection_and_workflow_share_one_guard 7 fresh_server) as H.
  cbv zeta in H. apply H.
  - split; intro H0; discriminate H0.
  - reflexivity.
Defined.


(** X27.  The guard is released when the background task ends, unless the
    task is cancelled: after a run that returned, [running] is false and
    [last_run] is set; after a run that raised an exception, [running] is
    false, [last_run] is unchanged and the error field holds the exception's
    text; in both cases the next collect request is accepted.  A cancelled
    task lets the cancellation through and leaves [workflow_status] as it
    was, the flag still up. *)
Theorem guard_is_released_when_the_run_ends_unless_cancelled :
  forall isoformat env d s,
    let r := fst (Orchestrator.run_full_workflow env d (db s)) in
    let s1 := snd (run_workflow isoformat env d s) in
    match r with
    | Raise CancelledError =>
        fst (run_workflow isoformat env d s) = Raise CancelledError
        /\ workflow_status s1 = workflow_status s
    | Raise e =>
        workflow_status s1
        = mkStatus false (last_run (workflow_status s)) (Some (str_exn e))
        /\ accepted (fst (trigger_collection s1)) = true
    | Ok _ =>
        running (workflow_status s1) = false
        /\ last_run (workflow_status s1) = Some (isoformat (clock s1))
        /\ accepted (fst (trigger_collection s1)) = true
    end.
Proof.
  intros isoformat env d s. cbv zeta. unfold run_workflow.
  destruct (Orchestrator.run_full_workflow env d (db s)) as [[res|e] d'].
  - cbn [fst]. unfold run_workflow_finish, bind, get, modify. cbn [fst snd].
    split; [reflexivity|]. split; [reflexivity|].
    rewrite trigger_collection_when_idle by reflexivity. reflexivity.
  - cbn [fst]. unfold run_workflow_finish, bind, get, modify, raise.
    destruct e; cbn [is_Exception fst snd];
      try (split; [reflexivity|];
           rewrite trigger_collection_when_idle by reflexivity; reflexivity).
    split; reflexivity.
Qed.


(** *** The scheduler endpoints *)

Lemma scheduler_start_ok_runs : forall freq interval run_immediately st st',
  Scheduler.start freq interval run_immediately st = (Ok tt, st') ->
  Scheduler.is_running (Scheduler.self st') = true.
Proof.
  intros freq interval run_immediately [[tk ir lr nr fr ivs en] c n tr] st' H.
  unfold Scheduler.start, bind, get, Scheduler.set_self, modify, Scheduler.emit,
    Scheduler._calculate_next_run, bind, get, Scheduler.datetime_now,
    Scheduler.set_self, modify, ret, raise in H. simpl in H.
  destruct ir; [injection H as <-; reflexivity|].
  destruct freq; simpl in H;
    try (destruct run_immediately; simpl in H;
         destruct lr; simpl in H; injection H as <-; reflexivity).
  unfold Scheduler.truthy in H.
  destruct interval as [iv|]; simpl in H; [|discriminate H].
  destruct (iv =? 0) eqn:Hz; simpl in H; [discriminate H|].
  destruct run_immediately; simpl in H; rewrite ?Hz in H; simpl in H;
    destruct lr; simpl in H; injection H as <-; reflexivity.
Qed.

(** A start request that is answered 200 leaves a running scheduler. *)
Lemma started_scheduler_is_running :
  forall isoformat frequency interval run_immediately s body s1,
    start_scheduler isoformat frequency interval run_immediately s = (Ok body, s1) ->
    exists w, scheduler s1 = Some w /\ Scheduler.is_running w = true.
Proof.
  intros isoformat frequency interval run_immediately s body s1 H.
  unfold start_scheduler in H.
  destruct (parse_frequency frequency) as [freq|]; [|discriminate H].
  destruct (match interval with Some n => n <? 60 | None => false end); [discriminate H|].
  unfold try_except in H.
  destruct (start_scheduler_body isoformat frequency freq interval run_immediately s)
    as [[v|e] s'] eqn:Hb.
  - injection H as <- <-. unfold start_scheduler_body in Hb.
    rewrite CollectionLaws.bind_run in Hb.
    destruct (async_with_lock _ s) as [[[]|e] s2]; [|discriminate Hb].
    rewrite CollectionLaws.bind_run in Hb.
    unfold on_scheduler in Hb at 1.
    destruct (scheduler s2) as [w|]; [|discriminate Hb].
    destruct (Scheduler.start freq interval run_immediately _) as [[[]|e] t] eqn:Hst;
      [|discriminate Hb].
    apply scheduler_start_ok_runs in Hst.
    unfold bind, get, ret in Hb. injection Hb as _ <-. simpl.
    exists (Scheduler.self t). split; [reflexivity | exact Hst].
  - destruct (is_Exception e); discriminate H.
Qed.

(** X28.  After a start request that was answered 200,
    [POST /workflow/scheduler/stop] answers "stopped" and leaves the
    scheduler not running and not enabled; a second stop request is answered
    404, this handler re-raising its own [HTTPException], and changes
    nothing. *)
Theorem stopping_a_started_scheduler_then_stopping_again :
  forall isoformat frequency interval run_immediately s body s1,
    start_scheduler isoformat frequency interval run_immediately s = (Ok body, s1) ->
    let s2 := snd (stop_scheduler s1) in
    fst (stop_scheduler s1)
    = Ok (JDict [("status", JStr "stopped");
                 ("message", JStr "Scheduler stopped successfully")])
    /\ (exists w, scheduler s2 = Some w
                  /\ Scheduler.is_running w = false /\ Scheduler.enabled w = false)
    /\ stop_scheduler s2 = (Raise (HTTPException 404 "Scheduler is not running"), s2).
Proof.
  intros isoformat frequency interval run_immediately s body s1 H. cbv zeta.
  destruct (started_scheduler_is_running _ _ _ _ _ _ _ H) as [w [Hw Hr]].
  destruct s1 as [st lk sc dbs c n tr tasks qs wt]. simpl in Hw. subst sc.
  destruct w as [tk ir lr nr fr ivs en]. simpl in Hr. subst ir.
  unfold stop_scheduler, try_except, bind, get, on_scheduler, Scheduler.stop, bind, get,
    Scheduler.set_self, modify, Scheduler.emit, ret, raise. simpl.
  destruct tk; simpl; (split; [reflexivity|]); (split; [eexists; repeat split|]); reflexivity.
Qed.

Lemma stopping_a_started_scheduler_then_stopping_again_witness :
  fst (stop_scheduler (snd (start_scheduler PyStr.of_int "daily" None false fresh_server)))
  = Ok (JDict [("status", JStr "stopped");
               ("message", JStr "Scheduler stopped successfully")]).
Proof.
  pose proof (stopping_a_started_scheduler_then_stopping_again
                PyStr.of_int "daily" None false fresh_server
                (match fst (start_scheduler PyStr.of_int "daily" None false fresh_server) with
                 | Ok body => body
                 | Raise _ => JNull
                 end)
                (snd (start_scheduler PyStr.of_int "daily" None false fresh_server))
                eq_refl) as H.
  cbv zeta in H. apply H.
Defined.


(** X29.  After a start request that was answered 200, any further valid
    start request is answered HTTP 500, not the 409 the handler builds (the
    [HTTPException(409)] is caught by [except Exception] and wrapped), and
    the running schedule is left as it is. *)
Theorem second_scheduler_start_answers_500_and_changes_no_schedule :
  forall isoformat frequency interval run_immediately s body s1
         frequency2 interval2 run_immediately2 freq2,
    start_scheduler isoformat frequency interval run_immediately s = (Ok body, s1) ->
    parse_frequency frequency2 = Some freq2 ->
    match interval2 with Some n => 60 <= n | None => True end ->
    let again := start_scheduler isoformat frequency2 interval2 run_immediately2 s1 in
    fst again
    = Raise (HTTPException 500 (str_exn (HTTPException 409 "Scheduler is already running")))
    /\ scheduler (snd again) = scheduler s1
    /\ sched_trace (snd again) = sched_trace s1.
Proof.
  intros isoformat frequency interval run_immediately s body s1
         frequency2 interval2 run_immediately2 freq2 H Hf Hi. cbv zeta.
  destruct (started_scheduler_is_running _ _ _ _ _ _ _ H) as [w [Hw Hr]].
  destruct s1 as [st lk sc dbs c n tr tasks qs wt]. simpl in Hw. subst sc.
  destruct w as [tk ir lr nr fr ivs en]. simpl in Hr. subst ir.
  unfold start_scheduler. rewrite Hf.
  assert (Hv : match interval2 with Some n => n <? 60 | None => false end = false).
  { destruct interval2 as [n2|]; [apply Z.ltb_ge; exact Hi | reflexivity]. }
  rewrite Hv.
  unfold try_except, start_scheduler_body, bind, async_with_lock, lock_acquire,
    lock_release, modify, get, raise. simpl.
  repeat split; reflexivity.
Qed.

Lemma second_scheduler_start_answers_500_and_changes_no_schedule_witness :
  http_status
    (fst (start_scheduler PyStr.of_int "hourly" None false
            (snd (start_scheduler PyStr.of_int "daily" None false fresh_server))))
  = 500.
Proof.
  pose proof (second_scheduler_start_answers_500_and_changes_no_schedule
                PyStr.of_int "daily" None false fresh_server
                (match fst (start_scheduler PyStr.of_int "daily" None false fresh_server) with
                 | Ok body => body
                 | Raise _ => JNull
                 end)
                (snd (start_scheduler PyStr.of_int "daily" None false fresh_server))
                "hourly" None false Scheduler.HOURLY eq_refl eq_refl I) as H.
  cbv zeta in H. destruct H as [H _]. rewrite H. reflexivity.
Defined.





End EndpointLaws.
